(* ===== verification/_CoqProject ===== *)
-Q . S2P
Prelude.v
PyEffects.v
Hamming.v
FloatRatio.v
KnnMatch.v
Matcher.v
Geometry.v
Ransac.v
Localizer.v
Pipeline.v
Cli.v
Process.v
