(* ===== verification/Prelude.v ===== *)
(** * Verification of [src/cv_task_handenur.py]: locating star-map crops

    The program reads two query crops and a reference image, extracts ORB
    features from each, matches each query against the reference with a
    brute-force Hamming k-nearest-neighbour matcher filtered by Lowe's ratio
    test, fits a homography to the matched points, projects the query's four
    corners into the reference frame and draws diamond markers there.  Its
    parts and how they call one another:

    - [read_image] (lines 16-23): [cv2.imread] plus a printed status line;
      returns [None] on failure.  Modelled in [Pipeline.v] over a file
      system [gmap string Image].
    - [find_orb_features] (lines 27-30): a call of ORB's
      [detectAndCompute]; the detector is an interface ([Pipeline.v],
      class [OrbDetector]) whose laws are what the rest of the program
      relies on (one descriptor row per keypoint, bytes, fixed width).
    - [match_orb_features] (lines 34-41): [BFMatcher.knnMatch] with [k=2]
      followed by the ratio-test loop.  [Hamming.v] models the Hamming
      norm, [KnnMatch.v] OpenCV's k-best selection ([batchDistance] with
      [K > 0], spec-modelled from the library), [FloatRatio.v] the IEEE
      double product [0.7 * n.distance], and [Matcher.v] the loop itself,
      including the [ValueError] raised by [for m, n in matches] when a row
      has fewer than two neighbours.
    - [draw_corner_coordinates] (lines 45-107): point extraction, the
      homography fit (an interface, [Localizer.v]), the corner array, the
      perspective transform ([Geometry.v], over exact rationals), the
      side-by-side canvas and the four [drawMarker] calls.
    - [main] (lines 111-141): the whole pipeline as a program in the
      [Py] monad of [PyEffects.v] (exceptions plus an output trace of
      printed lines, windows and the final key wait), in [Pipeline.v].
      Its first lines (112-117) build an argparse parser with three
      optional [--inputK] options and parse [sys.argv[1:]]; [Cli.v]
      models that parser, [parse_args : list string -> cli Args].
    - the entry point (lines 144-145): [Process.v] runs the parser, then
      [main], then the blocking [cv2.waitKey()], and gives the exit
      status (2 for a usage error, 1 for an exception, 0 after a key).

    Files, in dependency order: [Prelude] (this file: the [cv_scope]
    notation [l.[i]], the tactics [inv], [bool_prop], [case_goal], the
    hint database [cv], shared list and integer lemmas), [PyEffects]
    (exceptions as values of [result], the [Py] state monad over the
    output trace, Python subscripts), [Hamming] ([cv::normHamming]),
    [FloatRatio] (binary64 evaluation of line 39), [KnnMatch]
    ([BFMatcher.knnMatch]), [Matcher] ([match_orb_features]), [Geometry]
    ([cv2.perspectiveTransform], homographies, setoid structure),
    [Ransac] (the RANSAC loop of [cv2.findHomography]), [Localizer]
    ([draw_corner_coordinates]), [Pipeline] ([read_image],
    [find_orb_features], [main]), [Cli] (the argparse parser of lines
    112-117), [Process] (the entry point of lines 144-145, the blocking
    [cv2.waitKey()] and the exit status).

    Interfaces.  The two library calls whose internals are out of reach
    are type classes: [HomographySolver] ([cv2.findHomography] with
    RANSAC; law: it recovers a translation from four or more point pairs
    in general position) and [OrbDetector] ([ORB.detectAndCompute]; laws:
    one well-formed 32-byte descriptor row per keypoint, and no
    descriptors ([None]) when there are no keypoints).
    The client theorems of [Localizer] and [Pipeline] are proved against
    the classes; the instances [translation_solver] and [row_detector]
    discharge the laws and make the witnesses run.  [Ransac] models the
    loop inside [findHomography] separately, over a kernel, a sampler, an
    inlier count and [RANSACUpdateNumIters] given as section variables.

    What the theorems show (claim ids in brackets).
    - Matcher: every kept match is valid, has the Hamming distance and
      passes the ratio test against every other train descriptor (C1);
      every clear best match is kept (C2); the code computes a
      declarative specification (C3); fewer than two train descriptors
      raise [ValueError] (C5); order, length, exact copies, ties, empty
      descriptor sets (C23-C26, C30).
    - FloatRatio (C6): the float test agrees with [10 d1 < 7 d2] for
      every distance up to 2048, the largest Hamming distance of two
      256-byte descriptors (ORB's are 32 bytes, at most 256); the check
      over 0..2048 is done once by [vm_compute].
    - KnnMatch: the one-pass K-best insertion of [batchDistance] and the
      [IMGIDX] packing of indices (18 bits, so fewer than 2^18 train rows)
      compute the sorted specification (C7); the type of the result rows
      (C11).  Distances stay below [INT_MAX], the sentinel.
    - Hamming (C10): OpenCV's table-driven routine, unrolled by four,
      computes the bit count of the differences.
    - Localizer: on loaded images the function equals a closed-form
      specification, written from the entries of [H] and the image shape
      without the code's helpers, with its failures in code order (C8); a translated
      copy is localised at the translated corners (C4); a corner outside
      the C [int] range raises in [drawMarker] (C13); fewer than four
      matches and a failed fit raise [cv2.error] (C20, C28); shape of the
      canvas and the marker attributes (C29).
    - Ransac: the loop leaves within [maxIters = 2000] iterations (C18);
      a returned model has at least four inliers or was fitted to exactly
      four pairs (C19).
    - Pipeline: the output is always a prefix of the complete run's
      output, complete when [main] returns (C9); [main] returns only when
      all three images loaded (C12); a failed load still prints the three
      status lines and ends in an exception (C21); matches index the
      keypoint lists (C22); a missing option raises [TypeError] (C27).
    - Process: after a normal return the process exits with status 0 at
      the first key press and stays blocked before it (C14); status 0
      only after the complete output with all images loaded (C15);
      status 1 only after an exception, with no window shown (C16).
    - Cli and Process: the usual command line parses to the namespace of
      its paths (C31); [--inputK=value] round-trips for every value but
      ['--'] (C35); three bare paths, the spec's form, are rejected
      (C33); the exit status of the whole program means a usage error
      (2), an exception (1) or a key press after a complete run (0)
      (C32); an empty command line exits with status 1 (C36), and so
      does an explicit ['--'] value, stored as an empty list that
      [cv2.imread] refuses (C17).
    - Geometry (C34, C37, C38): translation, composition and scaling
      laws of [perspectiveTransform], with [FLT_EPSILON] made explicit.

    Fuel.  Every loop of the script runs over a finite list and is a
    structural [Fixpoint] or [fold_left].  The one library loop whose
    bound changes while it runs, RANSAC's [for (iter < niters)] with
    [niters] shrinking, takes fuel [max(maxIters, 1)], and C18 proves that
    fuel always suffices.  The key wait is modelled over a finite input
    sequence: [run] either exits or is still [Waiting], never out of fuel.

    Not modelled, and why:
    - pixel contents: ORB detection (an interface instead), the lines and
      circles [drawMatches] and [drawMarker] paint, the resize
      interpolation and window rendering; the theorems depend only on
      shapes, positions and marker attributes;
    - what RANSAC computes with: the homography kernel (a DLT solve), the
      random sampler, the reprojection test and [RANSACUpdateNumIters]
      (floating-point logarithms) are parameters of [Ransac], and the
      Levenberg-Marquardt refinement after it is not modelled; the
      localizer uses the fit through an interface whose law covers exact
      translations, the case the script is built for;
    - float32 storage of the point arrays: geometry is exact over [Q];
      the matcher's float test is modelled exactly (FloatRatio);
    - the usage and error text argparse writes to stderr before exiting
      with status 2: the trace records the program's own output only;
      the parser follows CPython 3.8-3.11 (later versions changed the
      handling of [--] and of option prefixes in corner cases). *)

From Stdlib Require Import ZArith List Lia Bool.
Import ListNotations.

Declare Scope cv_scope.
Delimit Scope cv_scope with cv.
Open Scope cv_scope.

(** Python's [seq[i]] on a list or tuple with a non-negative index. *)
Notation "l .[ i ]" := (nth_error l i)
  (at level 1, format "l .[ i ]") : cv_scope.

Create HintDb cv.

(** ** Tactics *)

Ltac inv H := inversion H; subst; clear H.

(** Turn the boolean comparisons the models compute with into the
    propositions [lia] reads. *)
Ltac bool_prop :=
  repeat match goal with
  | H : (_ && _)%bool = true |- _ => apply andb_prop in H as [? ?]
  | H : (_ <? _)%Z = true |- _ => apply Z.ltb_lt in H
  | H : (_ <? _)%Z = false |- _ => apply Z.ltb_ge in H
  | H : (_ <=? _)%Z = true |- _ => apply Z.leb_le in H
  | H : (_ <=? _)%Z = false |- _ => apply Z.leb_gt in H
  | H : (_ =? _)%Z = true |- _ => apply Z.eqb_eq in H
  | H : (_ =? _)%Z = false |- _ => apply Z.eqb_neq in H
  | H : (_ <? _)%nat = true |- _ => apply Nat.ltb_lt in H
  | H : (_ <? _)%nat = false |- _ => apply Nat.ltb_ge in H
  | H : (_ <=? _)%nat = true |- _ => apply Nat.leb_le in H
  | H : (_ <=? _)%nat = false |- _ => apply Nat.leb_gt in H
  | H : (_ =? _)%nat = true |- _ => apply Nat.eqb_eq in H
  | H : (_ =? _)%nat = false |- _ => apply Nat.eqb_neq in H
  end.

(** Case on the first [if] or [match] scrutinee of the goal, keeping the
    equation. *)
Ltac case_goal :=
  match goal with
  | |- context [if ?b then _ else _] => destruct b eqn:?
  | |- context [match ?x with _ => _ end] => destruct x eqn:?
  end.

(** ** Lists *)

Lemma nth_error_lt {A} (l : list A) i x : l.[i] = Some x -> (i < length l)%nat.
Proof. intros H. apply nth_error_Some. congruence. Qed.

Lemma nth_error_In' {A} (l : list A) i x : l.[i] = Some x -> In x l.
Proof. apply nth_error_In. Qed.

Lemma Forall_nth_error {A} (P : A -> Prop) l i x :
  Forall P l -> l.[i] = Some x -> P x.
Proof.
  intros HF Hi. rewrite Forall_forall in HF. eauto using nth_error_In.
Qed.

Lemma nth_error_map_Some {A B} (f : A -> B) l i y :
  (map f l).[i] = Some y -> exists x, l.[i] = Some x /\ y = f x.
Proof.
  rewrite nth_error_map. destruct (l.[i]); simpl; intros H; inv H; eauto.
Qed.

Lemma nth_error_seq_Some s n i :
  (i < n)%nat -> (seq s n).[i] = Some (s + i)%nat.
Proof. intros H. rewrite nth_error_seq. apply Nat.ltb_lt in H. now rewrite H. Qed.

Lemma In_firstn {A} n (l : list A) x : In x (firstn n l) -> In x l.
Proof. intros H. rewrite <- (firstn_skipn n l). apply in_or_app. now left. Qed.

(** In a list of two elements or more, every index has another valid one. *)
Lemma lookup_other {A} (l : list A) j :
  (2 <= length l)%nat -> exists j' x, l.[j'] = Some x /\ j' <> j.
Proof.
  destruct l as [|a [|b l]]; simpl; intros H; try lia.
  destruct j as [|j]; [exists 1%nat, b | exists 0%nat, a]; simpl; auto.
Qed.

Lemma In_combine_map {A B} (f : A -> B) l a b :
  In (a, b) (combine l (map f l)) -> b = f a.
Proof.
  induction l as [|x l IH]; simpl; [easy|].
  intros [E|E]; [now injection E as <- <- | auto].
Qed.

(** ** Integers *)

Lemma Z_of_nat_lt_iff (a b : nat) : (Z.of_nat a < Z.of_nat b)%Z <-> (a < b)%nat.
Proof. lia. Qed.

#[export] Hint Resolve nth_error_lt nth_error_In' In_firstn : cv.
