(* ===== verification/PyEffects.v ===== *)
(** Python's control effects as the script meets them: the exceptions its
    unguarded calls raise, and a trace of the observable output (printed
    lines, windows, key waits) that survives a later exception.  A pure
    fallible computation returns a [result]; an effectful one is a [Py]
    computation, a state-passing function over the output trace. *)

From Stdlib Require Import String List ZArith Lia Bool.
Open Scope bool_scope.
From S2P Require Import Prelude.
Import ListNotations.

(** The exceptions that reach the top level of [main]: none is caught in
    the script. *)
Inductive exn :=
| Cv2Error (fn : string)  (** [cv2.error] raised inside the named OpenCV call *)
| UnpackError            (** [ValueError]: a row of [knnMatch] is not a pair *)
| IndexError             (** [IndexError] of a tuple subscript *)
| TypeError              (** [TypeError], e.g. [str + None] *)
| AttributeError.        (** [AttributeError], e.g. [None.shape] *)

Inductive result (A : Type) :=
| Ok (a : A)
| Raise (e : exn).
Arguments Ok {A} a.
Arguments Raise {A} e.

Definition rbind {A B} (r : result A) (f : A -> result B) : result B :=
  match r with
  | Ok a => f a
  | Raise e => Raise e
  end.

Definition of_option {A} (e : exn) (o : option A) : result A :=
  match o with
  | Some a => Ok a
  | None => Raise e
  end.

Notation "x <-? r ;; k" := (rbind r (fun x => k))
  (at level 100, r at next level, k at level 200, right associativity) : cv_scope.

(** Python's [seq[i]] on a list or tuple: negative indices count from
    the end, anything else out of range raises [IndexError]. *)
Definition py_index {A} (l : list A) (i : Z) : result A :=
  let n := Z.of_nat (length l) in
  if (0 <=? i)%Z && (i <? n)%Z then of_option IndexError (l.[Z.to_nat i])
  else if (- n <=? i)%Z && (i <? 0)%Z then of_option IndexError (l.[Z.to_nat (n + i)])
  else Raise IndexError.

Lemma rbind_Ok {A B} (r : result A) (f : A -> result B) b :
  rbind r f = Ok b <-> exists a, r = Ok a /\ f a = Ok b.
Proof.
  destruct r; simpl; split; intros H.
  - eauto.
  - destruct H as (? & H1 & H2). now inv H1.
  - discriminate.
  - now destruct H as (? & ? & _).
Qed.

Lemma py_index_nat {A} (l : list A) (i : nat) x :
  l.[i] = Some x -> py_index l (Z.of_nat i) = Ok x.
Proof.
  intros H. pose proof (nth_error_lt l i x H). unfold py_index.
  replace ((0 <=? Z.of_nat i)%Z && (Z.of_nat i <? Z.of_nat (length l))%Z) with true
    by (symmetry; apply andb_true_iff; split; [apply Z.leb_le | apply Z.ltb_lt]; lia).
  now rewrite Nat2Z.id, H.
Qed.

Lemma rbind_Raise {A B} (r : result A) (f : A -> result B) e :
  r = Raise e -> rbind r f = Raise e.
Proof. now intros ->. Qed.

(** ** The effect monad: output trace threaded, exceptions as values. *)

Section Py.
Context {Ev : Type}.

Definition Py (A : Type) := list Ev -> result A * list Ev.

Definition ret {A} (a : A) : Py A := fun tr => (Ok a, tr).

Definition bind {A B} (c : Py A) (f : A -> Py B) : Py B :=
  fun tr => match c tr with
            | (Ok a, tr') => f a tr'
            | (Raise e, tr') => (Raise e, tr')
            end.

Definition raise {A} (e : exn) : Py A := fun tr => (Raise e, tr).

(** Emit one observable event after those already produced. *)
Definition emit (ev : Ev) : Py unit := fun tr => (Ok tt, tr ++ [ev]).

(** Run a pure fallible computation. *)
Definition lift {A} (r : result A) : Py A := fun tr => (r, tr).

Lemma bind_ret_l {A B} (a : A) (f : A -> Py B) tr : bind (ret a) f tr = f a tr.
Proof. reflexivity. Qed.

Lemma bind_ret_r {A} (c : Py A) tr : bind c ret tr = c tr.
Proof. unfold bind, ret. now destruct (c tr) as [[] ?]. Qed.

Lemma bind_assoc {A B C} (c : Py A) (f : A -> Py B) (g : B -> Py C) tr :
  bind (bind c f) g tr = bind c (fun a => bind (f a) g) tr.
Proof. unfold bind. now destruct (c tr) as [[] ?]. Qed.

Lemma bind_raise {A B} e (f : A -> Py B) tr : bind (raise e) f tr = (Raise e, tr).
Proof. reflexivity. Qed.

Lemma bind_lift_Raise {A B} e (f : A -> Py B) tr :
  bind (lift (Raise e)) f tr = (Raise e, tr).
Proof. reflexivity. Qed.

(** A computation only appends to the trace: output once produced is
    never retracted, even when an exception follows. *)
Definition appends {A} (c : Py A) : Prop :=
  forall tr, exists sfx, snd (c tr) = tr ++ sfx.

Lemma appends_ret {A} (a : A) : appends (ret a).
Proof. intros tr. exists []. now rewrite app_nil_r. Qed.

Lemma appends_raise {A} e : appends (@raise A e).
Proof. intros tr. exists []. now rewrite app_nil_r. Qed.

Lemma appends_emit ev : appends (emit ev).
Proof. intros tr. now exists [ev]. Qed.

Lemma appends_lift {A} (r : result A) : appends (lift r).
Proof. intros tr. exists []. now rewrite app_nil_r. Qed.

Lemma appends_bind {A B} (c : Py A) (f : A -> Py B) :
  appends c -> (forall a, appends (f a)) -> appends (bind c f).
Proof.
  intros Hc Hf tr. unfold bind. destruct (Hc tr) as [s1 E1].
  destruct (c tr) as [[a|e] tr'] eqn:Ec; simpl in E1; subst tr'.
  - destruct (Hf a (tr ++ s1)) as [s2 E2]. exists (s1 ++ s2).
    now rewrite E2, app_assoc.
  - now exists s1.
Qed.
End Py.

Declare Scope py_scope.
Delimit Scope py_scope with py.
Notation "x <- c ;; k" := (bind c (fun x => k))
  (at level 100, c at next level, k at level 200, right associativity) : py_scope.
Notation "c ;; k" := (bind c (fun _ => k))
  (at level 100, k at level 200, right associativity) : py_scope.

Create HintDb py.
#[export] Hint Resolve appends_ret appends_raise appends_emit appends_lift
  appends_bind : py.
