(* ===== verification/Hamming.v ===== *)
(** The Hamming norm that [cv2.BFMatcher(cv2.NORM_HAMMING)] uses to
    compare ORB descriptors (line 35 of the script): a descriptor is a row
    of bytes (uint8, as [Z] in [0, 256)), and the distance of two rows is
    the number of differing bits.  [normHamming] is the reference, the
    per-byte bit count written with [Z.testbit]; [hal_normHamming] is
    OpenCV's routine as written, [popCountTable] lookups in a loop
    unrolled by four and a scalar tail, proved equal to it on bytes.
    Proved of the reference: bounds, symmetry, identity of
    indiscernibles and the triangle inequality. *)

From Stdlib Require Import ZArith List Lia Bool.
From S2P Require Import Prelude.
Import ListNotations.
Open Scope Z_scope.

Module Hamming.

(** ** Definitions *)

Definition is_byte (x : Z) : bool := (0 <=? x) && (x <? 256).

(** A descriptor row of width [w]: [w] bytes. *)
Definition row_ok (w : nat) (r : list Z) : bool :=
  Nat.eqb (length r) w && forallb is_byte r.

Definition sumZ (l : list Z) : Z := fold_right Z.add 0 l.

(** [popCountTable[x]]: the number of set bits among the 8 bits of a byte. *)
Definition popcount8 (x : Z) : Z :=
  sumZ (map (fun i => Z.b2z (Z.testbit x (Z.of_nat i))) (seq 0 8)).

Definition byte_dist (a b : Z) : Z := popcount8 (Z.lxor a b).

(** [normHamming(a, b, n)] over two rows of the same width. *)
Fixpoint normHamming (a b : list Z) : Z :=
  match a, b with
  | x :: a', y :: b' => byte_dist x y + normHamming a' b'
  | _, _ => 0
  end.

(** ** The library routine

    OpenCV's [hal::normHamming(a, b, n)] (core, [norm.cpp]) as compiled
    without SIMD: a loop unrolled by four, then a scalar tail, each byte
    pair costed by a lookup in [popCountTable].  The SIMD path sums the
    same per-byte counts lane by lane. *)

(** [static const uchar popCountTable[256]]. *)
Definition popCountTable : list Z :=
  [ 0;1;1;2;1;2;2;3;1;2;2;3;2;3;3;4;
    1;2;2;3;2;3;3;4;2;3;3;4;3;4;4;5;
    1;2;2;3;2;3;3;4;2;3;3;4;3;4;4;5;
    2;3;3;4;3;4;4;5;3;4;4;5;4;5;5;6;
    1;2;2;3;2;3;3;4;2;3;3;4;3;4;4;5;
    2;3;3;4;3;4;4;5;3;4;4;5;4;5;5;6;
    2;3;3;4;3;4;4;5;3;4;4;5;4;5;5;6;
    3;4;4;5;4;5;5;6;4;5;5;6;5;6;6;7;
    1;2;2;3;2;3;3;4;2;3;3;4;3;4;4;5;
    2;3;3;4;3;4;4;5;3;4;4;5;4;5;5;6;
    2;3;3;4;3;4;4;5;3;4;4;5;4;5;5;6;
    3;4;4;5;4;5;5;6;4;5;5;6;5;6;6;7;
    2;3;3;4;3;4;4;5;3;4;4;5;4;5;5;6;
    3;4;4;5;4;5;5;6;4;5;5;6;5;6;6;7;
    3;4;4;5;4;5;5;6;4;5;5;6;5;6;6;7;
    4;5;5;6;5;6;6;7;5;6;6;7;6;7;7;8 ].

(** [popCountTable[a[i] ^ b[i]]]. *)
Definition table_dist (x y : Z) : Z := nth (Z.to_nat (Z.lxor x y)) popCountTable 0.

(** [for(; i < n; i++) result += popCountTable[a[i] ^ b[i]];] *)
Fixpoint hamming_tail (a b : list Z) (result : Z) : Z :=
  match a, b with
  | x :: a', y :: b' => hamming_tail a' b' (result + table_dist x y)
  | _, _ => result
  end.

(** [for(; i <= n - 4; i += 4) result += popCountTable[a[i] ^ b[i]] + ...
    + popCountTable[a[i+3] ^ b[i+3]];] followed by the tail loop. *)
Fixpoint hamming_unrolled (a b : list Z) (result : Z) : Z :=
  match a, b with
  | x0 :: x1 :: x2 :: x3 :: a', y0 :: y1 :: y2 :: y3 :: b' =>
      hamming_unrolled a' b'
        (result + (table_dist x0 y0 + table_dist x1 y1 + table_dist x2 y2 + table_dist x3 y3))
  | _, _ => hamming_tail a b result
  end.

Definition hal_normHamming (a b : list Z) : Z := hamming_unrolled a b 0.

(** ** Sums of bits *)

Lemma sumZ_map_bounds {A} (f : A -> Z) (l : list A) lo hi :
  (forall x, In x l -> lo <= f x <= hi) ->
  lo * Z.of_nat (length l) <= sumZ (map f l) <= hi * Z.of_nat (length l).
Proof.
  induction l as [|x l IH]; simpl; intros H; [lia|].
  specialize (IH (fun y Hy => H y (or_intror Hy))). specialize (H x (or_introl eq_refl)).
  lia.
Qed.

Lemma sumZ_map_le {A} (f g : A -> Z) (l : list A) :
  (forall x, In x l -> f x <= g x) -> sumZ (map f l) <= sumZ (map g l).
Proof.
  induction l as [|x l IH]; simpl; intros H; [lia|].
  specialize (IH (fun y Hy => H y (or_intror Hy))). specialize (H x (or_introl eq_refl)).
  lia.
Qed.

Lemma sumZ_map_add {A} (f g : A -> Z) (l : list A) :
  sumZ (map (fun x => f x + g x) l) = sumZ (map f l) + sumZ (map g l).
Proof. induction l; simpl; lia. Qed.

Lemma sumZ_map_nonneg {A} (f : A -> Z) (l : list A) :
  (forall x, In x l -> 0 <= f x) -> 0 <= sumZ (map f l).
Proof.
  induction l as [|y l IH]; simpl; intros H; [lia|].
  specialize (IH (fun z Hz => H z (or_intror Hz))). specialize (H y (or_introl eq_refl)).
  lia.
Qed.

Lemma sumZ_map_zero {A} (f : A -> Z) (l : list A) :
  (forall x, In x l -> 0 <= f x) -> sumZ (map f l) = 0 -> forall x, In x l -> f x = 0.
Proof.
  induction l as [|y l IH]; simpl; intros Hpos H0 x Hx; [easy|].
  assert (0 <= f y) by auto.
  assert (0 <= sumZ (map f l)) by (apply sumZ_map_nonneg; auto).
  destruct Hx as [<-|Hx]; [lia|]. apply IH; auto; lia.
Qed.

Lemma b2z_bounds b : 0 <= Z.b2z b <= 1.
Proof. destruct b; simpl; lia. Qed.

(** ** The byte table *)

Lemma popcount8_bounds x : 0 <= popcount8 x <= 8.
Proof.
  unfold popcount8.
  pose proof (sumZ_map_bounds (fun i => Z.b2z (Z.testbit x (Z.of_nat i))) (seq 0 8) 0 1)
    as H.
  rewrite length_seq in H. simpl in H. apply H. intros. apply b2z_bounds.
Qed.

Lemma byte_dist_bounds a b : 0 <= byte_dist a b <= 8.
Proof. apply popcount8_bounds. Qed.

Lemma byte_dist_comm a b : byte_dist a b = byte_dist b a.
Proof. unfold byte_dist. now rewrite Z.lxor_comm. Qed.

Lemma byte_dist_refl a : byte_dist a a = 0.
Proof. unfold byte_dist. now rewrite Z.lxor_nilpotent. Qed.

(** Bits from 8 on of a byte are clear. *)
Lemma byte_testbit_high x i : is_byte x = true -> 8 <= i -> Z.testbit x i = false.
Proof.
  unfold is_byte. intros H Hi. bool_prop.
  destruct (Z.eq_dec x 0) as [->|Hx]; [apply Z.testbit_0_l|].
  apply Z.bits_above_log2; [lia|].
  assert (Z.log2 x < 8); [|lia].
  apply Z.log2_lt_pow2; lia.
Qed.

Lemma byte_dist_zero a b :
  is_byte a = true -> is_byte b = true -> byte_dist a b = 0 -> a = b.
Proof.
  intros Ha Hb H. unfold byte_dist, popcount8 in H.
  pose proof (sumZ_map_zero _ _ (fun i _ => proj1 (b2z_bounds (Z.testbit (Z.lxor a b) (Z.of_nat i))))
                H) as Hz.
  apply Z.bits_inj. intros i.
  destruct (Z.neg_nonneg_cases i) as [Hn|Hp]; [now rewrite !Z.testbit_neg_r by lia|].
  destruct (Z_lt_le_dec i 8) as [Hi|Hi].
  - assert (In (Z.to_nat i) (seq 0 8)) as Hin by (apply in_seq; lia).
    specialize (Hz (Z.to_nat i) Hin). cbv beta in Hz.
    rewrite Z2Nat.id, Z.lxor_spec in Hz by lia.
    destruct (Z.testbit a i), (Z.testbit b i); simpl in Hz; congruence.
  - now rewrite !byte_testbit_high.
Qed.

Lemma byte_dist_triangle a b c : byte_dist a c <= byte_dist a b + byte_dist b c.
Proof.
  unfold byte_dist, popcount8. rewrite <- sumZ_map_add. apply sumZ_map_le.
  intros i _. rewrite !Z.lxor_spec.
  destruct (Z.testbit a _), (Z.testbit b _), (Z.testbit c _); simpl; lia.
Qed.

(** ** The row distance *)

Lemma normHamming_bounds a b :
  0 <= normHamming a b <= 8 * Z.of_nat (length a).
Proof.
  revert b. induction a as [|x a IH]; intros [|y b]; simpl; try lia.
  specialize (IH b). pose proof (byte_dist_bounds x y). lia.
Qed.

Lemma normHamming_comm a b : normHamming a b = normHamming b a.
Proof.
  revert b. induction a as [|x a IH]; intros [|y b]; simpl; auto.
  now rewrite byte_dist_comm, IH.
Qed.

Lemma normHamming_refl a : normHamming a a = 0.
Proof. induction a; simpl; [|rewrite byte_dist_refl]; lia. Qed.

Lemma normHamming_zero a b :
  length a = length b -> forallb is_byte a = true -> forallb is_byte b = true ->
  normHamming a b = 0 -> a = b.
Proof.
  revert b. induction a as [|x a IH]; intros [|y b]; simpl; try easy.
  intros Hl Ha Hb H. bool_prop.
  pose proof (byte_dist_bounds x y). pose proof (normHamming_bounds a b).
  rewrite (byte_dist_zero x y), (IH b); auto; lia.
Qed.

Lemma normHamming_triangle a b c :
  length a = length b -> length b = length c ->
  normHamming a c <= normHamming a b + normHamming b c.
Proof.
  revert b c. induction a as [|x a IH]; intros [|y b] [|z c]; simpl; try easy; try lia.
  intros H1 H2. pose proof (byte_dist_triangle x y z). specialize (IH b c). lia.
Qed.

(** ** The library routine computes the norm *)

(** The table holds the bit count of every byte. *)
Lemma popCountTable_spec z : 0 <= z < 256 -> nth (Z.to_nat z) popCountTable 0 = popcount8 z.
Proof.
  intros Hz.
  assert (Hall : forallb (fun n => nth n popCountTable 0 =? popcount8 (Z.of_nat n)) (seq 0 256)
                 = true) by (vm_compute; reflexivity).
  rewrite forallb_forall in Hall.
  specialize (Hall (Z.to_nat z) ltac:(apply in_seq; lia)).
  apply Z.eqb_eq in Hall. now rewrite Z2Nat.id in Hall by lia.
Qed.

Lemma log2_byte x : is_byte x = true -> Z.log2 x < 8.
Proof.
  unfold is_byte. intros H. bool_prop.
  destruct (Z.eq_dec x 0) as [->|]; [simpl; lia|].
  apply Z.log2_lt_pow2; [lia|]. change (2 ^ 8) with 256. lia.
Qed.

Lemma lxor_byte x y : is_byte x = true -> is_byte y = true -> 0 <= Z.lxor x y < 256.
Proof.
  intros Hx Hy. pose proof (log2_byte x Hx). pose proof (log2_byte y Hy).
  unfold is_byte in Hx, Hy. bool_prop.
  assert (0 <= Z.lxor x y) by (apply Z.lxor_nonneg; lia).
  split; [assumption|].
  destruct (Z.eq_dec (Z.lxor x y) 0) as [->|]; [lia|].
  change 256 with (2 ^ 8). apply Z.log2_lt_pow2; [lia|].
  pose proof (Z.log2_lxor x y ltac:(lia) ltac:(lia)). lia.
Qed.

Lemma table_dist_spec x y :
  is_byte x = true -> is_byte y = true -> table_dist x y = byte_dist x y.
Proof. intros Hx Hy. apply popCountTable_spec, lxor_byte; assumption. Qed.

Lemma hamming_tail_spec a b r :
  forallb is_byte a = true -> forallb is_byte b = true ->
  hamming_tail a b r = r + normHamming a b.
Proof.
  revert b r. induction a as [|x a IH]; intros [|y b] r Ha Hb; simpl; try lia.
  simpl in Ha, Hb. bool_prop. rewrite IH, table_dist_spec by assumption. lia.
Qed.

Lemma hamming_unrolled_spec a b r :
  forallb is_byte a = true -> forallb is_byte b = true ->
  hamming_unrolled a b r = r + normHamming a b.
Proof.
  remember (length a) as n eqn:En. revert a b r En.
  induction n as [n IH] using lt_wf_ind.
  intros [|x0 [|x1 [|x2 [|x3 a]]]] b r En Ha Hb;
    try (destruct b as [|y0 [|y1 [|y2 [|y3 b]]]]; apply hamming_tail_spec; assumption).
  destruct b as [|y0 [|y1 [|y2 [|y3 b]]]]; try (apply hamming_tail_spec; assumption).
  cbn [hamming_unrolled normHamming]. cbn [forallb] in Ha, Hb. bool_prop.
  rewrite (IH (length a)) by (cbn [length] in En; lia || assumption).
  rewrite !table_dist_spec by assumption. lia.
Qed.

(** C10: OpenCV's routine, a table lookup per byte pair in a loop
    unrolled by four and a scalar tail, computes the Hamming norm
    (the number of differing bits) of two byte rows. *)
Theorem hal_normHamming_equiv a b :
  forallb is_byte a = true -> forallb is_byte b = true ->
  hal_normHamming a b = normHamming a b.
Proof. intros Ha Hb. unfold hal_normHamming. now rewrite hamming_unrolled_spec. Qed.

Lemma hal_normHamming_equiv_witness :
  (forallb is_byte [255; 0; 7; 128; 1] = true /\ forallb is_byte [0; 0; 5; 129; 1] = true)
  /\ hal_normHamming [255; 0; 7; 128; 1] [0; 0; 5; 129; 1] = normHamming [255; 0; 7; 128; 1] [0; 0; 5; 129; 1].
Proof.
  split; [split; reflexivity|]. apply hal_normHamming_equiv; reflexivity.
Defined.

End Hamming.
