(* ===== verification/FloatRatio.v ===== *)
(** The float arithmetic of Lowe's ratio test, line 39 of the script:
    [m.distance < 0.7 * n.distance].  The distances are [float32] values
    of integer Hamming distances (exact below 2^24) read as Python floats
    (binary64, exact); [0.7] is the binary64 literal nearest to 7/10, and
    the product is rounded to nearest, ties to even.  A binary64 value is
    kept as a dyadic [m * 2^e] with the rounding written out on the
    integer significand; the magnitudes involved (at most 2^64) are far
    from overflow and from the subnormal range, which are not modelled.

    Main result: on integer distances with [0 <= n.distance <= 2048] (the
    largest Hamming distance of descriptors up to 256 bytes; ORB's are 32
    bytes, so at most 256) the float test decides exactly the rational
    inequality [10 * m.distance < 7 * n.distance]. *)

From Stdlib Require Import ZArith List Lia Bool.
From S2P Require Import Prelude.
Import ListNotations.
Open Scope Z_scope.

Module FloatRatio.

(** ** Binary64 values and the rounded product *)

Record dyadic := mkD { mant : Z; expo : Z }.

Definition prec : Z := 53.

(** Round the positive value [p * 2^e] to [prec] significant bits, to
    nearest, ties to even. *)
Definition round_ne (p e : Z) : dyadic :=
  if p <=? 0 then mkD p e
  else
    let s := Z.log2 p + 1 - prec in
    if s <=? 0 then mkD p e
    else
      let q := Z.shiftr p s in
      let r := p - Z.shiftl q s in
      let half := Z.shiftl 1 (s - 1) in
      let q' := if (half <? r) || ((r =? half) && Z.odd q) then q + 1 else q in
      mkD q' (e + s).

(** [float(k)] of an integer [k] with [|k| < 2^24]: exact. *)
Definition of_int (k : Z) : dyadic := mkD k 0.

(** IEEE multiplication of two binary64 values. *)
Definition dmul (x y : dyadic) : dyadic :=
  round_ne (mant x * mant y) (expo x + expo y).

(** The literal [0.7]: 3152519739159347 * 2^-52. *)
Definition lit_0_7 : dyadic := mkD 3152519739159347 (-52).

(** [d < v] for an integer [d] and a binary64 [v], decided exactly. *)
Definition lt_int (d : Z) (v : dyadic) : bool :=
  if 0 <=? expo v then d <? mant v * 2 ^ expo v
  else d * 2 ^ (- expo v) <? mant v.

(** Line 39: [m.distance < 0.7 * n.distance]. *)
Definition ratio_test (m_distance n_distance : Z) : bool :=
  lt_int m_distance (dmul lit_0_7 (of_int n_distance)).

(** The exact test the float one stands for. *)
Definition ratio_test_exact (m_distance n_distance : Z) : bool :=
  10 * m_distance <? 7 * n_distance.

(** ** Lemmas *)

(** The literal is the binary64 value nearest to 7/10: written as
    [m * 2^-53] its significand [m = 2 * mant] has exactly 53 bits, and
    it lies within half a unit in the last place (2^-54) of 7/10. *)
Lemma lit_0_7_nearest :
  2 ^ (prec - 1) <= 2 * mant lit_0_7 < 2 ^ prec
  /\ 2 * Z.abs (10 * (2 * mant lit_0_7) - 7 * 2 ^ (1 - expo lit_0_7)) <= 10.
Proof. unfold lit_0_7, prec; cbn [mant expo]. lia. Qed.

(** [lt_int] is downward closed in its integer argument. *)
Lemma lt_int_mono d d' v : d' <= d -> lt_int d v = true -> lt_int d' v = true.
Proof.
  unfold lt_int. intros Hle. case_goal; intros H; bool_prop; apply Z.ltb_lt.
  - lia.
  - assert (0 < 2 ^ (- expo v)) by (apply Z.pow_pos_nonneg; lia). nia.
Qed.

(** The per-threshold check: with [k] the ceiling of [7 * n / 10], the
    float test holds at [k - 1] and fails at [k]. *)
Definition threshold (n : Z) : Z := (7 * n + 9) / 10.

Definition agrees_at (n : Z) : bool :=
  let v := dmul lit_0_7 (of_int n) in
  lt_int (threshold n - 1) v && negb (lt_int (threshold n) v).

Lemma agrees_at_all :
  forallb agrees_at (map Z.of_nat (seq 0 2049)) = true.
Proof. vm_compute. reflexivity. Qed.

Lemma agrees_at_range n : 0 <= n <= 2048 -> agrees_at n = true.
Proof.
  intros Hn. pose proof agrees_at_all as H. rewrite forallb_forall in H.
  apply H. apply in_map_iff. exists (Z.to_nat n). split; [lia|].
  apply in_seq. lia.
Qed.

Lemma threshold_spec n d : 10 * d < 7 * n <-> d <= threshold n - 1.
Proof.
  unfold threshold.
  pose proof (Z.div_mod (7 * n + 9) 10 ltac:(lia)).
  pose proof (Z.mod_pos_bound (7 * n + 9) 10 ltac:(lia)).
  split; intros; lia.
Qed.

Lemma ratio_test_exact_agree d1 d2 :
  0 <= d2 <= 2048 -> ratio_test d1 d2 = ratio_test_exact d1 d2.
Proof.
  intros Hd2. pose proof (agrees_at_range d2 Hd2) as H.
  unfold agrees_at in H. apply andb_prop in H as [Hbelow Hat].
  apply negb_true_iff in Hat.
  unfold ratio_test, ratio_test_exact.
  destruct (Z.ltb_spec (10 * d1) (7 * d2)) as [Hlt|Hge].
  - apply threshold_spec in Hlt. eapply lt_int_mono; eauto.
  - destruct (lt_int d1 _) eqn:E; [|reflexivity].
    assert (Hk : threshold d2 <= d1) by (pose proof (threshold_spec d2 d1); lia).
    now rewrite (lt_int_mono _ _ _ Hk E) in Hat.
Qed.

(** C6: on the Hamming distances the matcher produces, the float test of
    line 39 decides exactly [10 * m.distance < 7 * n.distance]: rounding of
    [0.7] and of the product never flips the outcome. *)
Theorem ratio_test_agrees d1 d2 :
  0 <= d2 <= 2048 -> ratio_test d1 d2 = ratio_test_exact d1 d2.
Proof. intros; now apply ratio_test_exact_agree. Qed.

(** At [n.distance = 90] the product [0.7 * 90] rounds to a value below
    63, and the test at [m.distance = 63] is still the exact one. *)
Lemma ratio_test_agrees_witness :
  0 <= 90 <= 2048 /\ ratio_test 63 90 = ratio_test_exact 63 90.
Proof. split; [lia | apply (ratio_test_agrees 63 90); lia]. Defined.

End FloatRatio.
