(* ===== verification/KnnMatch.v ===== *)
(** [bf.knnMatch(descriptor1, descriptor2, k=2)] of line 36, the part of
    OpenCV the script relies on (not code of the repository: modelled
    from the library's [DescriptorMatcher::knnMatch],
    [BFMatcher::knnMatchImpl] and [cv::batchDistance] with [K > 0]).

    - A descriptor set is a matrix of bytes, [DescMat]; Python's [None]
      (no keypoints) reaches OpenCV as the empty 0x0 matrix.
    - For each query row, [batchDistance] keeps a row of [K = min(k,
      train rows)] best (distance, index) entries, initialised to
      [(INT_MAX, -1)], and scans the train rows in order: a candidate
      whose distance is below the last entry's is inserted after every
      entry of smaller or equal distance, the entries behind it move one
      slot right and the last falls off ([insert_candidate]).
    - [knnMatchImpl] turns the leading entries with index [>= 0] into
      [DMatch(qIdx, idx & (IMGIDX_ONE-1), idx >> IMGIDX_SHIFT, dist)].
    - An empty query gives no rows; a train set of [2^18] rows or more,
      or of another width, raises [cv2.error].

    Proved: the row equals the first [K] entries of the candidate list
    sorted by (distance, index) (refinement of [knn_spec]), and from it
    the shape and ordering facts the matcher uses. *)

From Stdlib Require Import String ZArith List Lia Bool Sorted Permutation.
From S2P Require Import Prelude PyEffects Hamming.
Import ListNotations.
Open Scope Z_scope.

Module KnnMatch.
Import Hamming.

(** ** Data *)

(** [cv::DMatch]: the fields the script reads are [queryIdx], [trainIdx]
    and [distance] (a [float32] holding an integer Hamming distance). *)
Record DMatch := mkDMatch { queryIdx : Z; trainIdx : Z; imgIdx : Z; distance : Z }.

(** A descriptor matrix: its width and its rows. *)
Record DescMat := mkMat { mcols : nat; mrows : list (list Z) }.

(** Python's [None] descriptors, as OpenCV's binding converts them. *)
Definition empty_mat : DescMat := mkMat 0 [].

Definition mat_empty (m : DescMat) : bool :=
  match mrows m with
  | [] => true
  | _ => Nat.eqb (mcols m) 0
  end.

Definition INT_MAX : Z := 2147483647.
Definition IMGIDX_SHIFT : Z := 18.
Definition IMGIDX_ONE : Z := Z.shiftl 1 IMGIDX_SHIFT.

(** An entry of the K-best row: (distance, train index). *)
Definition entry : Type := (Z * Z)%type.
Definition sentinel : entry := (INT_MAX, -1).

(** ** The K-best row of [batchDistance] *)

(** The inner loop: [x] takes the slot of the first entry with a larger
    distance, the entries from there move one slot right, the last one
    is dropped. *)
Fixpoint shift_in (x : entry) (row : list entry) : list entry :=
  match row with
  | [] => []
  | y :: row' => if fst x <? fst y then x :: removelast row else y :: shift_in x row'
  end.

(** [if( d < distptr[K-1] ) { ... }] *)
Definition insert_candidate (row : list entry) (x : entry) : list entry :=
  if fst x <? fst (last row sentinel) then shift_in x row else row.

(** The distances of one query row to the train rows, with their indices. *)
Fixpoint candidates_from (j : Z) (q : list Z) (train : list (list Z)) : list entry :=
  match train with
  | [] => []
  | t :: train' => (normHamming q t, j) :: candidates_from (j + 1) q train'
  end.

Definition knn_row (K : nat) (q : list Z) (train : list (list Z)) : list entry :=
  fold_left insert_candidate (candidates_from 0 q train) (repeat sentinel K).

(** [for k < nidx.cols: if nidxptr[k] < 0 break; mq.push_back(DMatch(...))] *)
Fixpoint row_matches (qIdx : Z) (row : list entry) : list DMatch :=
  match row with
  | [] => []
  | (d, i) :: rest =>
      if i <? 0 then []
      else mkDMatch qIdx (Z.land i (IMGIDX_ONE - 1)) (Z.shiftr i IMGIDX_SHIFT) d
             :: row_matches qIdx rest
  end.

Fixpoint rows_matches (K : nat) (qIdx : Z) (qs train : list (list Z))
  : list (list DMatch) :=
  match qs with
  | [] => []
  | q :: qs' => row_matches qIdx (knn_row K q train) :: rows_matches K (qIdx + 1) qs' train
  end.

Definition knnMatch (query train : DescMat) (k : nat) : result (list (list DMatch)) :=
  if mat_empty query then Ok []
  else if IMGIDX_ONE <=? Z.of_nat (length (mrows train)) then Raise (Cv2Error "knnMatch")
  else if negb (Nat.eqb (mcols query) (mcols train)) then Raise (Cv2Error "batchDistance")
  else Ok (rows_matches (Nat.min k (length (mrows train))) 0 (mrows query) (mrows train)).

(** ** Reference: sorting by (distance, index) *)

Definition lex_ltb (a b : entry) : bool :=
  (fst a <? fst b) || ((fst a =? fst b) && (snd a <? snd b)).

Definition lex_le (a b : entry) : Prop :=
  fst a < fst b \/ (fst a = fst b /\ snd a <= snd b).

Fixpoint ins_lex (x : entry) (l : list entry) : list entry :=
  match l with
  | [] => [x]
  | y :: l' => if lex_ltb x y then x :: l else y :: ins_lex x l'
  end.

Definition sort_lex (l : list entry) : list entry :=
  fold_left (fun s x => ins_lex x s) l [].

(** The specification of one query's row: the [K] least candidates. *)
Definition knn_spec (K : nat) (q : list Z) (train : list (list Z)) : list entry :=
  firstn K (sort_lex (candidates_from 0 q train)).

Definition to_dmatch (qIdx : Z) (e : entry) : DMatch :=
  mkDMatch qIdx (snd e) 0 (fst e).

(** The specification of [knnMatch]: for each query row, in order, its
    [K] least candidates as matches. *)
Fixpoint knnMatch_spec (K : nat) (qIdx : Z) (qs train : list (list Z))
  : list (list DMatch) :=
  match qs with
  | [] => []
  | q :: qs' => map (to_dmatch qIdx) (knn_spec K q train) :: knnMatch_spec K (qIdx + 1) qs' train
  end.

(** A well-formed descriptor matrix: every row has the declared width
    and holds bytes. *)
Definition mat_ok (m : DescMat) : bool := forallb (row_ok (mcols m)) (mrows m).

(** ** Sorting lemmas *)

Definition le_d (a b : entry) : Prop := fst a <= fst b.

Lemma lex_ltb_le x y : lex_ltb x y = true -> lex_le x y.
Proof. unfold lex_ltb, lex_le. intros H. apply orb_true_iff in H as [H|H]; bool_prop; lia. Qed.

Lemma lex_ltb_false x y : lex_ltb x y = false -> lex_le y x.
Proof.
  unfold lex_ltb, lex_le. intros H. apply orb_false_iff in H as [H1 H2].
  bool_prop. apply andb_false_iff in H2 as [H2|H2]; bool_prop; lia.
Qed.

Lemma lex_le_trans x y z : lex_le x y -> lex_le y z -> lex_le x z.
Proof. unfold lex_le. lia. Qed.

Lemma lex_le_d x y : lex_le x y -> le_d x y.
Proof. unfold lex_le, le_d. lia. Qed.

Lemma StronglySorted_firstn {A} (R : A -> A -> Prop) n l :
  StronglySorted R l -> StronglySorted R (firstn n l).
Proof.
  revert l. induction n as [|n IH]; intros [|x l] H; simpl; [constructor..|].
  inv H. constructor; auto.
  rewrite Forall_forall in *. intros y Hy. eauto using In_firstn.
Qed.

Lemma StronglySorted_app {A} (R : A -> A -> Prop) l1 l2 :
  StronglySorted R l1 -> StronglySorted R l2 ->
  (forall x y, In x l1 -> In y l2 -> R x y) -> StronglySorted R (l1 ++ l2).
Proof.
  induction l1 as [|x l1 IH]; simpl; intros H1 H2 H12; auto.
  inv H1. constructor; auto.
  apply Forall_app. split; auto. apply Forall_forall. auto.
Qed.

Lemma StronglySorted_repeat {A} (R : A -> A -> Prop) x n :
  R x x -> StronglySorted R (repeat x n).
Proof.
  intros Hx. induction n; simpl; constructor; auto.
  apply Forall_forall. intros y Hy. apply repeat_spec in Hy. now subst.
Qed.

Lemma ins_lex_perm x l : Permutation (ins_lex x l) (x :: l).
Proof.
  induction l as [|y l IH]; simpl; auto.
  case_goal; auto. rewrite IH. apply perm_swap.
Qed.

Lemma ins_lex_sorted x l :
  StronglySorted lex_le l -> StronglySorted lex_le (ins_lex x l).
Proof.
  induction l as [|y l IH]; simpl; intros H.
  - repeat constructor.
  - inv H. case_goal.
    + apply lex_ltb_le in Heqb. constructor; [constructor; auto|].
      constructor; auto. rewrite Forall_forall in *. eauto using lex_le_trans.
    + apply lex_ltb_false in Heqb. constructor; auto.
      eapply Permutation_Forall; [symmetry; apply ins_lex_perm|]. auto.
Qed.

Lemma sort_lex_app l x : sort_lex (l ++ [x]) = ins_lex x (sort_lex l).
Proof. unfold sort_lex. now rewrite fold_left_app. Qed.

Lemma sort_lex_perm l : Permutation (sort_lex l) l.
Proof.
  induction l as [|x l IH] using rev_ind; [reflexivity|].
  rewrite sort_lex_app, ins_lex_perm, IH. apply Permutation_cons_append.
Qed.

Lemma sort_lex_sorted l : StronglySorted lex_le (sort_lex l).
Proof.
  induction l as [|x l IH] using rev_ind; [constructor|].
  rewrite sort_lex_app. now apply ins_lex_sorted.
Qed.

Lemma StronglySorted_le_d l : StronglySorted lex_le l -> StronglySorted le_d l.
Proof.
  intros H. induction H; constructor; auto.
  eapply Forall_impl; [|eassumption]. apply lex_le_d.
Qed.

(** ** The insertion of [batchDistance] against sorted insertion *)

(** Insertion after every entry of smaller or equal distance. *)
Fixpoint ins_after (x : entry) (l : list entry) : list entry :=
  match l with
  | [] => [x]
  | y :: l' => if fst x <? fst y then x :: l else y :: ins_after x l'
  end.

Lemma length_ins_after x l : length (ins_after x l) = S (length l).
Proof. induction l; simpl; [|case_goal]; simpl; auto. Qed.

Lemma shift_in_firstn x r :
  fst x < fst (last r sentinel) -> shift_in x r = firstn (length r) (ins_after x r).
Proof.
  induction r as [|y r IH]; intros H; [reflexivity|].
  cbn [shift_in ins_after length]. case_goal; cbn [firstn].
  - f_equal. rewrite removelast_firstn_len. reflexivity.
  - f_equal. apply IH. destruct r; simpl in *; [bool_prop; lia | exact H].
Qed.

Lemma last_In {A} (l : list A) d : l <> [] -> In (last l d) l.
Proof.
  induction l as [|x l IH]; [easy|]. intros _. destruct l; simpl; auto.
  right. apply IH. discriminate.
Qed.

Lemma ins_after_keep x r :
  StronglySorted le_d r -> fst (last r sentinel) <= fst x -> ins_after x r = r ++ [x].
Proof.
  induction r as [|y r IH]; simpl; intros Hs H; auto.
  inv Hs. destruct r as [|z r].
  - simpl. case_goal; auto. bool_prop; lia.
  - assert (le_d y (last (z :: r) sentinel)) as Hy.
    { rewrite Forall_forall in *. apply H3, last_In. discriminate. }
    unfold le_d in Hy. case_goal; [bool_prop; lia|]. f_equal. now apply IH.
Qed.

Lemma insert_candidate_firstn row x :
  StronglySorted le_d row ->
  insert_candidate row x = firstn (length row) (ins_after x row).
Proof.
  intros Hs. unfold insert_candidate. case_goal; bool_prop.
  - now apply shift_in_firstn.
  - rewrite ins_after_keep by (auto; lia). rewrite firstn_app, Nat.sub_diag.
    rewrite firstn_all. simpl. now rewrite app_nil_r.
Qed.

Lemma firstn_cons_firstn {A} n (y : A) l :
  firstn n (y :: firstn n l) = firstn n (y :: l).
Proof.
  destruct n as [|n]; [reflexivity|]. rewrite !firstn_cons.
  now rewrite firstn_firstn, Nat.min_l by lia.
Qed.

Lemma firstn_ins_after K x l :
  firstn K (ins_after x (firstn K l)) = firstn K (ins_after x l).
Proof.
  revert l. induction K as [|K IH]; intros [|y l]; simpl; auto.
  case_goal; simpl; f_equal; auto. apply firstn_cons_firstn.
Qed.

Lemma ins_after_sentinels x s n :
  fst x < INT_MAX -> ins_after x (s ++ repeat sentinel n) = ins_after x s ++ repeat sentinel n.
Proof.
  intros Hx. induction s as [|y s IH]; simpl.
  - destruct n; simpl; auto. case_goal; auto. simpl in *. bool_prop; lia.
  - case_goal; simpl; f_equal; auto.
Qed.

Lemma ins_lex_after x s :
  Forall (fun e => snd e < snd x) s -> ins_lex x s = ins_after x s.
Proof.
  induction s as [|y s IH]; simpl; intros H; auto. inv H.
  unfold lex_ltb. destruct (snd x <? snd y) eqn:E; [bool_prop; lia|].
  rewrite andb_false_r, orb_false_r. case_goal; f_equal; auto.
Qed.

(** ** Candidates *)

Lemma candidates_from_app j q tr t :
  candidates_from j q (tr ++ [t])
  = candidates_from j q tr ++ [(normHamming q t, j + Z.of_nat (length tr))].
Proof.
  revert j. induction tr as [|t' tr IH]; intros j.
  - cbn. now rewrite Z.add_0_r.
  - cbn [app candidates_from]. rewrite IH.
    replace (j + Z.of_nat (length (t' :: tr))) with (j + 1 + Z.of_nat (length tr))
      by (cbn [length]; lia).
    reflexivity.
Qed.

Lemma length_candidates_from j q tr : length (candidates_from j q tr) = length tr.
Proof. revert j. induction tr; simpl; auto. Qed.

Lemma candidates_from_In j q tr e :
  In e (candidates_from j q tr) ->
  j <= snd e < j + Z.of_nat (length tr) /\ exists t, In t tr /\ fst e = normHamming q t.
Proof.
  revert j. induction tr as [|t tr IH]; simpl; intros j H; [easy|].
  destruct H as [<-|H].
  - simpl. split; [lia|]. eauto.
  - apply IH in H as (Hr & t' & Ht' & He). split; [lia|]. eauto.
Qed.

Lemma candidates_below_int_max q tr :
  8 * Z.of_nat (length q) < INT_MAX ->
  forall e, In e (candidates_from 0 q tr) -> fst e < INT_MAX.
Proof.
  intros Hq e He. apply candidates_from_In in He as (_ & t & _ & ->).
  pose proof (normHamming_bounds q t). lia.
Qed.

(** The loop invariant of [batchDistance]: after the train rows [tr],
    the row holds the [K] least candidates so far, then sentinels. *)
Lemma knn_row_invariant K q train :
  8 * Z.of_nat (length q) < INT_MAX ->
  knn_row K q train = firstn K (sort_lex (candidates_from 0 q train) ++ repeat sentinel K).
Proof.
  intros Hq. unfold knn_row. induction train as [|t tr IH] using rev_ind.
  - simpl. rewrite firstn_all2; [reflexivity|]. now rewrite repeat_length.
  - rewrite candidates_from_app, fold_left_app, IH. cbn [fold_left].
    set (S := sort_lex (candidates_from 0 q tr)).
    set (x := (normHamming q t, 0 + Z.of_nat (length tr))).
    assert (HS : forall e, In e S -> fst e < INT_MAX /\ 0 <= snd e < Z.of_nat (length tr)).
    { intros e He. apply (Permutation_in _ (sort_lex_perm _)) in He.
      split; [eapply candidates_below_int_max; eauto|].
      apply candidates_from_In in He. lia. }
    assert (Hx : fst x < INT_MAX).
    { simpl. pose proof (normHamming_bounds q t). lia. }
    rewrite insert_candidate_firstn.
    2:{ apply StronglySorted_firstn, StronglySorted_app.
        - apply StronglySorted_le_d, sort_lex_sorted.
        - apply StronglySorted_repeat. unfold le_d. lia.
        - intros a b Ha Hb. apply repeat_spec in Hb. subst b.
          apply HS in Ha. unfold le_d. simpl. lia. }
    rewrite length_firstn, Nat.min_l by (rewrite length_app, repeat_length; lia).
    rewrite firstn_ins_after, ins_after_sentinels by exact Hx.
    rewrite sort_lex_app, ins_lex_after; [reflexivity|].
    apply Forall_forall. intros e He. apply HS in He. simpl. lia.
Qed.

(** The selection loop of [batchDistance] (one pass, insertion into a
    row of [K] slots) computes the [K] least candidates under the order
    (distance, train index), as sorting all of them would. *)
Lemma knn_row_refines_spec K q train :
  (K <= length train)%nat -> 8 * Z.of_nat (length q) < INT_MAX ->
  knn_row K q train = knn_spec K q train.
Proof.
  intros HK Hq. rewrite knn_row_invariant by exact Hq. unfold knn_spec.
  rewrite firstn_app.
  rewrite (Permutation_length (sort_lex_perm _)), length_candidates_from.
  replace (K - length train)%nat with 0%nat by lia. simpl. apply app_nil_r.
Qed.


Lemma row_matches_valid qIdx row :
  Forall (fun e => 0 <= snd e < IMGIDX_ONE) row ->
  row_matches qIdx row = map (to_dmatch qIdx) row.
Proof.
  induction row as [|[d i] row IH]; simpl; intros H; auto. inv H. simpl in *.
  destruct (Z.ltb_spec i 0); [lia|]. unfold to_dmatch. simpl. rewrite IH by auto.
  unfold IMGIDX_ONE, IMGIDX_SHIFT in *.
  change 262143 with (Z.ones 18).
  rewrite Z.land_ones, Z.shiftr_div_pow2 by lia.
  rewrite Z.mod_small, Z.div_small by exact H2.
  reflexivity.
Qed.

Lemma knn_spec_In K q train e :
  In e (knn_spec K q train) ->
  0 <= snd e < Z.of_nat (length train) /\ exists t, In t train /\ fst e = normHamming q t.
Proof.
  unfold knn_spec. intros He. apply In_firstn in He.
  apply (Permutation_in _ (sort_lex_perm _)) in He.
  apply candidates_from_In in He as [Hr Ht]. split; [lia | exact Ht].
Qed.

Lemma rows_matches_spec K qIdx qs train :
  Z.of_nat (length train) < IMGIDX_ONE -> (K <= length train)%nat ->
  Forall (fun q => 8 * Z.of_nat (length q) < INT_MAX) qs ->
  rows_matches K qIdx qs train = knnMatch_spec K qIdx qs train.
Proof.
  intros Hn HK. revert qIdx. induction qs as [|q qs IH]; simpl; intros qIdx Hq; auto.
  inv Hq. f_equal; auto.
  rewrite knn_row_refines_spec by auto. apply row_matches_valid.
  apply Forall_forall. intros e He. apply knn_spec_In in He. lia.
Qed.

(** [knnMatch] on well-formed descriptor sets of the same width computes
    its specification. *)
Lemma knnMatch_spec_ok query train k :
  mat_empty query = false -> Z.of_nat (length (mrows train)) < IMGIDX_ONE ->
  mcols query = mcols train -> mat_ok query = true ->
  8 * Z.of_nat (mcols query) < INT_MAX ->
  knnMatch query train k
  = Ok (knnMatch_spec (Nat.min k (length (mrows train))) 0 (mrows query) (mrows train)).
Proof.
  intros He Hn Hc Hok Hw. unfold knnMatch. rewrite He.
  destruct (Z.leb_spec IMGIDX_ONE (Z.of_nat (length (mrows train)))); [lia|].
  rewrite Hc, Nat.eqb_refl. simpl. f_equal. apply rows_matches_spec; [lia|lia|].
  unfold mat_ok in Hok. rewrite forallb_forall in Hok.
  apply Forall_forall. intros q Hq. specialize (Hok q Hq).
  unfold row_ok in Hok. bool_prop. lia.
Qed.

(** C7: [knnMatch] with [NORM_HAMMING] and no cross check, on a
    non-empty well-formed query of the train set's width, returns for
    each query descriptor in order its [min k n] least train descriptors
    under (Hamming distance, train index): the one-pass insertion of
    [batchDistance] and the [IMGIDX] packing of the indices compute the
    sort-based specification. *)
Theorem knnMatch_refines_spec query train k :
  mat_empty query = false -> Z.of_nat (length (mrows train)) < IMGIDX_ONE ->
  mcols query = mcols train -> mat_ok query = true ->
  8 * Z.of_nat (mcols query) < INT_MAX ->
  knnMatch query train k
  = Ok (knnMatch_spec (Nat.min k (length (mrows train))) 0 (mrows query) (mrows train)).
Proof. intros; now apply knnMatch_spec_ok. Qed.

Lemma knnMatch_refines_spec_witness :
  (mat_empty (mkMat 1 [[5]; [200]]) = false
   /\ Z.of_nat (length (mrows (mkMat 1 [[5]; [0]; [201]]))) < IMGIDX_ONE
   /\ mcols (mkMat 1 [[5]; [200]]) = mcols (mkMat 1 [[5]; [0]; [201]])
   /\ mat_ok (mkMat 1 [[5]; [200]]) = true
   /\ 8 * Z.of_nat (mcols (mkMat 1 [[5]; [200]])) < INT_MAX)
  /\ knnMatch (mkMat 1 [[5]; [200]]) (mkMat 1 [[5]; [0]; [201]]) 2
     = Ok [[mkDMatch 0 0 0 0; mkDMatch 0 1 0 2]; [mkDMatch 1 2 0 1; mkDMatch 1 1 0 3]].
Proof.
  split; [repeat split; vm_compute; reflexivity|].
  rewrite (knnMatch_refines_spec _ _ 2); [vm_compute; reflexivity|vm_compute; reflexivity..].
Defined.

(** ** Shape of the rows *)

Lemma length_shift_in x r : length (shift_in x r) = length r.
Proof.
  induction r as [|y r IH]; [reflexivity|]. cbn [shift_in]. case_goal; cbn [length].
  - rewrite removelast_firstn_len, length_firstn. cbn [length]. lia.
  - now rewrite IH.
Qed.

Lemma length_knn_row K q train : length (knn_row K q train) = K.
Proof.
  unfold knn_row. rewrite <- (repeat_length sentinel K) at 2.
  generalize (repeat sentinel K). generalize (candidates_from 0 q train).
  induction l as [|x l IH]; intros row; simpl; auto.
  rewrite IH. unfold insert_candidate. case_goal; auto. apply length_shift_in.
Qed.

Lemma length_row_matches qIdx row : (length (row_matches qIdx row) <= length row)%nat.
Proof.
  induction row as [|[d i] row IH]; simpl; [lia|]. case_goal; simpl; lia.
Qed.

Lemma candidates_from_lookup j0 q train j t :
  train.[j] = Some t -> In (normHamming q t, j0 + Z.of_nat j) (candidates_from j0 q train).
Proof.
  revert j0 j. induction train as [|t' train IH]; intros j0 [|j] H;
    cbn [nth_error candidates_from In] in *; try easy.
  - inv H. left. f_equal. lia.
  - right. replace (j0 + Z.of_nat (S j)) with (j0 + 1 + Z.of_nat j) by lia. auto.
Qed.

Lemma candidates_from_NoDup j0 q train : NoDup (map snd (candidates_from j0 q train)).
Proof.
  revert j0. induction train as [|t train IH]; intros j0; simpl; constructor; auto.
  intros Hin. apply in_map_iff in Hin as (e & He & Hin).
  apply candidates_from_In in Hin. lia.
Qed.

(** The two least candidates of a train set of at least two rows, and
    where every other candidate stands. *)
Lemma sort_lex_two q train :
  (2 <= length train)%nat ->
  exists e1 e2 rest, sort_lex (candidates_from 0 q train) = e1 :: e2 :: rest
    /\ snd e1 <> snd e2 /\ lex_le e1 e2
    /\ forall e, In e (candidates_from 0 q train) -> snd e <> snd e1 -> le_d e2 e.
Proof.
  intros Hn.
  pose proof (sort_lex_perm (candidates_from 0 q train)) as Hp.
  pose proof (sort_lex_sorted (candidates_from 0 q train)) as Hs.
  pose proof (candidates_from_NoDup 0 q train) as Hnd.
  pose proof (Permutation_length Hp) as Hl. rewrite length_candidates_from in Hl.
  destruct (sort_lex (candidates_from 0 q train)) as [|e1 [|e2 rest]];
    simpl in Hl; try lia.
  exists e1, e2, rest.
  apply StronglySorted_inv in Hs as [Hs Hf1]. apply StronglySorted_inv in Hs as [_ Hf2].
  pose proof (Permutation_NoDup (Permutation_sym (Permutation_map snd Hp)) Hnd) as Hnd'.
  simpl in Hnd'. apply NoDup_cons_iff in Hnd' as [Hn1 _].
  split; [reflexivity|]. split; [intros E; apply Hn1; now left|].
  split; [now apply Forall_inv in Hf1|]. intros e He Hne.
  apply (Permutation_in _ (Permutation_sym Hp)) in He.
  destruct He as [<-|[<-|He]]; [easy|unfold le_d; lia|].
  apply lex_le_d. rewrite Forall_forall in Hf2. auto.
Qed.

Lemma candidates_from_In_lookup j0 q train e :
  In e (candidates_from j0 q train) ->
  exists j t, train.[j] = Some t /\ e = (normHamming q t, j0 + Z.of_nat j).
Proof.
  revert j0. induction train as [|t train IH]; intros j0 He; [easy|].
  destruct He as [<-|He].
  - exists 0%nat, t. split; [reflexivity|]. f_equal. lia.
  - apply IH in He as (j & t' & Hj & ->). exists (S j), t'. split; [exact Hj|].
    f_equal. lia.
Qed.

Lemma sorted_candidate_dist q train e :
  In e (sort_lex (candidates_from 0 q train)) -> 0 <= fst e <= 8 * Z.of_nat (length q).
Proof.
  intros He. apply (Permutation_in _ (sort_lex_perm _)) in He.
  apply candidates_from_In in He as (_ & t & _ & ->). apply normHamming_bounds.
Qed.

Lemma row_matches_qidx qIdx row m : In m (row_matches qIdx row) -> queryIdx m = qIdx.
Proof.
  induction row as [|[d i] row IH]; simpl; [easy|].
  case_goal; [easy|]. intros [<-|H]; auto.
Qed.

Lemma mat_ok_lookup m i r :
  mat_ok m = true -> (mrows m).[i] = Some r -> length r = mcols m /\ forallb is_byte r = true.
Proof.
  unfold mat_ok. rewrite forallb_forall. intros H Hi.
  specialize (H r (nth_error_In _ _ Hi)). unfold row_ok in H. bool_prop. auto.
Qed.

Lemma length_rows_matches K i qs train : length (rows_matches K i qs train) = length qs.
Proof. revert i. induction qs; simpl; auto. Qed.

(** ** Shape and range of the result *)

Lemma knnMatch_Ok_inv query train k rows :
  knnMatch query train k = Ok rows ->
  (mat_empty query = true /\ rows = [])
  \/ (mat_empty query = false /\ Z.of_nat (length (mrows train)) < IMGIDX_ONE
      /\ mcols query = mcols train
      /\ rows = rows_matches (Nat.min k (length (mrows train))) 0 (mrows query) (mrows train)).
Proof.
  unfold knnMatch. destruct (mat_empty query); intros H; [inv H; auto|].
  destruct (Z.leb_spec IMGIDX_ONE (Z.of_nat (length (mrows train)))); [discriminate|].
  destruct (Nat.eqb_spec (mcols query) (mcols train)); [|discriminate]. inv H. right. auto.
Qed.

Lemma length_knnMatch_spec K j qs train : length (knnMatch_spec K j qs train) = length qs.
Proof. revert j. induction qs; simpl; auto. Qed.

Lemma knnMatch_spec_lookup K j qs train i row :
  (knnMatch_spec K j qs train).[i] = Some row ->
  exists q, qs.[i] = Some q /\ row = map (to_dmatch (j + Z.of_nat i)) (knn_spec K q train).
Proof.
  revert j i. induction qs as [|q qs IH]; intros j [|i] H; simpl in H; try discriminate.
  - inv H. exists q. split; [reflexivity|]. now rewrite Z.add_0_r.
  - apply IH in H as (q' & Hq & ->). exists q'. split; [exact Hq|].
    f_equal. f_equal. lia.
Qed.

Lemma length_knn_spec K q train : (K <= length train)%nat -> length (knn_spec K q train) = K.
Proof.
  intros HK. unfold knn_spec.
  rewrite length_firstn, (Permutation_length (sort_lex_perm _)), length_candidates_from. lia.
Qed.

(** C11: the type of [knnMatch]'s result.  At most one row per query
    descriptor; row [i] holds exactly [min k n] matches ([n] train
    descriptors), each with [queryIdx = i], a valid [trainIdx], [imgIdx = 0]
    (a single train set) and a distance between 0 and the number of bits
    of a descriptor. *)
Theorem knnMatch_typed query train k rows :
  mat_ok query = true -> 8 * Z.of_nat (mcols query) < INT_MAX ->
  knnMatch query train k = Ok rows ->
  (length rows <= length (mrows query))%nat
  /\ forall i row, rows.[i] = Some row ->
       length row = Nat.min k (length (mrows train))
       /\ Forall (fun m => queryIdx m = Z.of_nat i
                          /\ 0 <= trainIdx m < Z.of_nat (length (mrows train))
                          /\ imgIdx m = 0 /\ 0 <= distance m <= 8 * Z.of_nat (mcols query)) row.
Proof.
  intros Hok Hw H. pose proof H as Hinv.
  apply knnMatch_Ok_inv in Hinv as [[_ ->]|(He & Hn & Hc & _)].
  { split; [simpl; lia|]. intros [|i] row Hi; discriminate. }
  rewrite knnMatch_spec_ok in H by assumption. inv H.
  split; [rewrite length_knnMatch_spec; lia|].
  intros i row Hi. apply knnMatch_spec_lookup in Hi as (q & Hq & ->).
  split; [rewrite length_map; apply length_knn_spec; lia|].
  apply Forall_map, Forall_forall. intros e Hin.
  apply knn_spec_In in Hin as (Hidx & t & _ & Hd).
  destruct (mat_ok_lookup query i q Hok Hq) as [Hlen _].
  pose proof (normHamming_bounds q t). rewrite Hlen in *.
  unfold to_dmatch. cbn [queryIdx trainIdx imgIdx distance]. lia.
Qed.

(** Two one-byte query descriptors against three train descriptors. *)
Definition ex_knn_query : DescMat := mkMat 1 [[5%Z]; [200%Z]].
Definition ex_knn_train : DescMat := mkMat 1 [[5%Z]; [0%Z]; [201%Z]].

Lemma knnMatch_typed_witness :
  (mat_ok ex_knn_query = true /\ 8 * Z.of_nat (mcols ex_knn_query) < INT_MAX
   /\ knnMatch ex_knn_query ex_knn_train 2
      = Ok [[mkDMatch 0 0 0 0; mkDMatch 0 1 0 2]; [mkDMatch 1 2 0 1; mkDMatch 1 1 0 3]])
  /\ (length [[mkDMatch 0 0 0 0; mkDMatch 0 1 0 2]; [mkDMatch 1 2 0 1; mkDMatch 1 1 0 3]]
       <= length (mrows ex_knn_query))%nat.
Proof.
  assert (H : mat_ok ex_knn_query = true /\ 8 * Z.of_nat (mcols ex_knn_query) < INT_MAX
   /\ knnMatch ex_knn_query ex_knn_train 2
      = Ok [[mkDMatch 0 0 0 0; mkDMatch 0 1 0 2]; [mkDMatch 1 2 0 1; mkDMatch 1 1 0 3]])
    by (repeat split; vm_compute; reflexivity).
  split; [exact H|]. destruct H as (H1 & H2 & H3).
  exact (proj1 (knnMatch_typed _ _ _ _ H1 H2 H3)).
Defined.

End KnnMatch.
