(* ===== verification/Matcher.v ===== *)
(** [match_orb_features] (lines 34-41 of the script): [knnMatch] with
    [k=2], then Lowe's ratio test in a loop that unpacks every row of the
    result as a pair [m, n] and appends [m] to [good_matches] when
    [m.distance < 0.7 * n.distance].  A row that is not a pair (the train
    set has fewer than two descriptors) makes the unpacking raise
    [ValueError], which aborts the whole call.

    [lowe_spec] is the declarative matcher: for each query descriptor in
    order, sort the train candidates by (distance, index), keep the best
    one when [10 * best < 7 * second].  The refinement theorem
    [match_orb_features_spec] says the code computes it; the properties
    (soundness against every other train descriptor, completeness, length,
    order, index validity, the unpack error) are stated on
    [match_orb_features] itself. *)

From Stdlib Require Import String ZArith List Lia Bool Sorted Permutation.
From S2P Require Import Prelude PyEffects Hamming FloatRatio KnnMatch.
Import ListNotations.
Open Scope Z_scope.

Module Matcher.
Import Hamming FloatRatio KnnMatch.

(** ** The code *)

(** [for m, n in matches: if m.distance < 0.7 * n.distance:
    good_matches.append(m)] *)
Fixpoint lowe_loop (matches : list (list DMatch)) (good_matches : list DMatch)
  : result (list DMatch) :=
  match matches with
  | [] => Ok good_matches
  | row :: rest =>
      match row with
      | [m; n] =>
          lowe_loop rest
            (if ratio_test (distance m) (distance n) then good_matches ++ [m]
             else good_matches)
      | _ => Raise UnpackError
      end
  end.

Definition match_orb_features (descriptor1 descriptor2 : DescMat) : result (list DMatch) :=
  matches <-? knnMatch descriptor1 descriptor2 2 ;;
  lowe_loop matches [].

(** ** The specification *)

Definition lowe_row (i : Z) (q : list Z) (train : list (list Z)) : list DMatch :=
  match sort_lex (candidates_from 0 q train) with
  | e1 :: e2 :: _ => if ratio_test_exact (fst e1) (fst e2) then [to_dmatch i e1] else []
  | _ => []
  end.

Fixpoint lowe_spec_from (i : Z) (qs train : list (list Z)) : list DMatch :=
  match qs with
  | [] => []
  | q :: qs' => lowe_row i q train ++ lowe_spec_from (i + 1) qs' train
  end.

Definition lowe_spec (query train : DescMat) : list DMatch :=
  lowe_spec_from 0 (mrows query) (mrows train).

(** ** The loop against the specification *)

Lemma lowe_row_step i q train acc rest :
  (2 <= length train)%nat -> (length q <= 256)%nat ->
  lowe_loop (map (to_dmatch i) (knn_spec 2 q train) :: rest) acc
  = lowe_loop rest (acc ++ lowe_row i q train).
Proof.
  intros Hn Hq. unfold knn_spec, lowe_row.
  destruct (sort_lex_two q train Hn) as (e1 & e2 & r & Es & _).
  pose proof (sorted_candidate_dist q train e2) as Hd. rewrite Es in *.
  cbn [firstn map lowe_loop to_dmatch distance].
  rewrite ratio_test_exact_agree by (assert (0 <= fst e2 <= 8 * Z.of_nat (length q))
                                  by (apply Hd; simpl; auto); lia).
  destruct (ratio_test_exact _ _); [reflexivity | now rewrite app_nil_r].
Qed.

Lemma lowe_loop_spec i qs train acc :
  (2 <= length train)%nat -> Forall (fun q => (length q <= 256)%nat) qs ->
  lowe_loop (knnMatch_spec 2 i qs train) acc = Ok (acc ++ lowe_spec_from i qs train).
Proof.
  intros Hn. revert i acc. induction qs as [|q qs IH]; intros i acc Hq.
  - cbn. now rewrite app_nil_r.
  - inv Hq. cbn [knnMatch_spec lowe_spec_from].
    rewrite lowe_row_step, IH by auto. now rewrite app_assoc.
Qed.

Lemma lowe_row_nil i train : lowe_row i [] train = [].
Proof.
  unfold lowe_row.
  pose proof (sorted_candidate_dist [] train) as Hd.
  destruct (sort_lex _) as [|e1 [|e2 r]]; auto.
  assert (H1 := Hd e1 (or_introl eq_refl)). assert (H2 := Hd e2 (or_intror (or_introl eq_refl))).
  simpl in H1, H2.
  unfold ratio_test_exact. replace (10 * fst e1 <? 7 * fst e2) with false; [reflexivity|].
  symmetry. apply Z.ltb_ge. lia.
Qed.

Lemma lowe_spec_from_nil_rows i qs train :
  Forall (fun q => q = []) qs -> lowe_spec_from i qs train = [].
Proof.
  revert i. induction qs as [|q qs IH]; intros i H; [reflexivity|].
  inv H. cbn [lowe_spec_from]. rewrite lowe_row_nil, IH; auto.
Qed.

Lemma mat_ok_rows m : mat_ok m = true -> Forall (fun q => length q = mcols m) (mrows m).
Proof.
  unfold mat_ok. rewrite forallb_forall. intros H. apply Forall_forall.
  intros q Hq. specialize (H q Hq). unfold row_ok in H. bool_prop. auto.
Qed.

Lemma lowe_refinement query train :
  mat_ok query = true -> (mcols query <= 256)%nat -> mcols query = mcols train ->
  (2 <= length (mrows train))%nat -> Z.of_nat (length (mrows train)) < IMGIDX_ONE ->
  match_orb_features query train = Ok (lowe_spec query train).
Proof.
  intros Hok Hw Hc Hn Hi. unfold match_orb_features, lowe_spec.
  pose proof (mat_ok_rows query Hok) as Hrows.
  destruct (mat_empty query) eqn:He.
  - unfold knnMatch. rewrite He. cbn [rbind lowe_loop].
    unfold mat_empty in He. destruct (mrows query) as [|q qs]; [reflexivity|].
    simpl in He. bool_prop. rewrite lowe_spec_from_nil_rows; [reflexivity|].
    eapply Forall_impl; [|exact Hrows]. intros q' Hq'. apply length_zero_iff_nil. simpl in Hq'. lia.
  - rewrite knnMatch_spec_ok by (auto; unfold INT_MAX; lia). cbn [rbind].
    replace (Nat.min 2 (length (mrows train))) with 2%nat by lia.
    apply lowe_loop_spec; [exact Hn|].
    eapply Forall_impl; [|exact Hrows]. intros q' Hq'. simpl in Hq'. lia.
Qed.

(** C3: on well-formed descriptor sets of the same width, with at least
    two train descriptors, [match_orb_features] computes [lowe_spec]:
    for each query descriptor in order, its nearest train descriptor
    (least distance, then least index) exactly when
    [10 * best < 7 * second best]. *)
Theorem match_orb_features_spec query train :
  mat_ok query = true -> (mcols query <= 256)%nat -> mcols query = mcols train ->
  (2 <= length (mrows train))%nat -> Z.of_nat (length (mrows train)) < IMGIDX_ONE ->
  match_orb_features query train = Ok (lowe_spec query train).
Proof. intros; now apply lowe_refinement. Qed.

(** ** What a successful call tells *)

Lemma match_orb_features_Ok_inv query train good :
  match_orb_features query train = Ok good ->
  (mat_empty query = true /\ good = [])
  \/ (mat_empty query = false /\ mcols query = mcols train
      /\ (2 <= length (mrows train))%nat /\ Z.of_nat (length (mrows train)) < IMGIDX_ONE).
Proof.
  unfold match_orb_features, knnMatch. destruct (mat_empty query) eqn:He; intros H.
  - left. now inv H.
  - right. destruct (IMGIDX_ONE <=? _) eqn:Ei; [discriminate|].
    destruct (Nat.eqb (mcols query) (mcols train)) eqn:Ec; [|discriminate].
    cbn [negb rbind] in H. bool_prop. split; [reflexivity|]. split; [exact Ec|]. split; [|exact Ei].
    destruct (Nat.le_gt_cases 2 (length (mrows train))) as [|Hlt]; [assumption|exfalso].
    unfold mat_empty in He. destruct (mrows query) as [|q qs]; [discriminate|].
    cbn [rows_matches lowe_loop] in H.
    pose proof (length_row_matches 0 (knn_row (Nat.min 2 (length (mrows train))) q (mrows train))).
    rewrite length_knn_row in *.
    destruct (row_matches _ _) as [|m [|n [|]]]; cbn [lowe_loop length] in *; try discriminate; lia.
Qed.

Lemma lowe_spec_from_In i0 qs train m :
  In m (lowe_spec_from i0 qs train) ->
  exists i q, qs.[i] = Some q /\ In m (lowe_row (i0 + Z.of_nat i) q train).
Proof.
  revert i0. induction qs as [|q qs IH]; intros i0 H; [easy|].
  cbn [lowe_spec_from] in H. apply in_app_or in H as [H|H].
  - exists 0%nat, q. rewrite Z.add_0_r. auto.
  - apply IH in H as (i & q' & Hi & Hm). exists (S i), q'. split; [exact Hi|].
    replace (i0 + Z.of_nat (S i)) with (i0 + 1 + Z.of_nat i) by lia. exact Hm.
Qed.

Lemma lowe_spec_from_complete i0 qs train i q m :
  qs.[i] = Some q -> In m (lowe_row (i0 + Z.of_nat i) q train) ->
  In m (lowe_spec_from i0 qs train).
Proof.
  revert i0 i. induction qs as [|q' qs IH]; intros i0 [|i] Hi Hm; cbn in Hi; try easy.
  - inv Hi. cbn [lowe_spec_from]. apply in_or_app. left. now rewrite Z.add_0_r in Hm.
  - cbn [lowe_spec_from]. apply in_or_app. right. apply (IH (i0 + 1) i); auto.
    now replace (i0 + 1 + Z.of_nat i) with (i0 + Z.of_nat (S i)) by lia.
Qed.

(** A kept row: its match is the nearest train descriptor, and it beats
    every other one by the ratio. *)
Lemma lowe_row_sound i q train m :
  (2 <= length train)%nat -> In m (lowe_row i q train) ->
  queryIdx m = i /\ exists j t, train.[j] = Some t /\ trainIdx m = Z.of_nat j
    /\ distance m = normHamming q t
    /\ forall j' t', train.[j'] = Some t' -> Z.of_nat j' <> trainIdx m ->
         10 * distance m < 7 * normHamming q t'.
Proof.
  intros Hn Hm. unfold lowe_row in Hm.
  destruct (sort_lex_two q train Hn) as (e1 & e2 & r & Es & Hne & Hle & Hrest).
  rewrite Es in Hm. unfold ratio_test_exact in Hm.
  destruct (Z.ltb_spec (10 * fst e1) (7 * fst e2)) as [Hr|]; [|easy].
  destruct Hm as [<-|[]]. unfold to_dmatch. cbn [queryIdx trainIdx distance].
  split; [reflexivity|].
  assert (He1 : In e1 (candidates_from 0 q train)).
  { apply (Permutation_in _ (sort_lex_perm _)). rewrite Es. now left. }
  apply candidates_from_In_lookup in He1 as (j & t & Hj & Ee1).
  exists j, t. rewrite Ee1. cbn [fst snd]. split; [exact Hj|]. split; [lia|].
  split; [reflexivity|]. intros j' t' Hj' Hne'.
  pose proof (Hrest _ (candidates_from_lookup 0 q train j' t' Hj')) as H.
  unfold le_d in H. cbn [fst snd] in H. rewrite Ee1 in *. cbn [fst snd] in *.
  assert (fst e2 <= normHamming q t') by (apply H; lia). lia.
Qed.

Lemma good_match_sound query train good m :
  mat_ok query = true -> (mcols query <= 256)%nat ->
  match_orb_features query train = Ok good -> In m good ->
  exists q t,
    (mrows query).[Z.to_nat (queryIdx m)] = Some q
    /\ (mrows train).[Z.to_nat (trainIdx m)] = Some t
    /\ 0 <= queryIdx m /\ 0 <= trainIdx m /\ distance m = normHamming q t
    /\ forall j t', (mrows train).[j] = Some t' -> Z.of_nat j <> trainIdx m ->
         10 * distance m < 7 * normHamming q t'.
Proof.
  intros Hok Hw Hres Hm. pose proof Hres as Hinv.
  apply match_orb_features_Ok_inv in Hinv as [[_ ->]|(_ & Hc & Hn & Hi)]; [easy|].
  rewrite lowe_refinement in Hres by assumption. inv Hres.
  apply lowe_spec_from_In in Hm as (i & q & Hq & Hm).
  apply lowe_row_sound in Hm as (Hqi & j & t & Hj & Htj & Hd & Hall); [|exact Hn].
  exists q, t. rewrite Hqi, Htj, Z.add_0_l, !Nat2Z.id.
  split; [exact Hq|]. split; [exact Hj|]. split; [lia|]. split; [lia|].
  split; [exact Hd|]. intros j' t' Hj' Hne. apply (Hall j' t' Hj'). now rewrite Htj.
Qed.

(** C1: every match [match_orb_features] keeps names a query descriptor
    and a train descriptor by valid indices, carries their Hamming
    distance, and that distance is below 0.7 times the distance of the
    query to every other train descriptor. *)
Theorem match_orb_features_sound query train good m :
  mat_ok query = true -> (mcols query <= 256)%nat ->
  match_orb_features query train = Ok good -> In m good ->
  exists q t,
    (mrows query).[Z.to_nat (queryIdx m)] = Some q
    /\ (mrows train).[Z.to_nat (trainIdx m)] = Some t
    /\ 0 <= queryIdx m /\ 0 <= trainIdx m /\ distance m = normHamming q t
    /\ forall j t', (mrows train).[j] = Some t' -> Z.of_nat j <> trainIdx m ->
         10 * distance m < 7 * normHamming q t'.
Proof. intros; eapply good_match_sound; eassumption. Qed.

(** A query of two one-byte descriptors against three train descriptors:
    [5] has an exact copy, [200] is one bit away from [201]. *)
Definition ex_query : DescMat := mkMat 1 [[5%Z]; [200%Z]].
Definition ex_train : DescMat := mkMat 1 [[5%Z]; [0%Z]; [201%Z]].

Lemma match_orb_features_sound_witness :
  (mat_ok ex_query = true /\ (mcols ex_query <= 256)%nat
   /\ match_orb_features ex_query ex_train = Ok [mkDMatch 0 0 0 0; mkDMatch 1 2 0 1]
   /\ In (mkDMatch 1 2 0 1) [mkDMatch 0 0 0 0; mkDMatch 1 2 0 1])
  /\ exists q t,
    (mrows ex_query).[Z.to_nat 1] = Some q /\ (mrows ex_train).[Z.to_nat 2] = Some t
    /\ 0 <= 1 /\ 0 <= 2 /\ 1 = normHamming q t
    /\ forall j t', (mrows ex_train).[j] = Some t' -> Z.of_nat j <> 2 ->
         10 * 1 < 7 * normHamming q t'.
Proof.
  split; [split; [reflexivity|split; [simpl; lia|split; [vm_compute; reflexivity|simpl; auto]]]|].
  apply (match_orb_features_sound ex_query ex_train
           [mkDMatch 0 0 0 0; mkDMatch 1 2 0 1] (mkDMatch 1 2 0 1)).
  - reflexivity.
  - simpl. lia.
  - vm_compute. reflexivity.
  - simpl. auto.
Defined.

Lemma lowe_row_complete i q train j t :
  (2 <= length train)%nat -> train.[j] = Some t ->
  (forall j' t', train.[j'] = Some t' -> j' <> j -> 10 * normHamming q t < 7 * normHamming q t') ->
  lowe_row i q train = [mkDMatch i (Z.of_nat j) 0 (normHamming q t)].
Proof.
  intros Hn Hj Hall. unfold lowe_row.
  destruct (sort_lex_two q train Hn) as (e1 & e2 & r & Es & Hne & Hle & Hrest). rewrite Es.
  assert (He1 : In e1 (sort_lex (candidates_from 0 q train))) by (rewrite Es; now left).
  assert (He2 : In e2 (sort_lex (candidates_from 0 q train))) by (rewrite Es; right; now left).
  apply (Permutation_in _ (sort_lex_perm _)), candidates_from_In_lookup in He1, He2.
  destruct He1 as (j1 & t1 & Hj1 & ->). destruct He2 as (j2 & t2 & Hj2 & ->).
  unfold lex_le in Hle. cbn [fst snd] in *.
  pose proof (normHamming_bounds q t). pose proof (normHamming_bounds q t1).
  assert (j1 = j) as ->.
  { destruct (Nat.eq_dec j1 j) as [|Hne1]; [assumption|exfalso].
    specialize (Hall j1 t1 Hj1 Hne1).
    pose proof (Hrest _ (candidates_from_lookup 0 q train j t Hj)) as Hr.
    unfold le_d in Hr. cbn [fst snd] in Hr.
    assert (normHamming q t2 <= normHamming q t) by (apply Hr; lia). lia. }
  rewrite Hj in Hj1. inv Hj1.
  assert (Hlt : 10 * normHamming q t1 < 7 * normHamming q t2) by (apply (Hall j2 t2 Hj2); lia).
  unfold ratio_test_exact. cbn [fst snd]. rewrite (proj2 (Z.ltb_lt _ _) Hlt).
  unfold to_dmatch. cbn [fst snd]. now rewrite Z.add_0_l.
Qed.

Lemma good_match_complete query train good i q j t :
  mat_ok query = true -> (mcols query <= 256)%nat -> (2 <= length (mrows train))%nat ->
  match_orb_features query train = Ok good ->
  (mrows query).[i] = Some q -> (mrows train).[j] = Some t ->
  (forall j' t', (mrows train).[j'] = Some t' -> j' <> j ->
     10 * normHamming q t < 7 * normHamming q t') ->
  In (mkDMatch (Z.of_nat i) (Z.of_nat j) 0 (normHamming q t)) good.
Proof.
  intros Hok Hw Hn Hres Hq Hj Hall. pose proof Hres as Hinv.
  apply match_orb_features_Ok_inv in Hinv as [[He ->]|(_ & Hc & _ & Hi)].
  - exfalso. destruct (mat_ok_lookup query i q Hok Hq) as [Hlq _].
    unfold mat_empty in He. destruct (mrows query) as [|q0 qs]; [now destruct i|].
    simpl in He. bool_prop. destruct q; [|simpl in Hlq; lia].
    destruct (lookup_other (mrows train) j Hn) as (j' & t' & Hj' & Hne).
    specialize (Hall j' t' Hj' Hne). simpl in Hall. lia.
  - rewrite lowe_refinement in Hres by assumption. inv Hres.
    eapply lowe_spec_from_complete; [exact Hq|].
    rewrite Z.add_0_l, (lowe_row_complete _ _ _ j t); auto. now left.
Qed.

(** C2: conversely, a query descriptor whose distance to a train
    descriptor is below 0.7 times its distance to every other one is
    matched to it. *)
Theorem match_orb_features_complete query train good i q j t :
  mat_ok query = true -> (mcols query <= 256)%nat -> (2 <= length (mrows train))%nat ->
  match_orb_features query train = Ok good ->
  (mrows query).[i] = Some q -> (mrows train).[j] = Some t ->
  (forall j' t', (mrows train).[j'] = Some t' -> j' <> j ->
     10 * normHamming q t < 7 * normHamming q t') ->
  In (mkDMatch (Z.of_nat i) (Z.of_nat j) 0 (normHamming q t)) good.
Proof. intros; eapply good_match_complete; eassumption. Qed.

Lemma match_orb_features_complete_witness :
  (mat_ok ex_query = true /\ (mcols ex_query <= 256)%nat
   /\ (2 <= length (mrows ex_train))%nat
   /\ match_orb_features ex_query ex_train = Ok [mkDMatch 0 0 0 0; mkDMatch 1 2 0 1]
   /\ (mrows ex_query).[1] = Some [200%Z] /\ (mrows ex_train).[2] = Some [201%Z])
  /\ In (mkDMatch (Z.of_nat 1) (Z.of_nat 2) 0 (normHamming [200] [201]))
        [mkDMatch 0 0 0 0; mkDMatch 1 2 0 1].
Proof.
  split; [repeat split; simpl; lia|].
  apply (match_orb_features_complete ex_query ex_train _ 1 [200] 2 [201]);
    [reflexivity | simpl; lia | simpl; lia | vm_compute; reflexivity | reflexivity
    | reflexivity |].
  intros j' t' Hj' Hne. destruct j' as [|[|[|j']]]; simpl in Hj';
    [inv Hj'; vm_compute; reflexivity | inv Hj'; vm_compute; reflexivity
    | congruence | destruct j'; discriminate].
Defined.

(** C25: an exact copy of a query descriptor among train descriptors that
    all differ from it is found, at distance 0. *)
Corollary match_orb_features_exact_copy query train good i j q :
  mat_ok query = true -> mat_ok train = true -> mcols query = mcols train ->
  (mcols query <= 256)%nat -> (2 <= length (mrows train))%nat ->
  match_orb_features query train = Ok good ->
  (mrows query).[i] = Some q -> (mrows train).[j] = Some q ->
  (forall j' t', (mrows train).[j'] = Some t' -> j' <> j -> t' <> q) ->
  In (mkDMatch (Z.of_nat i) (Z.of_nat j) 0 0) good.
Proof.
  intros Hokq Hokt Hc Hw Hn Hres Hq Hj Hdiff.
  replace (mkDMatch (Z.of_nat i) (Z.of_nat j) 0 0)
    with (mkDMatch (Z.of_nat i) (Z.of_nat j) 0 (normHamming q q))
    by now rewrite normHamming_refl.
  apply (good_match_complete query train good i q j q); auto.
  intros j' t' Hj' Hne. rewrite normHamming_refl.
  destruct (mat_ok_lookup query i q Hokq Hq) as [Hlq Hbq].
  destruct (mat_ok_lookup train j' t' Hokt Hj') as [Hlt Hbt].
  pose proof (normHamming_bounds q t').
  destruct (Z.eq_dec (normHamming q t') 0) as [E|]; [|lia].
  exfalso. apply (Hdiff j' t' Hj' Hne). symmetry.
  apply normHamming_zero; auto. lia.
Qed.

Lemma match_orb_features_exact_copy_witness :
  (mat_ok ex_query = true /\ mat_ok ex_train = true /\ mcols ex_query = mcols ex_train
   /\ (mcols ex_query <= 256)%nat /\ (2 <= length (mrows ex_train))%nat
   /\ match_orb_features ex_query ex_train = Ok [mkDMatch 0 0 0 0; mkDMatch 1 2 0 1]
   /\ (mrows ex_query).[0] = Some [5%Z] /\ (mrows ex_train).[0] = Some [5%Z])
  /\ In (mkDMatch (Z.of_nat 0) (Z.of_nat 0) 0 0) [mkDMatch 0 0 0 0; mkDMatch 1 2 0 1].
Proof.
  split; [repeat split; simpl; lia|].
  apply (match_orb_features_exact_copy ex_query ex_train _ 0 0 [5]);
    try reflexivity; try (simpl; lia).
  intros j' t' Hj' Hne. destruct j' as [|[|[|j']]]; simpl in Hj';
    [congruence | inv Hj'; discriminate | inv Hj'; discriminate | destruct j'; discriminate].
Defined.

(** C26: a query descriptor with two exact copies among the train
    descriptors is ambiguous and never matched. *)
Theorem match_orb_features_ambiguous_rejected query train good i q j1 j2 m :
  mat_ok query = true -> (mcols query <= 256)%nat ->
  match_orb_features query train = Ok good ->
  (mrows query).[i] = Some q -> (mrows train).[j1] = Some q -> (mrows train).[j2] = Some q ->
  j1 <> j2 -> In m good -> queryIdx m <> Z.of_nat i.
Proof.
  intros Hok Hw Hres Hq Hj1 Hj2 Hne Hm Heq.
  apply (good_match_sound query train good m) in Hm as (q' & t & Hq' & _ & _ & _ & Hd & Hall);
    auto.
  rewrite Heq, Nat2Z.id, Hq in Hq'. inv Hq'.
  pose proof (normHamming_bounds q' t).
  destruct (Z.eq_dec (Z.of_nat j1) (trainIdx m)) as [E|E].
  - specialize (Hall j2 q' Hj2 ltac:(lia)). rewrite normHamming_refl in Hall. lia.
  - specialize (Hall j1 q' Hj1 E). rewrite normHamming_refl in Hall. lia.
Qed.

(** ** Shape of the result, on every input *)

Lemma lowe_loop_length rows acc good :
  lowe_loop rows acc = Ok good -> (length good <= length acc + length rows)%nat.
Proof.
  revert acc. induction rows as [|row rows IH]; intros acc H; simpl in *.
  - inv H. lia.
  - destruct row as [|m [|n [|]]]; try discriminate.
    apply IH in H. destruct (ratio_test _ _); rewrite ?length_app in H; simpl in H; lia.
Qed.

Lemma knnMatch_Ok_rows query train k rows :
  knnMatch query train k = Ok rows ->
  rows = [] \/ rows = rows_matches (Nat.min k (length (mrows train))) 0 (mrows query) (mrows train).
Proof.
  unfold knnMatch. destruct (mat_empty query); intros H; [inv H; auto|].
  destruct (IMGIDX_ONE <=? _); [discriminate|].
  destruct (negb _); [discriminate|]. inv H. auto.
Qed.

(** C24: the call keeps at most one match per query descriptor. *)
Theorem match_orb_features_length query train good :
  match_orb_features query train = Ok good -> (length good <= length (mrows query))%nat.
Proof.
  unfold match_orb_features. intros H. apply rbind_Ok in H as (rows & Hk & Hl).
  apply lowe_loop_length in Hl. simpl in Hl.
  apply knnMatch_Ok_rows in Hk as [-> | ->]; simpl in Hl; [lia|].
  now rewrite length_rows_matches in Hl.
Qed.

Lemma lowe_loop_sorted K i qs train acc good :
  lowe_loop (rows_matches K i qs train) acc = Ok good ->
  StronglySorted Z.lt (map queryIdx acc) -> Forall (fun m => queryIdx m < i) acc ->
  StronglySorted Z.lt (map queryIdx good).
Proof.
  revert i acc. induction qs as [|q qs IH]; intros i acc H Hs Hb; cbn in H.
  - now inv H.
  - destruct (row_matches i (knn_row K q train)) as [|m [|n [|]]] eqn:Er; try discriminate.
    assert (Hm : queryIdx m = i) by (apply (row_matches_qidx i (knn_row K q train)); rewrite Er; now left).
    apply (IH (i + 1)) in H; auto.
    + destruct (ratio_test _ _); auto. rewrite map_app.
      apply StronglySorted_app; auto; [repeat constructor|].
      intros x y Hx [<-|[]]. apply in_map_iff in Hx as (m' & <- & Hm').
      rewrite Forall_forall in Hb. specialize (Hb m' Hm'). lia.
    + destruct (ratio_test _ _); [apply Forall_app; split|];
        try (eapply Forall_impl; [|exact Hb]; intros; simpl in *; lia).
      repeat constructor. lia.
Qed.

(** C23: the matches come in query order, at most one per query
    descriptor: their [queryIdx] strictly increase. *)
Theorem match_orb_features_ordered query train good :
  match_orb_features query train = Ok good -> StronglySorted Z.lt (map queryIdx good).
Proof.
  unfold match_orb_features. intros H. apply rbind_Ok in H as (rows & Hk & Hl).
  apply knnMatch_Ok_rows in Hk as [-> | ->].
  - inv Hl. constructor.
  - eapply lowe_loop_sorted; eauto; constructor.
Qed.

(** ** Error paths *)

(** C5: with fewer than two train descriptors, the row of the first query
    descriptor is not a pair and [for m, n in matches] raises
    [ValueError]; the whole call fails, even though no good match could
    have been lost. *)
Theorem match_orb_features_unpack_error query train :
  mrows query <> [] -> mcols query <> 0%nat -> mcols query = mcols train ->
  (length (mrows train) < 2)%nat ->
  match_orb_features query train = Raise UnpackError.
Proof.
  intros Hq Hc0 Hc Hn. unfold match_orb_features, knnMatch.
  replace (mat_empty query) with false
    by (unfold mat_empty; destruct (mrows query); [easy|]; symmetry; now apply Nat.eqb_neq).
  destruct (Z.leb_spec IMGIDX_ONE (Z.of_nat (length (mrows train)))) as [Hi|_].
  { unfold IMGIDX_ONE in Hi. simpl in Hi. lia. }
  rewrite Hc, Nat.eqb_refl. cbn [negb rbind].
  destruct (mrows query) as [|q qs]; [easy|]. cbn [rows_matches lowe_loop].
  pose proof (length_row_matches 0 (knn_row (Nat.min 2 (length (mrows train))) q (mrows train))).
  rewrite length_knn_row in *.
  destruct (row_matches _ _) as [|m [|n [|]]]; cbn [length] in *; auto; lia.
Qed.

Definition ex_train_one : DescMat := mkMat 1 [[5%Z]].

Lemma match_orb_features_unpack_error_witness :
  (mrows ex_query <> [] /\ mcols ex_query <> 0%nat /\ mcols ex_query = mcols ex_train_one
   /\ (length (mrows ex_train_one) < 2)%nat)
  /\ match_orb_features ex_query ex_train_one = Raise UnpackError.
Proof.
  split; [repeat split; simpl; try discriminate; lia|].
  apply match_orb_features_unpack_error; simpl; try discriminate; lia.
Defined.

(** C30: [None] descriptors (no keypoints).  A query without descriptors
    gives no match and no error; query descriptors against a train side
    without descriptors fail in [batchDistance]'s width assertion. *)
Theorem match_orb_features_none query :
  match_orb_features empty_mat query = Ok []
  /\ (mat_empty query = false -> match_orb_features query empty_mat = Raise (Cv2Error "batchDistance")).
Proof.
  split; [reflexivity|]. intros He. unfold match_orb_features, knnMatch. rewrite He.
  cbn [mrows empty_mat length]. cbn [Z.of_nat]. replace (IMGIDX_ONE <=? 0) with false by reflexivity.
  unfold mat_empty in He. destruct (mrows query); [discriminate|].
  destruct (mcols query); [discriminate|]. reflexivity.
Qed.

(** ** Witnesses of the remaining properties *)

Lemma match_orb_features_spec_witness :
  (mat_ok ex_query = true /\ (mcols ex_query <= 256)%nat /\ mcols ex_query = mcols ex_train
   /\ (2 <= length (mrows ex_train))%nat /\ Z.of_nat (length (mrows ex_train)) < IMGIDX_ONE)
  /\ match_orb_features ex_query ex_train = Ok (lowe_spec ex_query ex_train).
Proof.
  split; [repeat split; simpl; try lia; reflexivity|].
  apply match_orb_features_spec; [reflexivity | simpl; lia | reflexivity | simpl; lia
                                 | vm_compute; reflexivity].
Defined.

Lemma match_orb_features_length_witness :
  match_orb_features ex_query ex_train = Ok [mkDMatch 0 0 0 0; mkDMatch 1 2 0 1]
  /\ (length [mkDMatch 0 0 0 0; mkDMatch 1 2 0 1] <= length (mrows ex_query))%nat.
Proof.
  split; [vm_compute; reflexivity|]. apply (match_orb_features_length ex_query ex_train).
  vm_compute. reflexivity.
Defined.

Lemma match_orb_features_ordered_witness :
  match_orb_features ex_query ex_train = Ok [mkDMatch 0 0 0 0; mkDMatch 1 2 0 1]
  /\ StronglySorted Z.lt (map queryIdx [mkDMatch 0 0 0 0; mkDMatch 1 2 0 1]).
Proof.
  split; [vm_compute; reflexivity|]. apply (match_orb_features_ordered ex_query ex_train).
  vm_compute. reflexivity.
Defined.

(** [5] has two exact copies among the train descriptors. *)
Definition ex_train_dup : DescMat := mkMat 1 [[5%Z]; [5%Z]; [201%Z]].

Lemma match_orb_features_ambiguous_rejected_witness :
  (mat_ok ex_query = true /\ (mcols ex_query <= 256)%nat
   /\ match_orb_features ex_query ex_train_dup = Ok [mkDMatch 1 2 0 1]
   /\ (mrows ex_query).[0] = Some [5%Z] /\ (mrows ex_train_dup).[0] = Some [5%Z]
   /\ (mrows ex_train_dup).[1] = Some [5%Z] /\ (0 <> 1)%nat
   /\ In (mkDMatch 1 2 0 1) [mkDMatch 1 2 0 1])
  /\ queryIdx (mkDMatch 1 2 0 1) <> Z.of_nat 0.
Proof.
  split.
  - repeat split; first [reflexivity | simpl; lia | vm_compute; reflexivity | now left].
  - apply (match_orb_features_ambiguous_rejected ex_query ex_train_dup [mkDMatch 1 2 0 1]
             0 [5%Z] 0 1); first [reflexivity | simpl; lia | vm_compute; reflexivity | now left].
Defined.

Lemma match_orb_features_none_witness :
  mat_empty ex_query = false
  /\ match_orb_features ex_query empty_mat = Raise (Cv2Error "batchDistance").
Proof.
  split; [reflexivity|]. apply (proj2 (match_orb_features_none ex_query)). reflexivity.
Defined.

End Matcher.
