(* ===== verification/Geometry.v ===== *)
(** Plane geometry of the localizer: points, 3x3 homographies and
    [cv2.perspectiveTransform] (line 75 of the script), over exact
    rationals [Q] instead of [float32]/[float64] (rounding is not
    modelled here).  [perspectiveTransform] is OpenCV's, not code of the
    repository: for each point it computes [w = h20 x + h21 y + h22] and,
    when [|w| > FLT_EPSILON], the projected point; otherwise it writes
    [(0, 0)] (a point at or near infinity is not reported as an error).

    Points and matrices are compared with [Qeq] componentwise ([pt_eq],
    [mat_eq]); both are equivalences and the transform respects them, so
    setoid rewriting applies.  Proved: the translation law,
    invariance under a nonzero scale factor (when both scales keep [w]
    above the threshold), composition, and the degenerate branch. *)

From Stdlib Require Import QArith Qabs ZArith List Lia Setoid Morphisms.
From S2P Require Import Prelude.
Import ListNotations.

Module Geometry.
Open Scope Q_scope.

(** ** Data *)

Definition point : Type := (Q * Q)%type.

(** A homography [H] as OpenCV stores it, row-major. *)
Record mat3 := mkMat3 {
  h00 : Q; h01 : Q; h02 : Q;
  h10 : Q; h11 : Q; h12 : Q;
  h20 : Q; h21 : Q; h22 : Q }.

(** [FLT_EPSILON = 2^-23]. *)
Definition FLT_EPSILON : Q := 1 # 8388608.

Definition w_of (m : mat3) (p : point) : Q := fst p * h20 m + snd p * h21 m + h22 m.

(** One point of [perspectiveTransform]. *)
Definition transform_point (m : mat3) (p : point) : point :=
  let w := w_of m p in
  if Qle_bool (Qabs w) FLT_EPSILON then (0, 0)
  else
    let w' := / w in
    ((fst p * h00 m + snd p * h01 m + h02 m) * w', (fst p * h10 m + snd p * h11 m + h12 m) * w').

Definition perspectiveTransform (pts : list point) (m : mat3) : list point :=
  map (transform_point m) pts.

Definition mat_id : mat3 := mkMat3 1 0 0 0 1 0 0 0 1.

Definition translation (dx dy : Q) : mat3 := mkMat3 1 0 dx 0 1 dy 0 0 1.

Definition mat_scale (s : Q) (m : mat3) : mat3 :=
  mkMat3 (s * h00 m) (s * h01 m) (s * h02 m) (s * h10 m) (s * h11 m) (s * h12 m)
         (s * h20 m) (s * h21 m) (s * h22 m).

(** The matrix product [a * b]: apply [b] first. *)
Definition mat_mul (a b : mat3) : mat3 :=
  mkMat3
    (h00 a * h00 b + h01 a * h10 b + h02 a * h20 b)
    (h00 a * h01 b + h01 a * h11 b + h02 a * h21 b)
    (h00 a * h02 b + h01 a * h12 b + h02 a * h22 b)
    (h10 a * h00 b + h11 a * h10 b + h12 a * h20 b)
    (h10 a * h01 b + h11 a * h11 b + h12 a * h21 b)
    (h10 a * h02 b + h11 a * h12 b + h12 a * h22 b)
    (h20 a * h00 b + h21 a * h10 b + h22 a * h20 b)
    (h20 a * h01 b + h21 a * h11 b + h22 a * h21 b)
    (h20 a * h02 b + h21 a * h12 b + h22 a * h22 b).

(** ** Setoid structure *)

Definition pt_eq (p q : point) : Prop := fst p == fst q /\ snd p == snd q.

Definition mat_eq (a b : mat3) : Prop :=
  h00 a == h00 b /\ h01 a == h01 b /\ h02 a == h02 b /\
  h10 a == h10 b /\ h11 a == h11 b /\ h12 a == h12 b /\
  h20 a == h20 b /\ h21 a == h21 b /\ h22 a == h22 b.

#[export] Instance pt_eq_Equivalence : Equivalence pt_eq.
Proof.
  unfold pt_eq. split.
  - intros p. split; reflexivity.
  - intros p q [H1 H2]. split; symmetry; assumption.
  - intros p q r [H1 H2] [H3 H4]. split; etransitivity; eassumption.
Qed.

#[export] Instance mat_eq_Equivalence : Equivalence mat_eq.
Proof.
  unfold mat_eq. split.
  - intros a. repeat split; reflexivity.
  - intros a b H. decompose record H. repeat split; symmetry; assumption.
  - intros a b c H1 H2. decompose record H1. decompose record H2.
    repeat split; etransitivity; eassumption.
Qed.

Lemma w_of_proper m1 m2 p1 p2 : mat_eq m1 m2 -> pt_eq p1 p2 -> w_of m1 p1 == w_of m2 p2.
Proof.
  intros (E00 & E01 & E02 & E10 & E11 & E12 & E20 & E21 & E22) [Hx Hy]. unfold w_of.
  rewrite Hx, Hy, E20, E21, E22. reflexivity.
Qed.

#[export] Instance transform_point_Proper : Proper (mat_eq ==> pt_eq ==> pt_eq) transform_point.
Proof.
  intros m1 m2 Hm p1 p2 Hp. pose proof (w_of_proper m1 m2 p1 p2 Hm Hp) as Hw.
  unfold transform_point. fold (w_of m1 p1) (w_of m2 p2).
  rewrite (Qleb_comp _ _ (Qabs_wd _ _ Hw) FLT_EPSILON FLT_EPSILON (Qeq_refl _)).
  destruct (Qle_bool _ _); [reflexivity|].
  destruct Hp as [Hx Hy].
  destruct Hm as (E00 & E01 & E02 & E10 & E11 & E12 & E20 & E21 & E22).
  unfold pt_eq; simpl. rewrite Hx, Hy, Hw, E00, E01, E02, E10, E11, E12. split; reflexivity.
Qed.

(** ** The two branches *)

Lemma transform_point_far m p :
  FLT_EPSILON < Qabs (w_of m p) ->
  pt_eq (transform_point m p)
    ((fst p * h00 m + snd p * h01 m + h02 m) / w_of m p,
     (fst p * h10 m + snd p * h11 m + h12 m) / w_of m p).
Proof.
  intros H. unfold transform_point. fold (w_of m p).
  destruct (Qle_bool _ _) eqn:E.
  - apply Qle_bool_iff in E. exfalso. apply (Qlt_not_le _ _ H E).
  - reflexivity.
Qed.

(** a point whose [w] is within [FLT_EPSILON] of zero (at or near
    infinity) is mapped to [(0, 0)] without any error. *)
Theorem transform_point_near_infinity m p :
  Qabs (w_of m p) <= FLT_EPSILON -> transform_point m p = (0, 0).
Proof.
  intros H. unfold transform_point. fold (w_of m p).
  now rewrite (proj2 (Qle_bool_iff _ _) H).
Qed.

Lemma Qabs_far_nonzero w : FLT_EPSILON < Qabs w -> ~ w == 0.
Proof. intros H E. rewrite E in H. discriminate H. Qed.

(** ** Laws of the transform *)

Lemma far_of_one m p : w_of m p == 1 -> FLT_EPSILON < Qabs (w_of m p).
Proof. intros H. rewrite H. vm_compute. reflexivity. Qed.

Lemma w_of_translation dx dy p : w_of (translation dx dy) p == 1.
Proof. unfold w_of. simpl. ring. Qed.

Lemma transform_point_translation dx dy p :
  pt_eq (transform_point (translation dx dy) p) (fst p + dx, snd p + dy).
Proof.
  rewrite transform_point_far by apply far_of_one, w_of_translation.
  unfold pt_eq. simpl. rewrite w_of_translation. split; field.
Qed.


Lemma w_of_scale s m p : w_of (mat_scale s m) p == s * w_of m p.
Proof. unfold w_of. simpl. ring. Qed.

(** Scaling a homography by [s <> 0] does not move the projected
    points, as long as [w] stays above [FLT_EPSILON] at both scales: the
    threshold is absolute, so a tiny scale can send a point to [(0, 0)]. *)
Lemma transform_point_scale s m p :
  ~ s == 0 -> FLT_EPSILON < Qabs (w_of m p) -> FLT_EPSILON < Qabs (s * w_of m p) ->
  pt_eq (transform_point (mat_scale s m) p) (transform_point m p).
Proof.
  intros Hs Hw Hsw. pose proof (Qabs_far_nonzero _ Hw) as Hw0.
  rewrite (transform_point_far m p Hw).
  rewrite transform_point_far by (rewrite w_of_scale; exact Hsw).
  unfold pt_eq. simpl. rewrite w_of_scale. split; field; auto.
Qed.

(** The threshold breaks projective equivalence: [mat_id] scaled by
    [2^-24] sends [(1, 1)] to [(0, 0)]. *)
Lemma transform_point_scale_threshold :
  transform_point (mat_scale (1 # 16777216) mat_id) (1, 1) = (0, 0)
  /\ ~ pt_eq (transform_point mat_id (1, 1)) (0, 0).
Proof.
  split; [vm_compute; reflexivity|]. intros [H _]. vm_compute in H. discriminate H.
Qed.

Lemma w_of_mul a b p :
  FLT_EPSILON < Qabs (w_of b p) ->
  w_of (mat_mul a b) p == w_of a (transform_point b p) * w_of b p.
Proof.
  intros Hb. pose proof (Qabs_far_nonzero _ Hb) as Hb0.
  rewrite (w_of_proper a a _ _ (reflexivity a) (transform_point_far b p Hb)).
  unfold w_of in *. simpl. field. exact Hb0.
Qed.

(** Transforming by a product is transforming by its factors in
    turn, when no [w] on the way falls within [FLT_EPSILON] of zero. *)
Lemma transform_point_mul a b p :
  FLT_EPSILON < Qabs (w_of b p) -> FLT_EPSILON < Qabs (w_of a (transform_point b p)) ->
  FLT_EPSILON < Qabs (w_of (mat_mul a b) p) ->
  pt_eq (transform_point (mat_mul a b) p) (transform_point a (transform_point b p)).
Proof.
  intros Hb Ha Hab.
  pose proof (Qabs_far_nonzero _ Hb) as Hb0. pose proof (Qabs_far_nonzero _ Ha) as Ha0.
  pose proof (transform_point_far b p Hb) as Tb. pose proof (w_of_mul a b p Hb) as Hw.
  rewrite (transform_point_far _ _ Hab), (transform_point_far a _ Ha).
  destruct (transform_point b p) as [u v]. destruct Tb as [Hu Hv]. simpl in Hu, Hv.
  unfold pt_eq. cbn [fst snd]. rewrite Hw.
  unfold w_of in Hb0, Ha0 |- *.
  cbn [fst snd mat_mul h00 h01 h02 h10 h11 h12 h20 h21 h22] in Hb0, Ha0 |- *.
  pose proof (Qabs_far_nonzero _ Hab) as Hab0.
  unfold w_of in Hab0. cbn [fst snd mat_mul h20 h21 h22] in Hab0.
  rewrite Hu, Hv. unfold w_of. cbn [fst snd].
  split; field; (split; [exact Hb0 | intros E; apply Hab0; rewrite <- E; ring]).
Qed.

(** ** The call on a list of points *)

Lemma Forall2_pt_eq_map (P : point -> Prop) (f g : point -> point) pts :
  Forall P pts -> (forall p, P p -> pt_eq (f p) (g p)) ->
  Forall2 pt_eq (map f pts) (map g pts).
Proof. induction 1; intros Hfg; simpl; constructor; auto. Qed.

(** C34: [perspectiveTransform] by a translation homography moves every
    point of the list by the offset. *)
Theorem perspectiveTransform_translation dx dy pts :
  Forall2 pt_eq (perspectiveTransform pts (translation dx dy))
                (map (fun p => (fst p + dx, snd p + dy)) pts).
Proof.
  unfold perspectiveTransform.
  apply (Forall2_pt_eq_map (fun _ => True)); [now apply Forall_forall|].
  intros p _. apply transform_point_translation.
Qed.

(** C37: transforming a list by a product of homographies is
    transforming it by the factors in turn, when no [w] on the way falls
    within [FLT_EPSILON] of zero. *)
Theorem perspectiveTransform_mul a b pts :
  Forall (fun p => FLT_EPSILON < Qabs (w_of b p)
                   /\ FLT_EPSILON < Qabs (w_of a (transform_point b p))
                   /\ FLT_EPSILON < Qabs (w_of (mat_mul a b) p)) pts ->
  Forall2 pt_eq (perspectiveTransform pts (mat_mul a b))
                (perspectiveTransform (perspectiveTransform pts b) a).
Proof.
  intros H. unfold perspectiveTransform. rewrite map_map.
  apply (Forall2_pt_eq_map _ _ _ _ H). intros p (Hb & Ha & Hab).
  now apply transform_point_mul.
Qed.

Lemma perspectiveTransform_mul_witness :
  Forall (fun p => FLT_EPSILON < Qabs (w_of (translation 3 4) p)
                   /\ FLT_EPSILON < Qabs (w_of (translation 1 2) (transform_point (translation 3 4) p))
                   /\ FLT_EPSILON < Qabs (w_of (mat_mul (translation 1 2) (translation 3 4)) p))
         [(0, 0); (2, 5)]
  /\ Forall2 pt_eq (perspectiveTransform [(0, 0); (2, 5)] (mat_mul (translation 1 2) (translation 3 4)))
       (perspectiveTransform (perspectiveTransform [(0, 0); (2, 5)] (translation 3 4)) (translation 1 2)).
Proof.
  assert (H : Forall (fun p => FLT_EPSILON < Qabs (w_of (translation 3 4) p)
                   /\ FLT_EPSILON < Qabs (w_of (translation 1 2) (transform_point (translation 3 4) p))
                   /\ FLT_EPSILON < Qabs (w_of (mat_mul (translation 1 2) (translation 3 4)) p))
         [(0, 0); (2, 5)])
    by (repeat constructor; vm_compute; reflexivity).
  split; [exact H|]. apply perspectiveTransform_mul. exact H.
Defined.

(** C38: scaling a homography by [s <> 0] does not move the transformed
    points, as long as every [w] stays above [FLT_EPSILON] at both
    scales; the threshold is absolute, so a tiny scale can still send a
    point to [(0, 0)] ([transform_point_scale_threshold]). *)
Theorem perspectiveTransform_scale s m pts :
  ~ s == 0 ->
  Forall (fun p => FLT_EPSILON < Qabs (w_of m p) /\ FLT_EPSILON < Qabs (s * w_of m p)) pts ->
  Forall2 pt_eq (perspectiveTransform pts (mat_scale s m)) (perspectiveTransform pts m).
Proof.
  intros Hs H. apply (Forall2_pt_eq_map _ _ _ _ H). intros p [Hw Hsw].
  now apply transform_point_scale.
Qed.

Lemma perspectiveTransform_scale_witness :
  (~ (1 # 2) == 0
   /\ Forall (fun p => FLT_EPSILON < Qabs (w_of mat_id p) /\ FLT_EPSILON < Qabs ((1 # 2) * w_of mat_id p))
        [(3, 4); (0, 1)])
  /\ Forall2 pt_eq (perspectiveTransform [(3, 4); (0, 1)] (mat_scale (1 # 2) mat_id))
       (perspectiveTransform [(3, 4); (0, 1)] mat_id).
Proof.
  assert (H : Forall (fun p => FLT_EPSILON < Qabs (w_of mat_id p) /\ FLT_EPSILON < Qabs ((1 # 2) * w_of mat_id p))
        [(3, 4); (0, 1)]) by (repeat constructor; vm_compute; reflexivity).
  split; [split; [discriminate | exact H]|].
  apply perspectiveTransform_scale; [discriminate | exact H].
Defined.

End Geometry.
