(* ===== verification/Ransac.v ===== *)
(** The robust fit behind [cv2.findHomography(obj, scene, cv2.RANSAC)]
    (line 62): OpenCV's [RANSACPointSetRegistrator::run] (calib3d,
    [ptsetreg.cpp]), the loop that samples minimal subsets, fits a model
    to each, counts its inliers and keeps the best, shrinking the number
    of iterations it still needs as better models appear:

    for( iter = 0; iter < niters; iter++ ) {
        if( !getSubset(...) ) { if( iter == 0 ) return false; break; }
        nmodels = cb->runKernel( ms1, ms2, model );
        if( nmodels <= 0 ) continue;
        goodCount = findInliers( ... );
        if( goodCount > MAX(maxGoodCount, modelPoints-1) ) {
            bestModel = model; maxGoodCount = goodCount;
            niters = RANSACUpdateNumIters( confidence,
                       (double)(count - goodCount)/count, modelPoints, niters );
        } }

    The loop control is modelled as written.  The parts that compute with
    the data are the section's variables: the model kernel (for
    homographies it yields at most one model), the subset sampler with
    its random state, the inlier count, and [RANSACUpdateNumIters], of
    which only its law is used: it never raises the iteration bound it is
    given (it returns that bound, 0, or the rounded ratio of two
    logarithms that is below it).

    The loop's bound [niters] changes while it runs, so [ransac_loop]
    takes fuel; the theorems show that [max(maxIters, 1)] is always
    enough, hence at most 2000 iterations for [findHomography]'s
    defaults, and what a returned model satisfies. *)

From Stdlib Require Import List Lia Arith QArith.
From S2P Require Import Prelude Geometry.
Import ListNotations.

Module Ransac.
Local Open Scope nat_scope.

(** The loop's variables: [iter], [niters], [maxGoodCount], [bestModel]
    and the random generator. *)
Record state {M R : Type} := mkState {
  iter : nat; niters : nat; maxGoodCount : nat; bestModel : option M; rng : R
}.
Arguments state : clear implicits.
Arguments mkState {M R}.

Section Loop.
Context {P M R : Type}.
(** [cb->runKernel(ms1, ms2, model)] on a sample: a model or none. *)
Variable runKernel : list P -> option M.
(** [getSubset(m1, m2, ms1, ms2, rng, 10000)]: a good minimal sample and
    the advanced generator, or none after 10000 attempts. *)
Variable getSubset : list P -> R -> option (list P * R).
(** [findInliers(m1, m2, model, err, mask, threshold)]. *)
Variable findInliers : list P -> M -> nat.
(** [RANSACUpdateNumIters(confidence, (count - goodCount)/count,
    modelPoints, niters)], as a function of [count], [goodCount] and
    [niters]. *)
Variable updateNumIters : nat -> nat -> nat -> nat.
Hypothesis updateNumIters_le : forall c g n, updateNumIters c g n <= n.

Variable modelPoints : nat.

(** The body of the inner [for( i = 0; i < nmodels; i++ )] for the
    (at most one) model of the kernel. *)
Definition consider (pts : list P) (st : state M R) (m : M) : state M R :=
  let good := findInliers pts m in
  if Nat.max (maxGoodCount st) (modelPoints - 1) <? good then
    mkState (iter st) (updateNumIters (length pts) good (niters st)) good (Some m) (rng st)
  else st.

(** The outer loop.  [None]: out of fuel; [Some None]: [return false]
    (no sample at the first iteration); [Some (Some st)]: the loop left
    with state [st] ([iter >= niters] or [break]). *)
Fixpoint ransac_loop (fuel : nat) (pts : list P) (st : state M R) : option (option (state M R)) :=
  if iter st <? niters st then
    match fuel with
    | O => None
    | S fuel' =>
        match getSubset pts (rng st) with
        | None => if iter st =? 0 then Some None else Some (Some st)
        | Some (sample, rng') =>
            let st1 := mkState (iter st) (niters st) (maxGoodCount st) (bestModel st) rng' in
            let st2 := match runKernel sample with
                       | Some m => consider pts st1 m
                       | None => st1
                       end in
            ransac_loop fuel' pts
              (mkState (S (iter st2)) (niters st2) (maxGoodCount st2) (bestModel st2) (rng st2))
        end
    end
  else Some (Some st).

(** [run(m1, m2, model, mask)]: too few points fail, exactly
    [modelPoints] points go to the kernel directly, otherwise the loop
    from [iter = 0], [niters = MAX(maxIters, 1)], [maxGoodCount = 0]; a
    model is returned when [maxGoodCount > 0]. *)
Definition ransac_run (maxIters : nat) (pts : list P) (rng0 : R) : option M :=
  let count := length pts in
  if count <? modelPoints then None
  else if count =? modelPoints then runKernel pts
  else match ransac_loop (Nat.max maxIters 1) pts (mkState 0 (Nat.max maxIters 1) 0 None rng0) with
       | Some (Some st) => if 0 <? maxGoodCount st then bestModel st else None
       | _ => None
       end.

(** ** Lemmas *)

(** The kernel step neither moves [iter] nor raises [niters]. *)
Lemma consider_iter pts st m : iter (consider pts st m) = iter st.
Proof. unfold consider. now destruct (_ <? _). Qed.

Lemma consider_niters pts st m : niters (consider pts st m) <= niters st.
Proof. unfold consider. destruct (_ <? _); cbn; [apply updateNumIters_le | lia]. Qed.

(** The best model and its inlier count go together. *)
Definition best_ok (pts : list P) (st : state M R) : Prop :=
  match bestModel st with
  | Some m => maxGoodCount st = findInliers pts m /\ modelPoints <= findInliers pts m
  | None => maxGoodCount st = 0
  end.

Lemma consider_best_ok pts st m : best_ok pts st -> best_ok pts (consider pts st m).
Proof.
  unfold consider, best_ok. destruct (Nat.ltb_spec (Nat.max (maxGoodCount st) (modelPoints - 1))
                                                   (findInliers pts m)) as [Hlt|]; cbn; auto.
  intros _. split; [reflexivity | lia].
Qed.

(** One iteration of the loop, the guard [iter < niters] first. *)
Lemma ransac_loop_unfold fuel pts st :
  ransac_loop fuel pts st =
  if iter st <? niters st then
    match fuel with
    | O => None
    | S fuel' =>
        match getSubset pts (rng st) with
        | None => if iter st =? 0 then Some None else Some (Some st)
        | Some (sample, rng') =>
            let st1 := mkState (iter st) (niters st) (maxGoodCount st) (bestModel st) rng' in
            let st2 := match runKernel sample with
                       | Some m => consider pts st1 m
                       | None => st1
                       end in
            ransac_loop fuel' pts
              (mkState (S (iter st2)) (niters st2) (maxGoodCount st2) (bestModel st2) (rng st2))
        end
    end
  else Some (Some st).
Proof. destruct fuel; reflexivity. Qed.

(** The state after one sample: the generator advanced and, when the
    kernel gives a model, the model considered. *)
Definition after_sample (pts : list P) (st : state M R) (sample : list P) (r' : R) : state M R :=
  let st1 := mkState (iter st) (niters st) (maxGoodCount st) (bestModel st) r' in
  match runKernel sample with
  | Some m => consider pts st1 m
  | None => st1
  end.

Lemma after_sample_iter pts st sample r' : iter (after_sample pts st sample r') = iter st.
Proof. unfold after_sample. destruct (runKernel sample); [rewrite consider_iter|]; reflexivity. Qed.

Lemma after_sample_best pts st sample r' :
  best_ok pts st -> best_ok pts (after_sample pts st sample r').
Proof.
  intros Hb. unfold after_sample. destruct (runKernel sample); [|exact Hb].
  apply consider_best_ok. exact Hb.
Qed.

(** The loop keeps [best_ok]. *)
Lemma ransac_loop_best fuel pts st st' :
  best_ok pts st -> ransac_loop fuel pts st = Some (Some st') -> best_ok pts st'.
Proof.
  revert st. induction fuel as [|fuel IH]; intros st Hb H; rewrite ransac_loop_unfold in H;
    (destruct (Nat.ltb_spec (iter st) (niters st)) as [Hlt|Hge]; [|inv H; exact Hb]);
    [discriminate|].
  destruct (getSubset pts (rng st)) as [[sample r']|];
    [|destruct (iter st =? 0); inv H; exact Hb].
  cbv zeta in H. apply IH in H; [exact H|].
  exact (after_sample_best pts st sample r' Hb).
Qed.

Lemma after_sample_niters pts st sample r' : niters (after_sample pts st sample r') <= niters st.
Proof.
  unfold after_sample. destruct (runKernel sample); [|cbn; lia].
  apply (consider_niters pts (mkState (iter st) (niters st) (maxGoodCount st) (bestModel st) r')).
Qed.

(** The measure [niters - iter] bounds the iterations still to run. *)
Lemma ransac_loop_fuel fuel pts st :
  niters st - iter st <= fuel -> ransac_loop fuel pts st <> None.
Proof.
  revert st. induction fuel as [|fuel IH]; intros st Hf; rewrite ransac_loop_unfold;
    destruct (Nat.ltb_spec (iter st) (niters st)) as [Hlt|]; try discriminate; [lia|].
  destruct (getSubset pts (rng st)) as [[sample r']|];
    [|destruct (iter st =? 0); discriminate].
  cbv zeta. fold (after_sample pts st sample r'). apply IH. cbn [iter niters].
  pose proof (after_sample_iter pts st sample r'). pose proof (after_sample_niters pts st sample r').
  lia.
Qed.

(** The loop leaves with [iter] at most the larger of its start values. *)
Lemma ransac_loop_iter fuel pts st st' :
  ransac_loop fuel pts st = Some (Some st') -> iter st' <= Nat.max (iter st) (niters st).
Proof.
  revert st. induction fuel as [|fuel IH]; intros st H; rewrite ransac_loop_unfold in H;
    (destruct (Nat.ltb_spec (iter st) (niters st)) as [Hlt|Hge]; [|inv H; lia]);
    [discriminate|].
  destruct (getSubset pts (rng st)) as [[sample r']|]; [|destruct (iter st =? 0); inv H; lia].
  cbv zeta in H. apply IH in H. fold (after_sample pts st sample r') in H. cbn [iter niters] in H.
  pose proof (after_sample_iter pts st sample r'). pose proof (after_sample_niters pts st sample r').
  lia.
Qed.

(** ** Properties of the loop *)

(** The fuel [max(maxIters, 1)] is enough: the loop always leaves, after
    at most [max(maxIters, 1)] iterations. *)
Lemma ransac_loop_terminates maxIters pts rng0 :
  exists r, ransac_loop (Nat.max maxIters 1) pts (mkState 0 (Nat.max maxIters 1) 0 None rng0) = Some r
            /\ forall st, r = Some st -> iter st <= Nat.max maxIters 1.
Proof.
  destruct (ransac_loop _ _ _) as [r|] eqn:E.
  - exists r. split; [reflexivity|]. intros st ->.
    apply ransac_loop_iter in E. cbn in E. lia.
  - exfalso. revert E. apply ransac_loop_fuel. cbn. lia.
Qed.

(** A model [ransac_run] returns comes from the kernel on exactly
    [modelPoints] points, or has at least [modelPoints] inliers. *)
Lemma ransac_run_model maxIters pts rng0 m :
  ransac_run maxIters pts rng0 = Some m ->
  (length pts = modelPoints /\ runKernel pts = Some m) \/ modelPoints <= findInliers pts m.
Proof.
  unfold ransac_run.
  destruct (Nat.ltb_spec (length pts) modelPoints); [discriminate|].
  destruct (Nat.eqb_spec (length pts) modelPoints) as [Heq|]; [auto|].
  destruct (ransac_loop _ _ _) as [[st|]|] eqn:E; try discriminate.
  apply ransac_loop_best in E as Hb; [|reflexivity].
  destruct (0 <? maxGoodCount st); [|discriminate]. intros Hm.
  unfold best_ok in Hb. rewrite Hm in Hb. right. apply Hb.
Qed.

End Loop.

(** ** The RANSAC stage of [cv2.findHomography] (line 62) *)

Section FindHomography.
Import Geometry.
Local Open Scope nat_scope.
Context {R : Type}.
(** [HomographyEstimatorCallback::runKernel]: one homography from four
    pairs, or none for a degenerate sample. *)
Variable kernel : list (point * point) -> option mat3.
Variable getSubset : list (point * point) -> R -> option (list (point * point) * R).
(** Pairs whose reprojection error is below [ransacReprojThreshold = 3]. *)
Variable findInliers : list (point * point) -> mat3 -> nat.
Variable updateNumIters : nat -> nat -> nat -> nat.

(** [findHomography(obj, scene, RANSAC)] with its defaults: a homography
    needs 4 pairs ([modelPoints]) and the loop [maxIters = 2000]
    iterations.  The refinement of the model on its inliers and the
    scaling to [h22 = 1] that follow are not part of this stage. *)
Definition findHomography_ransac (obj scene : list point) (rng0 : R) : option mat3 :=
  ransac_run kernel getSubset findInliers updateNumIters 4 2000 (combine obj scene) rng0.

(** C18: the RANSAC loop of [findHomography] terminates: whatever the
    samples, the models and the inlier counts, it leaves within
    [maxIters = 2000] iterations, provided [RANSACUpdateNumIters] never
    raises the bound it is given. *)
Theorem findHomography_ransac_terminates obj scene rng0 :
  (forall c g n, updateNumIters c g n <= n) ->
  exists r, ransac_loop kernel getSubset findInliers updateNumIters 4 2000 (combine obj scene)
              (mkState 0 2000 0 None rng0) = Some r
            /\ forall st, r = Some st -> iter st <= 2000.
Proof.
  intros Hle. exact (ransac_loop_terminates kernel getSubset findInliers updateNumIters Hle 4
                       2000 (combine obj scene) rng0).
Qed.

(** C19: a homography the RANSAC stage returns was fitted to exactly the
    four given pairs, or agrees with at least four of the pairs (its
    consensus set has at least [modelPoints] members). *)
Theorem findHomography_ransac_consensus obj scene rng0 H :
  findHomography_ransac obj scene rng0 = Some H ->
  (length (combine obj scene) = 4 /\ kernel (combine obj scene) = Some H)
  \/ 4 <= findInliers (combine obj scene) H.
Proof. apply ransac_run_model. Qed.

End FindHomography.

(** ** A concrete instance for runs *)

Section Example.
Import Geometry.
Local Open Scope nat_scope.

(** A translation kernel (the offset of the first pair), a sampler that
    takes the first four pairs, exact inliers, and an update that stops
    once every pair is an inlier. *)
Definition ex_kernel (sample : list (point * point)) : option mat3 :=
  match sample with
  | (o, s) :: _ => Some (translation (fst s - fst o)%Q (snd s - snd o)%Q)
  | [] => None
  end.

Definition ex_getSubset (pts : list (point * point)) (r : nat) : option (list (point * point) * nat) :=
  Some (firstn 4 pts, S r).

Definition ex_findInliers (pts : list (point * point)) (H : mat3) : nat :=
  length (filter (fun os => Qeq_bool (fst (transform_point H (fst os))) (fst (snd os))
                            && Qeq_bool (snd (transform_point H (fst os))) (snd (snd os))) pts).

Definition ex_update (count good niters : nat) : nat := if good =? count then 0 else niters.

Lemma ex_update_le c g n : ex_update c g n <= n.
Proof. unfold ex_update. destruct (g =? c); lia. Qed.

Definition ex_obj : list point := [(0, 0); (1, 0); (0, 1); (1, 1); (2, 3)]%Q.
Definition ex_scene : list point := [(3, 4); (4, 4); (3, 5); (4, 5); (5, 7)]%Q.

Lemma findHomography_ransac_terminates_witness :
  (forall c g n, ex_update c g n <= n)
  /\ exists r, ransac_loop ex_kernel ex_getSubset ex_findInliers ex_update 4 2000
                (combine ex_obj ex_scene) (mkState 0 2000 0 None 0) = Some r
              /\ forall st, r = Some st -> iter st <= 2000.
Proof.
  split; [exact ex_update_le|].
  apply (findHomography_ransac_terminates ex_kernel ex_getSubset ex_findInliers ex_update).
  exact ex_update_le.
Defined.

Lemma findHomography_ransac_consensus_witness :
  findHomography_ransac ex_kernel ex_getSubset ex_findInliers ex_update ex_obj ex_scene 0
  = Some (translation 3 4)
  /\ ((length (combine ex_obj ex_scene) = 4
       /\ ex_kernel (combine ex_obj ex_scene) = Some (translation 3 4))
      \/ 4 <= ex_findInliers (combine ex_obj ex_scene) (translation 3 4)).
Proof.
  assert (H : findHomography_ransac ex_kernel ex_getSubset ex_findInliers ex_update ex_obj ex_scene 0
              = Some (translation 3 4)) by (vm_compute; reflexivity).
  split; [exact H|]. exact (findHomography_ransac_consensus _ _ _ _ _ _ _ _ H).
Defined.

End Example.

End Ransac.
