(* ===== verification/Localizer.v ===== *)
(** [draw_corner_coordinates] (lines 45-107 of the script): the side by
    side canvas of [cv2.drawMatches], the point arrays [obj]/[scene] read
    from the keypoints of the good matches, the homography fit
    [cv2.findHomography(obj, scene, cv2.RANSAC)], the corner array of the
    query image, [cv2.perspectiveTransform] and the four
    [cv2.drawMarker] calls.

    The robust fit is an interface, the class [HomographySolver]: OpenCV's
    own check (fewer than four point pairs raise [cv2.error]) is written
    out in [findHomography]; the RANSAC estimator behind it is a field of
    the class, returning [None] when it fails, and its one law says that
    on outlier-free data generated by a translation, with four points in
    general position, it returns that translation (normalised so that
    [H[2][2] = 1], as OpenCV does).  The client theorems are proved
    against the class.

    A canvas records its shape, the matches drawn on it and the markers,
    in order; pixels are not modelled.  Coordinates are exact rationals;
    [int(...)] truncates toward zero, and a marker position outside the C
    [int] range makes the binding raise [cv2.error]. *)

From Stdlib Require Import String QArith Qabs Qround ZArith List Lia Bool Setoid Morphisms.
From S2P Require Import Prelude PyEffects KnnMatch Geometry.
Import ListNotations.

Module Localizer.
Import KnnMatch Geometry.

(** ** Data *)

(** [cv2.KeyPoint]: the script reads its [pt]. *)
Record KeyPoint := mkKeyPoint { pt : point }.

(** A grayscale image as [cv2.imread(filename, 0)] returns it:
    [shape = (rows, cols)]. *)
Record Image := mkImage { img_rows : nat; img_cols : nat; pixels : list (list Z) }.

Inductive MarkerType := MARKER_DIAMOND.

Record Marker := mkMarker {
  position : Z * Z; color : Z * Z * Z; markerType : MarkerType;
  markerSize : Z; thickness : Z }.

(** The 3-channel canvas: shape, matches drawn by [drawMatches], markers. *)
Record Canvas := mkCanvas {
  c_rows : nat; c_cols : nat; c_matches : list DMatch; c_markers : list Marker }.

(** ** The homography fit *)

Definition collinear (a b c : point) : bool :=
  Qeq_bool ((fst b - fst a) * (snd c - snd a)) ((snd b - snd a) * (fst c - fst a)).

Fixpoint choose {A} (k : nat) (l : list A) : list (list A) :=
  match k, l with
  | O, _ => [[]]
  | S _, [] => []
  | S k', x :: l' => map (cons x) (choose k' l') ++ choose k l'
  end.

(** Four of the points with no three of them on a line. *)
Definition general_position (pts : list point) : bool :=
  existsb (fun q => match q with
                    | [a; b; c; d] =>
                        negb (collinear a b c || collinear a b d
                              || collinear a c d || collinear b c d)
                    | _ => false
                    end) (choose 4 pts).

Definition shift (dx dy : Q) (p : point) : point := (fst p + dx, snd p + dy).

Class HomographySolver := {
  ransac : list point -> list point -> option mat3;
  ransac_translation : forall obj dx dy,
    (4 <= length obj)%nat -> general_position obj = true ->
    exists H, ransac obj (map (shift dx dy) obj) = Some H /\ mat_eq H (translation dx dy)
}.

Section WithSolver.
Context `{HS : HomographySolver}.

(** [cv2.findHomography(obj, scene, cv2.RANSAC)]; [None] for [H] when the
    estimator fails. *)
Definition findHomography (obj scene : list point) : result (option mat3) :=
  if (length obj <? 4)%nat then Raise (Cv2Error "findHomography")
  else Ok (ransac obj scene).

(** ** The function *)

(** Lines 52-60: [obj[i] = kp_query[good_matches[i].queryIdx].pt],
    [scene[i] = kp_main[good_matches[i].trainIdx].pt], in loop order. *)
Fixpoint collect_points (good_matches : list DMatch) (kp_query kp_main : list KeyPoint)
  : result (list point * list point) :=
  match good_matches with
  | [] => Ok ([], [])
  | m :: rest =>
      kq <-? py_index kp_query (queryIdx m) ;;
      km <-? py_index kp_main (trainIdx m) ;;
      r <-? collect_points rest kp_query kp_main ;;
      Ok (pt kq :: fst r, pt km :: snd r)
  end.

(** Lines 65-73: [(0,0), (w,0), (w,h), (0,h)] with [h, w = shape]. *)
Definition obj_corners (query_image : Image) : list point :=
  let w := inject_Z (Z.of_nat (img_cols query_image)) in
  let h := inject_Z (Z.of_nat (img_rows query_image)) in
  [(0, 0); (w, 0); (w, h); (0, h)].

(** Line 75: [cv2.perspectiveTransform(obj_corners, H)]; [H] is [None]
    when the fit failed, which OpenCV rejects. *)
Definition perspective_transform_py (pts : list point) (H : option mat3) : result (list point) :=
  match H with
  | Some m => Ok (perspectiveTransform pts m)
  | None => Raise (Cv2Error "perspectiveTransform")
  end.

(** Python's [int()] of a float: truncation toward zero. *)
Definition py_int (q : Q) : Z := if Qle_bool 0 q then Qfloor q else Qceiling q.

Definition INT_MIN : Z := -2147483648.

(** The binding converts a Python [int] to a C [int] only in range;
    otherwise the call fails with [cv2.error]. *)
Definition in_int32 (pos : Z * Z) : bool :=
  (INT_MIN <=? fst pos)%Z && (fst pos <=? INT_MAX)%Z
  && (INT_MIN <=? snd pos)%Z && (snd pos <=? INT_MAX)%Z.

(** [cv2.drawMarker(img, position, color=(255, 0, 0),
    markerType=cv2.MARKER_DIAMOND, markerSize=7, thickness=t,
    line_type=cv2.LINE_AA)]: draws on [img] and returns it. *)
Definition drawMarker (img : Canvas) (pos : Z * Z) (t : Z) : result Canvas :=
  if in_int32 pos
  then Ok (mkCanvas (c_rows img) (c_cols img) (c_matches img)
             (c_markers img ++ [mkMarker pos (255, 0, 0)%Z MARKER_DIAMOND 7 t]))
  else Raise (Cv2Error "drawMarker").

(** [(int(scene_corners[k,0,0] + query_image.shape[1]),
      int(scene_corners[k,0,1]))] *)
Definition corner_position (query_image : Image) (c : point) : Z * Z :=
  (py_int (fst c + inject_Z (Z.of_nat (img_cols query_image))), py_int (snd c)).

(** [drawMatches] asserts that every match indexes both keypoint lists. *)
Definition valid_match (kp_query kp_main : list KeyPoint) (m : DMatch) : bool :=
  (0 <=? queryIdx m)%Z && (queryIdx m <? Z.of_nat (length kp_query))%Z
  && (0 <=? trainIdx m)%Z && (trainIdx m <? Z.of_nat (length kp_main))%Z.

(** Lines 46-50: [img_matches] of shape [(max(h1, h2), w1 + w2, 3)] with
    the good matches drawn. *)
Definition drawMatches (query_image : Image) (kp_query : list KeyPoint)
  (main_image : Image) (kp_main : list KeyPoint) (good_matches : list DMatch) : result Canvas :=
  if forallb (valid_match kp_query kp_main) good_matches then
    Ok (mkCanvas (Nat.max (img_rows query_image) (img_rows main_image))
                 (img_cols query_image + img_cols main_image) good_matches [])
  else Raise (Cv2Error "drawMatches").

Definition draw_corner_coordinates (query_image main_image : option Image)
  (good_matches : list DMatch) (kp_query kp_main : list KeyPoint) : result Canvas :=
  match query_image, main_image with
  | None, _ | _, None => Raise AttributeError
  | Some qi, Some mi =>
      img_matches <-? drawMatches qi kp_query mi kp_main good_matches ;;
      pts <-? collect_points good_matches kp_query kp_main ;;
      H <-? findHomography (fst pts) (snd pts) ;;
      scene_corners <-? perspective_transform_py (obj_corners qi) H ;;
      let pos k := corner_position qi (nth k scene_corners (0, 0)) in
      im_with_corner1 <-? drawMarker img_matches (pos 0%nat) 3 ;;
      im_with_corner2 <-? drawMarker im_with_corner1 (pos 1%nat) 2 ;;
      im_with_corner3 <-? drawMarker im_with_corner2 (pos 2%nat) 2 ;;
      drawMarker im_with_corner3 (pos 3%nat) 2
  end.

(** ** Specification: the function in closed form *)

(** The keypoint a valid index names (specification helper). *)
Definition kp_at (kps : list KeyPoint) (i : Z) : KeyPoint := nth (Z.to_nat i) kps (mkKeyPoint (0, 0)).

(** Truncation toward zero of a rational, as [Z.quot] of its numerator
    by its denominator. *)
Definition trunc (q : Q) : Z := Z.quot (Qnum q) (Zpos (Qden q)).

(** The marker position of the query corner [(x, y)]: its projection by
    [H], written out from the entries of [H] ([(0, 0)] when
    [|w| <= FLT_EPSILON]), moved right by the query's width (its number
    of columns) and truncated. *)
Definition spec_marker (qi : Image) (H : mat3) (x y : Q) : Z * Z :=
  let w := x * h20 H + y * h21 H + h22 H in
  let '(u, v) := if Qle_bool (Qabs w) FLT_EPSILON then (0, 0)
                 else ((x * h00 H + y * h01 H + h02 H) / w, (x * h10 H + y * h11 H + h12 H) / w) in
  (trunc (u + inject_Z (Z.of_nat (img_cols qi))), trunc v).

(** The four marker positions for a fitted [H]: the corners
    [(0, 0), (cols, 0), (cols, rows), (0, rows)] of the query, in that
    order. *)
Definition marker_positions (qi : Image) (H : mat3) : list (Z * Z) :=
  let c := inject_Z (Z.of_nat (img_cols qi)) in
  let r := inject_Z (Z.of_nat (img_rows qi)) in
  [spec_marker qi H 0 0; spec_marker qi H c 0; spec_marker qi H c r; spec_marker qi H 0 r].

(** Every match indexes both keypoint lists. *)
Definition indices_ok (kpq kpm : list KeyPoint) (good : list DMatch) : bool :=
  forallb (fun m => (0 <=? queryIdx m) && (queryIdx m <? Z.of_nat (length kpq))
                    && (0 <=? trainIdx m) && (trainIdx m <? Z.of_nat (length kpm)))%Z good.

(** A position a C [int] can hold. *)
Definition int32_ok (p : Z * Z) : bool :=
  (-2147483648 <=? fst p) && (fst p <=? 2147483647)
  && (-2147483648 <=? snd p) && (snd p <=? 2147483647).

(** What [draw_corner_coordinates] computes on two loaded images, with
    its failures in the order the code meets them: an invalid match
    index ([drawMatches]), fewer than four pairs ([findHomography]), no
    fit ([perspectiveTransform]), a corner outside the C [int] range
    ([drawMarker]).  Only the estimator [ransac] is shared with the
    code. *)
Definition localize_spec (qi mi : Image) (good : list DMatch) (kpq kpm : list KeyPoint)
  : result Canvas :=
  if negb (indices_ok kpq kpm good) then Raise (Cv2Error "drawMatches")
  else if (length good <? 4)%nat then Raise (Cv2Error "findHomography")
  else match ransac (map (fun m => pt (kp_at kpq (queryIdx m))) good)
                    (map (fun m => pt (kp_at kpm (trainIdx m))) good) with
       | None => Raise (Cv2Error "perspectiveTransform")
       | Some H =>
           let pos := marker_positions qi H in
           if forallb int32_ok pos then
             Ok (mkCanvas (Nat.max (img_rows qi) (img_rows mi)) (img_cols qi + img_cols mi) good
                   (map (fun '(p, t) => mkMarker p (255, 0, 0)%Z MARKER_DIAMOND 7 t)
                        (combine pos [3; 2; 2; 2]%Z)))
           else Raise (Cv2Error "drawMarker")
       end.

(** ** Lemmas *)


Lemma py_index_valid {A} (l : list A) i d :
  (0 <= i < Z.of_nat (length l))%Z -> py_index l i = Ok (nth (Z.to_nat i) l d).
Proof.
  intros Hi. unfold py_index.
  replace ((0 <=? i)%Z && (i <? Z.of_nat (length l))%Z) with true
    by (symmetry; apply andb_true_iff; split; [apply Z.leb_le | apply Z.ltb_lt]; lia).
  rewrite (nth_error_nth' l d) by lia. reflexivity.
Qed.

Lemma collect_points_valid good kpq kpm :
  forallb (valid_match kpq kpm) good = true ->
  collect_points good kpq kpm
  = Ok (map (fun m => pt (kp_at kpq (queryIdx m))) good,
        map (fun m => pt (kp_at kpm (trainIdx m))) good).
Proof.
  induction good as [|m good IH]; simpl; intros H; auto.
  apply andb_prop in H as [Hm H]. unfold valid_match in Hm. bool_prop.
  rewrite (py_index_valid kpq _ (mkKeyPoint (0, 0))) by lia.
  rewrite (py_index_valid kpm _ (mkKeyPoint (0, 0))) by lia.
  simpl. rewrite IH by exact H. reflexivity.
Qed.

#[export] Instance py_int_Proper : Proper (Qeq ==> eq) py_int.
Proof.
  intros q q' E. unfold py_int.
  rewrite (Qleb_comp 0 0 (Qeq_refl 0) q q' E), (Qfloor_comp _ _ E).
  destruct (Qle_bool 0 q'); [reflexivity|]. now apply Qceiling_comp.
Qed.

Lemma py_int_Z z : py_int (inject_Z z) = z.
Proof.
  unfold py_int. destruct (Qle_bool 0 _); [apply Qfloor_Z | apply Qceiling_Z].
Qed.

Lemma drawMarker_ok img pos t :
  (INT_MIN <= fst pos <= INT_MAX)%Z -> (INT_MIN <= snd pos <= INT_MAX)%Z ->
  drawMarker img pos t
  = Ok (mkCanvas (c_rows img) (c_cols img) (c_matches img)
          (c_markers img ++ [mkMarker pos (255, 0, 0)%Z MARKER_DIAMOND 7 t])).
Proof.
  intros H1 H2. unfold drawMarker, in_int32.
  replace ((INT_MIN <=? fst pos)%Z && (fst pos <=? INT_MAX)%Z && (INT_MIN <=? snd pos)%Z
           && (snd pos <=? INT_MAX)%Z) with true; [reflexivity|].
  symmetry. repeat (apply andb_true_iff; split); apply Z.leb_le; lia.
Qed.

Lemma corner_position_translation qi H (dx dy cx cy : Z) :
  mat_eq H (translation (inject_Z dx) (inject_Z dy)) ->
  corner_position qi (transform_point H (inject_Z cx, inject_Z cy))
  = (cx + dx + Z.of_nat (img_cols qi), cy + dy)%Z.
Proof.
  intros HH.
  assert (E : pt_eq (transform_point H (inject_Z cx, inject_Z cy))
                    (inject_Z cx + inject_Z dx, inject_Z cy + inject_Z dy)).
  { rewrite HH. apply transform_point_translation. }
  destruct E as [Ex Ey]. cbn [fst snd] in Ex, Ey. unfold corner_position. f_equal.
  - rewrite <- (py_int_Z (cx + dx + Z.of_nat (img_cols qi))). apply py_int_Proper.
    rewrite Ex, !inject_Z_plus. reflexivity.
  - rewrite <- (py_int_Z (cy + dy)). apply py_int_Proper. rewrite Ey, inject_Z_plus. reflexivity.
Qed.

Lemma drawMatches_ok qi kpq mi kpm good :
  forallb (valid_match kpq kpm) good = true ->
  drawMatches qi kpq mi kpm good
  = Ok (mkCanvas (Nat.max (img_rows qi) (img_rows mi)) (img_cols qi + img_cols mi) good []).
Proof. intros H. unfold drawMatches. now rewrite H. Qed.

(** C20: with both images loaded and valid match indices, fewer than four
    good matches make [cv2.findHomography] raise: the query is not
    localised and nothing is returned. *)
Theorem draw_corner_coordinates_few_matches qi mi good kpq kpm :
  forallb (valid_match kpq kpm) good = true -> (length good < 4)%nat ->
  draw_corner_coordinates (Some qi) (Some mi) good kpq kpm = Raise (Cv2Error "findHomography").
Proof.
  intros Hv Hn. unfold draw_corner_coordinates.
  rewrite drawMatches_ok, collect_points_valid by exact Hv. cbn [rbind fst snd].
  unfold findHomography. rewrite length_map.
  replace (length good <? 4)%nat with true by (symmetry; apply Nat.ltb_lt; lia).
  reflexivity.
Qed.

(** C28: when the estimator fails ([H] is [None]), the call raises in
    [cv2.perspectiveTransform]. *)
Theorem draw_corner_coordinates_fit_fails qi mi good kpq kpm :
  forallb (valid_match kpq kpm) good = true -> (4 <= length good)%nat ->
  ransac (map (fun m => pt (kp_at kpq (queryIdx m))) good)
         (map (fun m => pt (kp_at kpm (trainIdx m))) good) = None ->
  draw_corner_coordinates (Some qi) (Some mi) good kpq kpm
  = Raise (Cv2Error "perspectiveTransform").
Proof.
  intros Hv Hn Hr. unfold draw_corner_coordinates.
  rewrite drawMatches_ok, collect_points_valid by exact Hv. cbn [rbind fst snd].
  unfold findHomography. rewrite length_map.
  replace (length good <? 4)%nat with false by (symmetry; apply Nat.ltb_ge; lia).
  cbn [rbind]. now rewrite Hr.
Qed.

(** C4: the end-to-end localisation.  When every good match pairs a
    query keypoint with the reference keypoint offset by [(dx, dy)] (the
    query is an exact crop at that offset), at least four of the query
    keypoints are in general position and the estimator meets its
    contract, the four markers are drawn at the crop's corners in the
    reference, shifted right by the query's width since the reference
    is drawn to the right of the query. *)
Theorem draw_corner_coordinates_translation qi mi good kpq kpm (dx dy : Z) :
  forallb (valid_match kpq kpm) good = true ->
  Forall (fun m => pt (kp_at kpm (trainIdx m))
                   = shift (inject_Z dx) (inject_Z dy) (pt (kp_at kpq (queryIdx m)))) good ->
  (4 <= length good)%nat ->
  general_position (map (fun m => pt (kp_at kpq (queryIdx m))) good) = true ->
  (0 <= dx)%Z -> (0 <= dy)%Z ->
  (dx + 2 * Z.of_nat (img_cols qi) <= INT_MAX)%Z -> (dy + Z.of_nat (img_rows qi) <= INT_MAX)%Z ->
  exists canvas,
    draw_corner_coordinates (Some qi) (Some mi) good kpq kpm = Ok canvas
    /\ map position (c_markers canvas)
       = [(dx + Z.of_nat (img_cols qi), dy);
          (dx + 2 * Z.of_nat (img_cols qi), dy);
          (dx + 2 * Z.of_nat (img_cols qi), dy + Z.of_nat (img_rows qi));
          (dx + Z.of_nat (img_cols qi), dy + Z.of_nat (img_rows qi))]%Z.
Proof.
  intros Hv Hshift Hn Hgp Hdx Hdy Hw Hh.
  set (obj := map (fun m => pt (kp_at kpq (queryIdx m))) good) in *.
  assert (Hscene : map (fun m => pt (kp_at kpm (trainIdx m))) good
                   = map (shift (inject_Z dx) (inject_Z dy)) obj).
  { subst obj. rewrite map_map. apply map_ext_in. intros m Hm.
    rewrite Forall_forall in Hshift. auto. }
  destruct (ransac_translation obj (inject_Z dx) (inject_Z dy)) as (H & HH & Heq);
    [subst obj; now rewrite length_map | exact Hgp |].
  unfold draw_corner_coordinates.
  rewrite drawMatches_ok, collect_points_valid by exact Hv. cbn [rbind fst snd].
  fold obj. rewrite Hscene. unfold findHomography.
  replace (length obj <? 4)%nat with false
    by (symmetry; apply Nat.ltb_ge; subst obj; rewrite length_map; lia).
  cbn [rbind]. rewrite HH. cbn [perspective_transform_py rbind].
  unfold obj_corners, perspectiveTransform. cbn [map nth].
  change (0 : Q) with (inject_Z 0).
  rewrite !(corner_position_translation qi H dx dy) by exact Heq.
  repeat (rewrite drawMarker_ok by (cbn [fst snd]; unfold INT_MIN; lia); cbn [rbind]).
  eexists. split; [reflexivity|]. cbn [c_markers app map position].
  rewrite ?Z.add_0_l.
  replace (Z.of_nat (img_cols qi) + dx + Z.of_nat (img_cols qi))%Z
    with (dx + 2 * Z.of_nat (img_cols qi))%Z by lia.
  replace (Z.of_nat (img_rows qi) + dy)%Z with (dy + Z.of_nat (img_rows qi))%Z by lia.
  reflexivity.
Qed.

Lemma drawMarker_Ok_inv img pos t img' :
  drawMarker img pos t = Ok img' ->
  img' = mkCanvas (c_rows img) (c_cols img) (c_matches img)
           (c_markers img ++ [mkMarker pos (255, 0, 0)%Z MARKER_DIAMOND 7 t]).
Proof. unfold drawMarker. case_goal; intros H; inv H; reflexivity. Qed.

Lemma drawMatches_Ok_inv qi kpq mi kpm good c :
  drawMatches qi kpq mi kpm good = Ok c ->
  c = mkCanvas (Nat.max (img_rows qi) (img_rows mi)) (img_cols qi + img_cols mi) good [].
Proof. unfold drawMatches. case_goal; intros H; inv H; reflexivity. Qed.

Ltac rbind_inv H := apply rbind_Ok in H as (? & ? & H); cbv beta in H.

(** C29: a canvas [draw_corner_coordinates] returns has the side by side
    shape, carries the good matches, and holds exactly four diamond
    markers of size 7 and colour (255, 0, 0), the first drawn with
    thickness 3 and the other three with thickness 2. *)
Theorem draw_corner_coordinates_canvas qi mi good kpq kpm canvas :
  draw_corner_coordinates (Some qi) (Some mi) good kpq kpm = Ok canvas ->
  c_rows canvas = Nat.max (img_rows qi) (img_rows mi)
  /\ c_cols canvas = (img_cols qi + img_cols mi)%nat /\ c_matches canvas = good
  /\ map thickness (c_markers canvas) = [3; 2; 2; 2]%Z
  /\ Forall (fun mk => markerSize mk = 7%Z /\ color mk = (255, 0, 0)%Z
                       /\ markerType mk = MARKER_DIAMOND) (c_markers canvas).
Proof.
  unfold draw_corner_coordinates. intros H. cbv beta iota in H.
  do 7 rbind_inv H.
  repeat match goal with
         | E : drawMarker _ _ _ = Ok _ |- _ => apply drawMarker_Ok_inv in E; subst
         | E : drawMatches _ _ _ _ _ = Ok _ |- _ => apply drawMatches_Ok_inv in E; subst
         end.
  cbn.
  repeat split; repeat constructor.
Qed.

Lemma drawMatches_invalid qi kpq mi kpm good :
  forallb (valid_match kpq kpm) good = false ->
  drawMatches qi kpq mi kpm good = Raise (Cv2Error "drawMatches").
Proof. intros H. unfold drawMatches. now rewrite H. Qed.

(** The four [drawMarker] calls of lines 78-105 on the four corners. *)
Lemma draw_four_markers c p0 p1 p2 p3 :
  (im1 <-? drawMarker c p0 3 ;; im2 <-? drawMarker im1 p1 2 ;;
   im3 <-? drawMarker im2 p2 2 ;; drawMarker im3 p3 2)
  = if forallb in_int32 [p0; p1; p2; p3] then
      Ok (mkCanvas (c_rows c) (c_cols c) (c_matches c)
            (c_markers c ++ map (fun '(p, t) => mkMarker p (255, 0, 0)%Z MARKER_DIAMOND 7 t)
                                (combine [p0; p1; p2; p3] [3; 2; 2; 2]%Z)))
    else Raise (Cv2Error "drawMarker").
Proof.
  unfold drawMarker. cbn [forallb].
  destruct (in_int32 p0), (in_int32 p1), (in_int32 p2), (in_int32 p3);
    cbn; try reflexivity. now rewrite <- !app_assoc.
Qed.

Lemma indices_ok_valid kpq kpm good : indices_ok kpq kpm good = forallb (valid_match kpq kpm) good.
Proof. reflexivity. Qed.

Lemma int32_ok_in_int32 p : int32_ok p = in_int32 p.
Proof. reflexivity. Qed.

(** [int()] is truncation toward zero. *)
Lemma py_int_trunc q : py_int q = trunc q.
Proof.
  destruct q as [n d]. unfold py_int, trunc, Qle_bool, Qfloor, Qceiling. cbn [Qnum Qden Qopp].
  destruct (Z.leb_spec (0 * Z.pos d) (n * 1)) as [Hn|Hn].
  - rewrite Z.quot_div_nonneg; lia.
  - rewrite <- (Z.opp_involutive n) at 2. rewrite Z.quot_opp_l by lia.
    rewrite Z.quot_div_nonneg by lia. reflexivity.
Qed.

Lemma corner_position_spec qi H x y :
  corner_position qi (transform_point H (x, y)) = spec_marker qi H x y.
Proof.
  unfold corner_position, transform_point, spec_marker, w_of. cbn [fst snd].
  destruct (Qle_bool _ _); cbn [fst snd]; now rewrite !py_int_trunc.
Qed.

Lemma draw_corner_coordinates_eq qi mi good kpq kpm :
  draw_corner_coordinates (Some qi) (Some mi) good kpq kpm = localize_spec qi mi good kpq kpm.
Proof.
  unfold draw_corner_coordinates, localize_spec.
  rewrite indices_ok_valid.
  destruct (forallb (valid_match kpq kpm) good) eqn:Hv;
    [|now rewrite drawMatches_invalid].
  rewrite drawMatches_ok, collect_points_valid by exact Hv. cbn [rbind fst snd negb].
  unfold findHomography. rewrite length_map.
  destruct (length good <? 4)%nat; [reflexivity|]. cbn [rbind].
  destruct (ransac _ _) as [H|]; [|reflexivity]. cbn [perspective_transform_py rbind].
  rewrite draw_four_markers. unfold obj_corners, perspectiveTransform. cbn [map nth].
  rewrite !corner_position_spec. reflexivity.
Qed.

(** C8: on two loaded images, [draw_corner_coordinates] is
    [localize_spec], written from the matrix entries and the image shape
    alone: the side-by-side canvas with the four markers at the
    truncated, width-shifted projections of the corners (0, 0),
    (cols, 0), (cols, rows), (0, rows), or the first failure in code
    order: [cv2.error] from [drawMatches] on an invalid match index (the
    [IndexError] of lines 57-60 is unreachable), from [findHomography]
    with fewer than four matches, from [perspectiveTransform] when the
    fit fails, from [drawMarker] when a corner leaves the C [int] range. *)
Theorem draw_corner_coordinates_refines qi mi good kpq kpm :
  draw_corner_coordinates (Some qi) (Some mi) good kpq kpm = localize_spec qi mi good kpq kpm.
Proof. apply draw_corner_coordinates_eq. Qed.

(** C13: a projected corner outside the C [int] range is not clamped:
    [cv2.drawMarker] rejects the position and the call raises. *)
Theorem draw_corner_coordinates_overflow qi mi good kpq kpm H :
  forallb (valid_match kpq kpm) good = true -> (4 <= length good)%nat ->
  ransac (map (fun m => pt (kp_at kpq (queryIdx m))) good)
         (map (fun m => pt (kp_at kpm (trainIdx m))) good) = Some H ->
  existsb (fun p => negb (in_int32 p)) (marker_positions qi H) = true ->
  draw_corner_coordinates (Some qi) (Some mi) good kpq kpm = Raise (Cv2Error "drawMarker").
Proof.
  intros Hv Hn Hr Hout. rewrite draw_corner_coordinates_eq. unfold localize_spec.
  rewrite indices_ok_valid, Hv, Hr. cbn [negb].
  replace (length good <? 4)%nat with false by (symmetry; apply Nat.ltb_ge; lia).
  replace (forallb int32_ok (marker_positions qi H)) with false; [reflexivity|].
  symmetry. apply not_true_iff_false. intros Hall.
  apply existsb_exists in Hout as (p & Hp & Hneg). rewrite forallb_forall in Hall.
  rewrite <- int32_ok_in_int32, (Hall p Hp) in Hneg. discriminate.
Qed.

End WithSolver.

(** ** A solver for concrete runs: an exact translation estimator *)

(** The offset of the first pair, kept when every pair has it. *)
Definition translation_estimate (obj scene : list point) : option mat3 :=
  match obj, scene with
  | o :: _, s :: _ =>
      let dx := fst s - fst o in
      let dy := snd s - snd o in
      if forallb (fun os => Qeq_bool (fst (snd os) - fst (fst os)) dx
                            && Qeq_bool (snd (snd os) - snd (fst os)) dy)
                 (combine obj scene)
      then Some (translation dx dy) else None
  | _, _ => None
  end.

Lemma translation_estimate_law obj dx dy :
  (4 <= length obj)%nat -> general_position obj = true ->
  exists H, translation_estimate obj (map (shift dx dy) obj) = Some H
            /\ mat_eq H (translation dx dy).
Proof.
  intros Hn _. destruct obj as [|o obj]; [simpl in Hn; lia|].
  unfold translation_estimate. cbn [map].
  replace (forallb _ _) with true.
  - eexists. split; [reflexivity|]. unfold mat_eq, shift. cbn. repeat split; ring.
  - symmetry. apply forallb_forall. intros [a b] Hab.
    apply in_combine_l in Hab as Ha. pose proof Hab as Hb.
    assert (b = shift dx dy a) as ->
      by (apply (In_combine_map (shift dx dy) (o :: obj)); exact Hab).
    unfold shift. cbn. apply andb_true_iff. split; apply Qeq_bool_iff; ring.
Qed.

#[export] Instance translation_solver : HomographySolver :=
  {| ransac := translation_estimate; ransac_translation := translation_estimate_law |}.

(** ** Concrete runs *)

(** A 2x2 query whose four keypoints are the corners of a unit square,
    found at offset (3, 4) in a 10x10 reference. *)
Definition ex_qimg : Image := mkImage 2 2 [].
Definition ex_mimg : Image := mkImage 10 10 [].
Definition ex_kpq : list KeyPoint :=
  [mkKeyPoint (0, 0); mkKeyPoint (1, 0); mkKeyPoint (0, 1); mkKeyPoint (1, 1)].
Definition ex_kpm : list KeyPoint :=
  [mkKeyPoint (3, 4); mkKeyPoint (4, 4); mkKeyPoint (3, 5); mkKeyPoint (4, 5)].
Definition ex_good : list DMatch :=
  [mkDMatch 0 0 0 0; mkDMatch 1 1 0 0; mkDMatch 2 2 0 0; mkDMatch 3 3 0 0].

Lemma draw_corner_coordinates_translation_witness :
  (forallb (valid_match ex_kpq ex_kpm) ex_good = true
   /\ Forall (fun m => pt (kp_at ex_kpm (trainIdx m))
                       = shift (inject_Z 3) (inject_Z 4) (pt (kp_at ex_kpq (queryIdx m)))) ex_good
   /\ (4 <= length ex_good)%nat
   /\ general_position (map (fun m => pt (kp_at ex_kpq (queryIdx m))) ex_good) = true)
  /\ exists canvas,
    draw_corner_coordinates (Some ex_qimg) (Some ex_mimg) ex_good ex_kpq ex_kpm = Ok canvas
    /\ map position (c_markers canvas) = [(5, 4); (7, 4); (7, 6); (5, 6)]%Z.
Proof.
  split.
  - split; [reflexivity|]. split; [repeat constructor|]. split; [simpl; lia | vm_compute; reflexivity].
  - apply (draw_corner_coordinates_translation ex_qimg ex_mimg ex_good ex_kpq ex_kpm 3 4);
      [reflexivity | repeat constructor | simpl; lia | vm_compute; reflexivity
      | lia | lia | unfold INT_MAX; simpl; lia | unfold INT_MAX; simpl; lia].
Defined.

Lemma draw_corner_coordinates_few_matches_witness :
  (forallb (valid_match ex_kpq ex_kpm) (firstn 3 ex_good) = true /\ (length (firstn 3 ex_good) < 4)%nat)
  /\ draw_corner_coordinates (Some ex_qimg) (Some ex_mimg) (firstn 3 ex_good) ex_kpq ex_kpm
     = Raise (Cv2Error "findHomography").
Proof.
  split; [split; [reflexivity | simpl; lia]|].
  apply draw_corner_coordinates_few_matches; [reflexivity | simpl; lia].
Defined.

(** The fourth reference keypoint is off the translation: the estimator
    gives up. *)
Definition ex_kpm_bad : list KeyPoint :=
  [mkKeyPoint (3, 4); mkKeyPoint (4, 4); mkKeyPoint (3, 5); mkKeyPoint (9, 9)].

Lemma draw_corner_coordinates_fit_fails_witness :
  (forallb (valid_match ex_kpq ex_kpm_bad) ex_good = true /\ (4 <= length ex_good)%nat
   /\ ransac (map (fun m => pt (kp_at ex_kpq (queryIdx m))) ex_good)
             (map (fun m => pt (kp_at ex_kpm_bad (trainIdx m))) ex_good) = None)
  /\ draw_corner_coordinates (Some ex_qimg) (Some ex_mimg) ex_good ex_kpq ex_kpm_bad
     = Raise (Cv2Error "perspectiveTransform").
Proof.
  split; [split; [reflexivity | split; [simpl; lia | vm_compute; reflexivity]]|].
  apply draw_corner_coordinates_fit_fails; [reflexivity | simpl; lia | vm_compute; reflexivity].
Defined.

Lemma draw_corner_coordinates_canvas_witness :
  exists canvas,
    draw_corner_coordinates (Some ex_qimg) (Some ex_mimg) ex_good ex_kpq ex_kpm = Ok canvas
    /\ (c_rows canvas = Nat.max (img_rows ex_qimg) (img_rows ex_mimg)
        /\ c_cols canvas = (img_cols ex_qimg + img_cols ex_mimg)%nat /\ c_matches canvas = ex_good
        /\ map thickness (c_markers canvas) = [3; 2; 2; 2]%Z
        /\ Forall (fun mk => markerSize mk = 7%Z /\ color mk = (255, 0, 0)%Z
                             /\ markerType mk = MARKER_DIAMOND) (c_markers canvas)).
Proof.
  eexists. split; [vm_compute; reflexivity|].
  apply (draw_corner_coordinates_canvas ex_qimg ex_mimg ex_good ex_kpq ex_kpm).
  vm_compute. reflexivity.
Defined.

(** The crop found at column [INT_MAX]: its corners, shifted right by the
    query's width on the canvas, do not fit in a C [int]. *)
Definition ex_kpm_far : list KeyPoint :=
  [mkKeyPoint (2147483647, 4); mkKeyPoint (2147483648, 4);
   mkKeyPoint (2147483647, 5); mkKeyPoint (2147483648, 5)].

Lemma draw_corner_coordinates_overflow_witness :
  (forallb (valid_match ex_kpq ex_kpm_far) ex_good = true /\ (4 <= length ex_good)%nat
   /\ ransac (map (fun m => pt (kp_at ex_kpq (queryIdx m))) ex_good)
             (map (fun m => pt (kp_at ex_kpm_far (trainIdx m))) ex_good)
      = Some (translation 2147483647 4)
   /\ existsb (fun p => negb (in_int32 p)) (marker_positions ex_qimg (translation 2147483647 4))
      = true)
  /\ draw_corner_coordinates (Some ex_qimg) (Some ex_mimg) ex_good ex_kpq ex_kpm_far
     = Raise (Cv2Error "drawMarker").
Proof.
  split; [repeat split; vm_compute; reflexivity|].
  apply (draw_corner_coordinates_overflow _ _ _ _ _ (translation 2147483647 4));
    [reflexivity | simpl; lia | vm_compute; reflexivity | vm_compute; reflexivity].
Defined.

End Localizer.
