(* ===== verification/Pipeline.v ===== *)
(** The script's driver: [read_image] (lines 16-23), [find_orb_features]
    (lines 27-30) and [main] (lines 111-141), in the [Py] monad of
    [PyEffects] with an output trace of printed lines, windows and the
    final key wait.

    - The file system is a finite map from paths to images ([gmap string
      Image]); [cv2.imread(filename, 0)] looks the path up.  A missing
      [--inputK] option leaves [None] in the namespace; OpenCV's binding
      reads [None] as the empty path, [imread] finds nothing, and building
      the error message (a string concatenated with [None]) raises
      [TypeError].  An option given as [--inputK=--] holds an empty list
      ([OptValue]), which the binding refuses: [cv2.imread] raises
      [cv2.error].
    - ORB is an interface, the class [OrbDetector]: one descriptor row of
      32 bytes per keypoint, and no descriptors ([None]) when there is no
      keypoint.  On a [None] image ORB returns at once with no keypoints.
    - [main] loads the three images, extracts the features, matches and
      localises both queries, then shows both resized canvases and waits
      for a key; nothing is caught, so the first exception ends it. *)

From Stdlib Require Import String ZArith QArith List Lia Bool.
From stdpp Require Import base strings gmap.
From S2P Require Import Prelude PyEffects Hamming KnnMatch Matcher Geometry Localizer.
Import ListNotations.

Module Pipeline.
Import Hamming KnnMatch Matcher Geometry Localizer.

(** ** Data *)

(** A window of [cv2.imshow]: its title and the displayed image's shape. *)
Inductive Event :=
| Print (line : string)
| ImShow (title : string) (rows cols : nat)
| WaitKey.

(** What argparse stores for an option given on the command line: its
    string, or the empty list when the string was ['--'] ([_get_values]
    removes the first ['--'] of an option's arguments; see [Cli]). *)
Inductive OptValue := Str (s : string) | EmptyList.

(** The namespace [parser.parse_args()] returns; [None] is Python's
    [None], the default of an option that is not given. *)
Record Args := mkArgs { input1 : option OptValue; input2 : option OptValue; input3 : option OptValue }.

(** ** Interface of the feature extractor *)

Class OrbDetector := {
  detectAndCompute : Image -> Z -> list KeyPoint * DescMat;
  orb_rows : forall img n,
    length (fst (detectAndCompute img n)) = length (mrows (snd (detectAndCompute img n)));
  orb_ok : forall img n, mat_ok (snd (detectAndCompute img n)) = true;
  orb_width : forall img n, mrows (snd (detectAndCompute img n)) <> [] ->
    mcols (snd (detectAndCompute img n)) = 32%nat;
  orb_none : forall img n, fst (detectAndCompute img n) = [] ->
    snd (detectAndCompute img n) = empty_mat
}.

Section WithLibraries.
Context `{OD : OrbDetector} `{HS : HomographySolver}.

(** ** The code *)

(** [cv2.imread(filename, 0)].  The binding converts [filename] to a
    path: [None] is the empty path, a string is itself, and a list is
    refused with [cv2.error] ("Overload resolution failed"). *)
Definition imread (fs : gmap string Image) (filename : option OptValue) : result (option Image) :=
  match filename with
  | None => Ok (fs !! EmptyString)
  | Some (Str f) => Ok (fs !! f)
  | Some EmptyList => Raise (Cv2Error "imread")
  end.

(** Lines 16-23.  The message of line 19 concatenates a [str] with
    [filename]: [TypeError] when it is [None] (a list never gets there,
    [imread] has raised). *)
Definition read_image (fs : gmap string Image) (filename : option OptValue)
  : Py (Ev := Event) (option Image) :=
  (img <- lift (imread fs filename) ;;
   match img with
   | None =>
       match filename with
       | Some (Str f) =>
           emit (Print ("An error occurs. Image " ++ f ++ " cannot be loaded.")) ;;
           ret None
       | _ => raise TypeError
       end
   | Some img => emit (Print "Image successfully loaded.") ;; ret (Some img)
   end)%py.

(** [orb = cv2.ORB_create(nfeatures=n_features)];
    [key_points, descriptors = orb.detectAndCompute(image, None)]. *)
Definition find_orb_features (image : option Image) (n_features : Z) : list KeyPoint * DescMat :=
  match image with
  | None => ([], empty_mat)
  | Some img => detectAndCompute img n_features
  end.

(** [cv2.resize(img, (900, 600))]: 600 rows, 900 columns. *)
Definition resize_shape (dsize : nat * nat) : nat * nat := (snd dsize, fst dsize).

Definition main (fs : gmap string Image) (args : Args) : Py (Ev := Event) unit :=
  (img_query1 <- read_image fs (input1 args) ;;
   img_query2 <- read_image fs (input2 args) ;;
   img_main <- read_image fs (input3 args) ;;
   let f1 := find_orb_features img_query1 10000%Z in
   let f2 := find_orb_features img_query2 10000%Z in
   let f3 := find_orb_features img_main 10000%Z in
   matches1 <- lift (match_orb_features (snd f1) (snd f3)) ;;
   matches2 <- lift (match_orb_features (snd f2) (snd f3)) ;;
   im_matches1 <- lift (draw_corner_coordinates img_query1 img_main matches1 (fst f1) (fst f3)) ;;
   im_matches2 <- lift (draw_corner_coordinates img_query2 img_main matches2 (fst f2) (fst f3)) ;;
   let shape := resize_shape (900, 600)%nat in
   emit (ImShow "Query Image 1 Match" (fst shape) (snd shape)) ;;
   emit (ImShow "Query Image 2 Match" (fst shape) (snd shape)) ;;
   emit WaitKey)%py.

(** ** Specification helpers *)

(** The line [read_image] prints for a given path. *)
Definition status_line (fs : gmap string Image) (f : string) : Event :=
  match fs !! f with
  | Some _ => Print "Image successfully loaded."
  | None => Print ("An error occurs. Image " ++ f ++ " cannot be loaded.")
  end.

(** The path [read_image] reports for a string. *)
Definition arg_path (filename : option OptValue) : string :=
  match filename with Some (Str f) => f | _ => EmptyString end.

(** The output of a run of [main] that completes: the three status lines
    in argument order, the two windows of the resized canvases (600 rows,
    900 columns) and the key wait. *)
Definition main_output (fs : gmap string Image) (args : Args) : list Event :=
  [status_line fs (arg_path (input1 args)); status_line fs (arg_path (input2 args));
   status_line fs (arg_path (input3 args));
   ImShow "Query Image 1 Match" 600 900; ImShow "Query Image 2 Match" 600 900; WaitKey].

(** ** Lemmas *)

Lemma read_image_named fs f tr :
  read_image fs (Some (Str f)) tr = (Ok (fs !! f), tr ++ [status_line fs f]).
Proof. unfold read_image, bind, lift, imread, status_line. cbn. now destruct (fs !! f). Qed.

Lemma bind_read_named {A} fs f (k : option Image -> Py (Ev := Event) A) tr :
  bind (read_image fs (Some (Str f))) k tr = k (fs !! f) (tr ++ [status_line fs f]).
Proof. unfold bind. now rewrite read_image_named. Qed.

Lemma bind_lift_eq {A B} (r : result A) (k : A -> Py (Ev := Event) B) tr :
  bind (lift r) k tr = match r with Ok a => k a tr | Raise e => (Raise e, tr) end.
Proof. reflexivity. Qed.

Lemma find_orb_features_rows img n :
  length (fst (find_orb_features img n)) = length (mrows (snd (find_orb_features img n))).
Proof. destruct img; simpl; [apply orb_rows | reflexivity]. Qed.

Lemma find_orb_features_ok img n : mat_ok (snd (find_orb_features img n)) = true.
Proof. destruct img; simpl; [apply orb_ok | reflexivity]. Qed.

Lemma find_orb_features_width img n : (mcols (snd (find_orb_features img n)) <= 32)%nat.
Proof.
  destruct img as [i|]; simpl; [|lia].
  destruct (mrows (snd (detectAndCompute i n))) eqn:E.
  - pose proof (orb_rows i n) as Hr. rewrite E in Hr.
    apply length_zero_iff_nil in Hr. rewrite (orb_none i n Hr). simpl. lia.
  - rewrite orb_width by congruence. lia.
Qed.

Lemma draw_corner_coordinates_no_main qi good kpq kpm :
  draw_corner_coordinates qi None good kpq kpm = Raise AttributeError.
Proof. now destruct qi. Qed.

(** [read_image] either prints its status line and returns [imread]'s
    result, or raises before printing ([cv2.error] for a list,
    [TypeError] for a [None] path that does not load). *)
Lemma read_image_cases fs o tr :
  (exists img, imread fs o = Ok img
               /\ read_image fs o tr = (Ok img, tr ++ [status_line fs (arg_path o)]))
  \/ exists e, read_image fs o tr = (Raise e, tr).
Proof.
  unfold read_image, bind, lift, imread, status_line, arg_path.
  destruct o as [[f|]|]; [destruct (fs !! f) eqn:E | | destruct (fs !! _) eqn:E];
    cbn; eauto; left; eexists; split; reflexivity || (rewrite E; reflexivity).
Qed.

Lemma draw_corner_coordinates_no_query mi good kpq kpm :
  draw_corner_coordinates None mi good kpq kpm = Raise AttributeError.
Proof. reflexivity. Qed.

(** Reading the three images: each read either prints or raises. *)
Ltac read_step E :=
  match goal with
  | |- context [read_image ?fs ?o ?tr] =>
      destruct (read_image_cases fs o tr) as [(?img & ?Himg & E)|(?e & E)]; rewrite E; cbv beta iota
  end.

(** C22: every match the matcher returns in [main] names a keypoint of
    the query and a keypoint of the reference, so [drawMatches] accepts it
    and the point extraction of lines 55-60 never indexes out of range. *)
Theorem matches_index_keypoints img1 img3 n good :
  match_orb_features (snd (find_orb_features img1 n)) (snd (find_orb_features img3 n)) = Ok good ->
  forallb (valid_match (fst (find_orb_features img1 n)) (fst (find_orb_features img3 n))) good = true.
Proof.
  intros H. apply forallb_forall. intros m Hm.
  destruct (good_match_sound _ _ _ m (find_orb_features_ok img1 n)
              ltac:(pose proof (find_orb_features_width img1 n); lia) H Hm)
    as (q & t & Hq & Ht & Hq0 & Ht0 & _).
  apply nth_error_lt in Hq, Ht.
  rewrite <- find_orb_features_rows in Hq, Ht.
  unfold valid_match. repeat (apply andb_true_iff; split); first [apply Z.leb_le | apply Z.ltb_lt]; lia.
Qed.

(** C21: when one of the three images cannot be loaded, [main] prints
    the three status lines in argument order, shows no window and ends in
    an exception: the failed load is not reported as such but surfaces
    later, in [knnMatch] or as [None.shape] in [draw_corner_coordinates]. *)
Theorem main_load_failure fs f1 f2 f3 :
  fs !! f1 = None \/ fs !! f2 = None \/ fs !! f3 = None ->
  exists e, main fs (mkArgs (Some (Str f1)) (Some (Str f2)) (Some (Str f3))) []
            = (Raise e, [status_line fs f1; status_line fs f2; status_line fs f3]).
Proof.
  intros Hmiss. unfold main. cbn [input1 input2 input3].
  rewrite bind_read_named. cbv beta. rewrite bind_read_named. cbv beta.
  rewrite bind_read_named. cbv beta. cbn [app].
  rewrite bind_lift_eq. destruct (match_orb_features _ _) as [m1|e];
    [cbv beta iota | eexists; reflexivity].
  rewrite bind_lift_eq. destruct (match_orb_features _ _) as [m2|e];
    [cbv beta iota | eexists; reflexivity].
  rewrite bind_lift_eq.
  destruct (draw_corner_coordinates (fs !! f1) (fs !! f3) m1 _ _) as [c1|e] eqn:D1;
    [cbv beta iota | eexists; reflexivity].
  rewrite bind_lift_eq.
  destruct (draw_corner_coordinates (fs !! f2) (fs !! f3) m2 _ _) as [c2|e] eqn:D2;
    [cbv beta iota | eexists; reflexivity].
  exfalso. destruct Hmiss as [H|[H|H]]; rewrite H in *.
  - discriminate D1.
  - destruct (fs !! f3); discriminate D2.
  - now rewrite draw_corner_coordinates_no_main in D1.
Qed.

(** C27: a missing [--inputK] option is not reported: [imread] of the
    empty path fails and building the error message from [None] raises
    [TypeError] before anything of that load is printed. *)
Theorem main_missing_argument fs a2 a3 :
  fs !! EmptyString = None ->
  main fs (mkArgs None a2 a3) [] = (Raise TypeError, []).
Proof. intros H. unfold main, bind, read_image, imread. cbn. now rewrite H. Qed.

Lemma main_trace fs args :
  snd (main fs args []) `prefix_of` main_output fs args
  /\ (fst (main fs args []) = Ok tt -> snd (main fs args []) = main_output fs args).
Proof.
  unfold main, bind.
  read_step E1; [|split; [apply prefix_nil | discriminate]].
  read_step E2; [|split; [eexists; reflexivity | discriminate]].
  read_step E3; [|split; [eexists; reflexivity | discriminate]].
  unfold lift. cbn [app].
  repeat match goal with
         | |- context [match ?r with Ok _ => _ | Raise _ => _ end] =>
             destruct r; [cbv beta iota|split; [eexists; reflexivity | discriminate]]
         end.
  cbn. split; reflexivity.
Qed.

(** A run that raises has shown no window and awaited no key: its
    output is at most the three status lines.  Every call that can fail
    comes before the first [cv2.imshow]. *)
Lemma main_Raise_trace fs args e out :
  main fs args [] = (Raise e, out) -> out `prefix_of` take 3 (main_output fs args).
Proof.
  unfold main, bind.
  read_step E1; [|intros [= _ <-]; apply prefix_nil].
  read_step E2; [|intros [= _ <-]; eexists; reflexivity].
  read_step E3; [|intros [= _ <-]; eexists; reflexivity].
  unfold lift. cbn [app].
  repeat match goal with
         | |- context [match ?r with Ok _ => _ | Raise _ => _ end] =>
             destruct r; [cbv beta iota | intros [= _ <-]; eexists; reflexivity]
         end.
  intros H. inversion H.
Qed.

(** C9: the order of [main]'s output.  Whatever happens, what [main] has
    printed and shown is a prefix of [main_output]: the status lines come
    in argument order, no window opens before both queries are localised,
    and the key wait comes last; a run that returns prints and shows all
    of it. *)
Theorem main_output_order fs args :
  snd (main fs args []) `prefix_of` main_output fs args
  /\ (fst (main fs args []) = Ok tt -> snd (main fs args []) = main_output fs args).
Proof. apply main_trace. Qed.

Lemma main_Ok_loaded fs args :
  fst (main fs args []) = Ok tt ->
  (exists q1 q2 ref, imread fs (input1 args) = Ok (Some q1)
                     /\ imread fs (input2 args) = Ok (Some q2)
                     /\ imread fs (input3 args) = Ok (Some ref)).
Proof.
  unfold main, bind.
  read_step E1; [|discriminate]. read_step E2; [|discriminate]. read_step E3; [|discriminate].
  unfold lift.
  repeat match goal with
         | |- context [match ?r with Ok _ => _ | Raise _ => _ end] =>
             destruct r eqn:?; [cbv beta iota | discriminate]
         end.
  intros _.
  repeat match goal with
         | D : draw_corner_coordinates _ _ _ _ _ = Ok _ |- _ => revert D
         end.
  destruct img as [q1|], img0 as [q2|], img1 as [r|]; intros; try discriminate.
  now exists q1, q2, r.
Qed.

(** C12: [main] returns normally only when all three images were loaded:
    a [None] image is never localised nor shown. *)
Theorem main_success_loaded fs args :
  fst (main fs args []) = Ok tt ->
  (exists q1 q2 ref, imread fs (input1 args) = Ok (Some q1)
                     /\ imread fs (input2 args) = Ok (Some q2)
                     /\ imread fs (input3 args) = Ok (Some ref)).
Proof. apply main_Ok_loaded. Qed.

End WithLibraries.

(** ** A detector for concrete runs *)

(** One keypoint per pixel row, at [(0, i)], whose descriptor is the
    row's first 32 pixels (zero padded) as bytes.  It meets the laws of
    [OrbDetector]; it is not ORB. *)
Definition row_descriptor (row : list Z) : list Z :=
  map (fun x => x mod 256)%Z (firstn 32 (row ++ repeat 0%Z 32)).

Definition row_detect (img : Image) (n : Z) : list KeyPoint * DescMat :=
  match pixels img with
  | [] => ([], empty_mat)
  | rows => (map (fun i => mkKeyPoint (0, inject_Z (Z.of_nat i))%Q) (seq 0 (length rows)),
             mkMat 32 (map row_descriptor rows))
  end.

Lemma row_descriptor_ok row : row_ok 32 (row_descriptor row) = true.
Proof.
  unfold row_ok, row_descriptor. apply andb_true_iff. split.
  - apply Nat.eqb_eq. rewrite length_map, length_firstn, length_app, repeat_length. lia.
  - apply forallb_forall. intros x Hx. apply in_map_iff in Hx as (y & <- & _).
    unfold is_byte. pose proof (Z.mod_pos_bound y 256 ltac:(lia)).
    apply andb_true_iff. split; [apply Z.leb_le | apply Z.ltb_lt]; lia.
Qed.

#[export] Program Instance row_detector : OrbDetector := {| detectAndCompute := row_detect |}.
Next Obligation.
  intros img n. unfold row_detect. destruct (pixels img); simpl; auto.
  now rewrite length_map, length_seq, length_map.
Qed.
Next Obligation.
  intros img n. unfold row_detect. destruct (pixels img) as [|r rs]; [reflexivity|].
  unfold mat_ok. apply forallb_forall. intros d Hd. apply in_map_iff in Hd as (row & <- & _).
  apply row_descriptor_ok.
Qed.
Next Obligation.
  intros img n. unfold row_detect. destruct (pixels img); simpl; [congruence | reflexivity].
Qed.
Next Obligation.
  intros img n. unfold row_detect. destruct (pixels img); simpl; [reflexivity | discriminate].
Qed.

(** ** Concrete runs *)

(** Two 4x1 crops of an 11x1 reference, at rows 3 and 7. *)
Definition ex_q1 : Image := mkImage 4 1 [[1]; [2]; [3]; [4]]%Z.
Definition ex_q2 : Image := mkImage 4 1 [[5]; [6]; [7]; [8]]%Z.
Definition ex_ref : Image :=
  mkImage 11 1 [[100]; [101]; [102]; [1]; [2]; [3]; [4]; [5]; [6]; [7]; [8]]%Z.

Definition ex_fs : gmap string Image :=
  <["q1.png" := ex_q1]> (<["q2.png" := ex_q2]> (<["star_map.png" := ex_ref]> ∅)).

Definition ex_args : Args := mkArgs (Some (Str "q1.png")) (Some (Str "q2.png")) (Some (Str "star_map.png")).

(** Both crops are found: three status lines, two 600x900 windows, then
    the key wait. *)
Example main_ex_run :
  main ex_fs ex_args []
  = (Ok tt, [Print "Image successfully loaded."; Print "Image successfully loaded.";
             Print "Image successfully loaded.";
             ImShow "Query Image 1 Match" 600 900; ImShow "Query Image 2 Match" 600 900;
             WaitKey]).
Proof. vm_compute. reflexivity. Qed.

Example ex_q1_markers :
  rbind (match_orb_features (snd (find_orb_features (Some ex_q1) 10000))
                            (snd (find_orb_features (Some ex_ref) 10000)))
        (fun good => rbind (draw_corner_coordinates (Some ex_q1) (Some ex_ref) good
                              (fst (find_orb_features (Some ex_q1) 10000))
                              (fst (find_orb_features (Some ex_ref) 10000)))
                           (fun c => Ok (map position (c_markers c))))
  = Ok [(1, 3); (2, 3); (2, 7); (1, 7)]%Z.
Proof. vm_compute. reflexivity. Qed.

Lemma matches_index_keypoints_witness :
  match_orb_features (snd (find_orb_features (Some ex_q1) 10000))
                     (snd (find_orb_features (Some ex_ref) 10000))
  = Ok [mkDMatch 0 3 0 0; mkDMatch 1 4 0 0; mkDMatch 2 5 0 0; mkDMatch 3 6 0 0]
  /\ forallb (valid_match (fst (find_orb_features (Some ex_q1) 10000))
                          (fst (find_orb_features (Some ex_ref) 10000)))
             [mkDMatch 0 3 0 0; mkDMatch 1 4 0 0; mkDMatch 2 5 0 0; mkDMatch 3 6 0 0] = true.
Proof.
  split; [vm_compute; reflexivity|]. apply matches_index_keypoints. vm_compute. reflexivity.
Defined.

Lemma main_load_failure_witness :
  (ex_fs !! "q1.png" = None \/ ex_fs !! "q2.png" = None \/ ex_fs !! "missing.png" = None)
  /\ exists e, main ex_fs (mkArgs (Some (Str "q1.png")) (Some (Str "q2.png")) (Some (Str "missing.png"))) []
              = (Raise e, [status_line ex_fs "q1.png"; status_line ex_fs "q2.png";
                           status_line ex_fs "missing.png"]).
Proof.
  split; [right; right; vm_compute; reflexivity|].
  apply main_load_failure. right. right. vm_compute. reflexivity.
Defined.

Lemma main_missing_argument_witness :
  ex_fs !! EmptyString = None
  /\ main ex_fs (mkArgs None (Some (Str "q2.png")) (Some (Str "star_map.png"))) [] = (Raise TypeError, []).
Proof.
  split; [vm_compute; reflexivity|]. apply main_missing_argument. vm_compute. reflexivity.
Defined.

Lemma main_success_loaded_witness :
  fst (main ex_fs ex_args []) = Ok tt
  /\ exists q1 q2 ref, imread ex_fs (input1 ex_args) = Ok (Some q1)
                       /\ imread ex_fs (input2 ex_args) = Ok (Some q2)
                       /\ imread ex_fs (input3 ex_args) = Ok (Some ref).
Proof.
  split; [vm_compute; reflexivity|].
  apply (main_success_loaded ex_fs ex_args). vm_compute. reflexivity.
Defined.

End Pipeline.
