(* ===== verification/Cli.v ===== *)
(** The command line of [main] (lines 112-117): an [argparse] parser
    with [add_help=False] and three options [--input1], [--input2],
    [--input3], each taking one value and defaulting to [None]; no
    positional argument.  [parse_args] is argparse's algorithm for this
    parser, as in CPython 3.8-3.11:

    - each string of [argv] is classified ([_parse_optional]): the first
      ["--"] is a marker after which everything is an argument; an
      option string, an option string with [=value], or an unambiguous
      prefix of one ([allow_abbrev], [_get_option_tuples]) is an option;
      an ambiguous prefix is an error; a string looking like a negative
      number, or holding a space, is an argument; any other string
      starting with a dash is an unknown option;
    - the strings are then consumed left to right ([consume_optional]):
      an option takes its [=value] or the next string, which must be an
      argument (for an optional argparse strips the marker parts of the
      nargs pattern, so an option cannot take its value across ["--"]);
      the last occurrence wins, and anything not consumed, the marker
      included, is an extra;
    - the value stored is the string, except that [_get_values] removes
      a ["--"] from an option's arguments: [--inputK=--] stores an empty
      list ([get_value], [OptValue]);
    - extras are an error ("unrecognized arguments").

    Every error prints the usage to standard error and exits with status
    2 ([SystemExit(2)]).  Strings are byte strings; Python's [\d] also
    accepts non-ASCII digits, which the model does not.

    Proved: [--inputK=value] options print and parse back to the
    namespace of their values for every value but ["--"]; the separated
    form [--inputK value] does for values not starting with a dash;
    three bare paths are unrecognized arguments.  [Process] composes the
    parser with the rest of the program. *)

From Stdlib Require Import String Ascii List Bool Lia.
From S2P Require Import Prelude Pipeline.
Import ListNotations.

Module Cli.
Import Pipeline.
Local Open Scope string_scope.
Local Open Scope list_scope.

(** ** Data *)

Inductive opt := Input1 | Input2 | Input3.

(** Lines 114-116: the option strings, in the order they were added. *)
Definition opt_string (k : opt) : string :=
  match k with
  | Input1 => "--input1"
  | Input2 => "--input2"
  | Input3 => "--input3"
  end.

Definition options : list opt := [Input1; Input2; Input3].

(** One classified string of [argv]: the ['-'], ['A'] and ['O'] of
    argparse's pattern string; an option carries its action ([None] for
    an unknown option) and its explicit [=value]. *)
Inductive token :=
| TMarker
| TArg (s : string)
| TOpt (k : option opt) (explicit : option string) (s : string).

Inductive usage_error :=
| Ambiguous (arg : string)          (** ambiguous option: ... could match ... *)
| ExpectedOne (option : string)     (** argument ...: expected one argument *)
| Unrecognized (extras : list string).  (** unrecognized arguments: ... *)

Inductive cli (A : Type) := Parsed (a : A) | Usage (e : usage_error).
Arguments Parsed {A} a.
Arguments Usage {A} e.

Definition cli_bind {A B} (r : cli A) (f : A -> cli B) : cli B :=
  match r with Parsed a => f a | Usage e => Usage e end.

(** ** String helpers *)

Definition starts_with_dash (s : string) : bool :=
  match s with String c _ => Ascii.eqb c "-" | EmptyString => false end.

Fixpoint has_char (c : ascii) (s : string) : bool :=
  match s with
  | EmptyString => false
  | String c' s' => Ascii.eqb c c' || has_char c s'
  end.

(** [s.split('=', 1)] when [s] holds a ['=']. *)
Fixpoint split_eq (s : string) : option (string * string) :=
  match s with
  | EmptyString => None
  | String c s' =>
      if Ascii.eqb c "=" then Some (EmptyString, s')
      else option_map (fun p => (String c (fst p), snd p)) (split_eq s')
  end.

(** [_negative_number_matcher]: [^-\d+$|^-\d*\.\d+$], where [$] also
    matches before a final newline. *)
Definition negative_number (s : string) : bool :=
  let is_digit (c : ascii) := Nat.leb 48 (nat_of_ascii c) && Nat.leb (nat_of_ascii c) 57 in
  let fix digits (s : string) : bool :=
    match s with EmptyString => true | String c s' => is_digit c && digits s' end in
  let digits1 (s : string) := match s with EmptyString => false | _ => digits s end in
  (* [\d*\.\d+] over a whole string *)
  let fix decimal (s : string) : bool :=
    match s with
    | EmptyString => false
    | String c s' => if Ascii.eqb c "." then digits1 s' else is_digit c && decimal s'
    end in
  let fix drop_final_newline (s : string) : option string :=
    match s with
    | EmptyString => None
    | String c EmptyString => if Ascii.eqb c "010" then Some EmptyString else None
    | String c s' => option_map (String c) (drop_final_newline s')
    end in
  match s with
  | String c r =>
      Ascii.eqb c "-"
      && (digits1 r || decimal r
          || match drop_final_newline r with
             | Some r' => digits1 r' || decimal r'
             | None => false
             end)
  | EmptyString => false
  end.

(** ** The parser *)

Definition option_lookup (s : string) : option opt :=
  find (fun k => String.eqb (opt_string k) s) options.

(** [_get_option_tuples]: options an abbreviation may stand for. *)
Definition option_tuples (s : string) : list (opt * option string) :=
  match s with
  | String _ (String c2 _) =>
      if Ascii.eqb c2 "-" then
        let '(pre, expl) := match split_eq s with
                            | Some (p, v) => (p, Some v)
                            | None => (s, None)
                            end in
        map (fun k => (k, expl)) (filter (fun k => String.prefix pre (opt_string k)) options)
      else
        map (fun k => (k, None))
            (filter (fun k => String.eqb (opt_string k) (substring 0 2 s)
                              || String.prefix s (opt_string k)) options)
  | _ => []
  end.

(** [_parse_optional]. *)
Definition classify (s : string) : cli token :=
  if negb (starts_with_dash s) then Parsed (TArg s)
  else match option_lookup s with
  | Some k => Parsed (TOpt (Some k) None s)
  | None =>
      if Nat.eqb (String.length s) 1 then Parsed (TArg s)
      else match match split_eq s with
                 | Some (p, v) => option_map (fun k => (k, v)) (option_lookup p)
                 | None => None
                 end with
      | Some (k, v) => Parsed (TOpt (Some k) (Some v) s)
      | None =>
          match option_tuples s with
          | _ :: _ :: _ => Usage (Ambiguous s)
          | [(k, e)] => Parsed (TOpt (Some k) e s)
          | [] =>
              if negative_number s then Parsed (TArg s)
              else if has_char " " s then Parsed (TArg s)
              else Parsed (TOpt None None s)
          end
      end
  end.

(** The first pass of [_parse_known_args]: after the first ["--"] every
    string is an argument. *)
Fixpoint classify_all (argv : list string) : cli (list token) :=
  match argv with
  | [] => Parsed []
  | s :: rest =>
      if String.eqb s "--" then Parsed (TMarker :: map TArg rest)
      else cli_bind (classify s) (fun t =>
           cli_bind (classify_all rest) (fun ts => Parsed (t :: ts)))
  end.

(** [_get_values] for an option with one argument: the first ['--'] of
    its argument strings is removed, so the value ['--'] leaves the empty
    list, which is what gets stored. *)
Definition get_value (v : string) : OptValue :=
  if String.eqb v "--" then EmptyList else Str v.

(** [setattr(namespace, dest, value)]. *)
Definition set_opt (k : opt) (v : OptValue) (a : Args) : Args :=
  match k with
  | Input1 => mkArgs (Some v) (input2 a) (input3 a)
  | Input2 => mkArgs (input1 a) (Some v) (input3 a)
  | Input3 => mkArgs (input1 a) (input2 a) (Some v)
  end.

(** The second pass ([consume_optional] in the loop of
    [_parse_known_args], no positionals): options consume their value,
    everything else is an extra, the ['--'] marker included.  An option
    without [=value] matches its arguments against the nargs pattern of
    one argument with the marker parts stripped, as argparse does for an
    optional: its value is the next string, which must be an argument,
    not an option and not the marker. *)
Fixpoint consume (toks : list token) (ns : Args) (extras : list string)
  : cli (Args * list string) :=
  match toks with
  | [] => Parsed (ns, extras)
  | TMarker :: rest => consume rest ns (extras ++ ["--"])
  | TArg s :: rest => consume rest ns (extras ++ [s])
  | TOpt None _ s :: rest => consume rest ns (extras ++ [s])
  | TOpt (Some k) (Some v) _ :: rest => consume rest (set_opt k (get_value v) ns) extras
  | TOpt (Some k) None _ :: rest =>
      match rest with
      | TArg v :: rest' => consume rest' (set_opt k (get_value v) ns) extras
      | _ => Usage (ExpectedOne (opt_string k))
      end
  end.

(** Line 117: [args = parser.parse_args()]. *)
Definition parse_args (argv : list string) : cli Args :=
  cli_bind (classify_all argv) (fun toks =>
  cli_bind (consume toks (mkArgs None None None) []) (fun r =>
  match snd r with
  | [] => Parsed (fst r)
  | extras => Usage (Unrecognized extras)
  end)).

(** ** Command lines for given paths *)

(** The namespace holding the given strings. *)
Definition paths (o1 o2 o3 : option string) : Args :=
  mkArgs (option_map Str o1) (option_map Str o2) (option_map Str o3).

Definition render_one (k : opt) (o : option string) : list string :=
  match o with Some v => [String.append (opt_string k) (String.append "=" v)] | None => [] end.

(** [--input1=p1 --input2=p2 --input3=p3], absent options left out. *)
Definition render_eq (o1 o2 o3 : option string) : list string :=
  render_one Input1 o1 ++ render_one Input2 o2 ++ render_one Input3 o3.

Definition render_sep_one (k : opt) (o : option string) : list string :=
  match o with Some v => [opt_string k; v] | None => [] end.

(** [--input1 p1 --input2 p2 --input3 p3], absent options left out. *)
Definition render_sep (o1 o2 o3 : option string) : list string :=
  render_sep_one Input1 o1 ++ render_sep_one Input2 o2 ++ render_sep_one Input3 o3.

(** ** Lemmas *)

Lemma classify_arg s : starts_with_dash s = false -> classify s = Parsed (TArg s).
Proof. intros H. unfold classify. now rewrite H. Qed.

Lemma not_marker s : starts_with_dash s = false -> String.eqb s "--" = false.
Proof. destruct s as [|c s]; [reflexivity|]. cbn. intros H. now rewrite H. Qed.

(** A string that does not start with a dash is an argument. *)
Lemma classify_all_arg s rest :
  starts_with_dash s = false ->
  classify_all (s :: rest) = cli_bind (classify_all rest) (fun ts => Parsed (TArg s :: ts)).
Proof. intros H. cbn [classify_all]. now rewrite not_marker, classify_arg. Qed.

(** [--inputK=value] is the option with its explicit value, whatever the
    value. *)
Lemma classify_all_eq k v rest :
  classify_all (String.append (opt_string k) (String.append "=" v) :: rest)
  = cli_bind (classify_all rest)
      (fun ts => Parsed (TOpt (Some k) (Some v) (String.append (opt_string k) (String.append "=" v)) :: ts)).
Proof. destruct k; reflexivity. Qed.

Lemma classify_all_opt k rest :
  classify_all (opt_string k :: rest)
  = cli_bind (classify_all rest) (fun ts => Parsed (TOpt (Some k) None (opt_string k) :: ts)).
Proof. destruct k; reflexivity. Qed.

Lemma get_value_str v : v <> "--" -> get_value v = Str v.
Proof. intros H. unfold get_value. destruct (String.eqb_spec v "--"); congruence. Qed.

Lemma get_value_arg v : starts_with_dash v = false -> get_value v = Str v.
Proof. intros H. unfold get_value. now rewrite not_marker. Qed.

(** The separated form parses to the namespace of its paths. *)
Lemma render_sep_parses o1 o2 o3 :
  (forall v, In (Some v) [o1; o2; o3] -> starts_with_dash v = false) ->
  parse_args (render_sep o1 o2 o3) = Parsed (paths o1 o2 o3).
Proof.
  intros H.
  assert (H1 : forall v, o1 = Some v -> starts_with_dash v = false) by (intros v ->; apply H; cbn; auto).
  assert (H2 : forall v, o2 = Some v -> starts_with_dash v = false) by (intros v ->; apply H; cbn; auto).
  assert (H3 : forall v, o3 = Some v -> starts_with_dash v = false) by (intros v ->; apply H; cbn; auto).
  unfold parse_args, render_sep.
  destruct o1 as [v1|], o2 as [v2|], o3 as [v3|]; cbn [render_sep_one app];
    repeat first [ rewrite classify_all_opt
                 | rewrite classify_all_arg by (first [apply H1; reflexivity | apply H2; reflexivity | apply H3; reflexivity]) ];
    cbn -[get_value];
    repeat first [ rewrite (get_value_arg v1) by (apply H1; reflexivity)
                 | rewrite (get_value_arg v2) by (apply H2; reflexivity)
                 | rewrite (get_value_arg v3) by (apply H3; reflexivity) ];
    reflexivity.
Qed.

(** An explicit ['--'] value of the first option is stored as the empty
    list, whatever follows in the form [render_eq]. *)
Lemma parse_args_marker_first o2 o3 :
  exists a2 a3, parse_args ("--input1=--" :: render_eq None o2 o3)
                = Parsed (mkArgs (Some EmptyList) a2 a3).
Proof.
  change "--input1=--" with (String.append (opt_string Input1) (String.append "=" "--")).
  unfold parse_args, render_eq. rewrite classify_all_eq.
  destruct o2, o3; cbn [render_one app]; repeat rewrite classify_all_eq;
    cbn -[get_value]; eexists _, _; reflexivity.
Qed.

(** ** Properties of the parser *)

(** C35: printing paths as [--inputK=value] options and parsing them back
    gives the namespace of the paths, whatever their characters (a
    leading dash, an [=], a space, the empty string), except the string
    ['--'], which argparse stores as an empty list ([get_value]). *)
Theorem parse_args_roundtrip o1 o2 o3 :
  (forall v, In (Some v) [o1; o2; o3] -> v <> "--") ->
  parse_args (render_eq o1 o2 o3) = Parsed (paths o1 o2 o3).
Proof.
  intros H.
  assert (H1 : forall v, o1 = Some v -> v <> "--") by (intros v ->; apply H; cbn; auto).
  assert (H2 : forall v, o2 = Some v -> v <> "--") by (intros v ->; apply H; cbn; auto).
  assert (H3 : forall v, o3 = Some v -> v <> "--") by (intros v ->; apply H; cbn; auto).
  unfold parse_args, render_eq.
  destruct o1 as [v1|], o2 as [v2|], o3 as [v3|]; cbn [render_one app];
    repeat rewrite classify_all_eq; cbn -[get_value];
    repeat first [ rewrite (get_value_str v1) by (apply H1; reflexivity)
                 | rewrite (get_value_str v2) by (apply H2; reflexivity)
                 | rewrite (get_value_str v3) by (apply H3; reflexivity) ];
    reflexivity.
Qed.

(** C31: the usual command line [--input1 p1 --input2 p2 --input3 p3]
    (any options left out) gives the namespace of its paths, for paths
    that do not start with a dash. *)
Theorem parse_args_separated o1 o2 o3 :
  (forall v, In (Some v) [o1; o2; o3] -> starts_with_dash v = false) ->
  parse_args (render_sep o1 o2 o3) = Parsed (paths o1 o2 o3).
Proof. apply render_sep_parses. Qed.

(** C33: the three paths given as positional arguments, the form of the
    spec's "three path arguments", are rejected: argparse reports them
    as unrecognized arguments. *)
Theorem parse_args_positional_paths p1 p2 p3 :
  starts_with_dash p1 = false -> starts_with_dash p2 = false -> starts_with_dash p3 = false ->
  parse_args [p1; p2; p3] = Usage (Unrecognized [p1; p2; p3]).
Proof.
  intros H1 H2 H3. unfold parse_args.
  rewrite classify_all_arg by exact H1. rewrite classify_all_arg by exact H2.
  rewrite classify_all_arg by exact H3. reflexivity.
Qed.

(** ** Concrete command lines *)

(** The three ['--'] cases of CPython 3.8-3.11: a marker after an
    option's value is an extra, an option cannot take its value across
    the marker, and an explicit ['--'] is stored as the empty list. *)
Example parse_args_marker_cases :
  parse_args ["--input1"; "a"; "--"] = Usage (Unrecognized ["--"])
  /\ parse_args ["--input1"; "--"; "a"] = Usage (ExpectedOne "--input1")
  /\ parse_args ["--input1=--"] = Parsed (mkArgs (Some EmptyList) None None).
Proof. vm_compute. repeat split. Qed.

Lemma parse_args_separated_witness :
  render_sep (Some "q1.png") (Some "q2.png") (Some "ref.png")
  = ["--input1"; "q1.png"; "--input2"; "q2.png"; "--input3"; "ref.png"]
  /\ parse_args (render_sep (Some "q1.png") (Some "q2.png") (Some "ref.png"))
     = Parsed (mkArgs (Some (Str "q1.png")) (Some (Str "q2.png")) (Some (Str "ref.png"))).
Proof.
  split; [reflexivity|]. apply parse_args_separated.
  intros v [Hv|[Hv|[Hv|[]]]]; injection Hv as <-; reflexivity.
Defined.

Lemma parse_args_roundtrip_witness :
  render_eq (Some "-q1.png") (Some "a=b") (Some "")
  = ["--input1=-q1.png"; "--input2=a=b"; "--input3="]
  /\ parse_args (render_eq (Some "-q1.png") (Some "a=b") (Some ""))
     = Parsed (mkArgs (Some (Str "-q1.png")) (Some (Str "a=b")) (Some (Str ""))).
Proof.
  split; [reflexivity|]. apply parse_args_roundtrip.
  intros v [Hv|[Hv|[Hv|[]]]]; injection Hv as <-; discriminate.
Defined.

Lemma parse_args_positional_paths_witness :
  parse_args ["q1.png"; "q2.png"; "ref.png"] = Usage (Unrecognized ["q1.png"; "q2.png"; "ref.png"]).
Proof. apply parse_args_positional_paths; reflexivity. Defined.

End Cli.
