(* ===== verification/Process.v ===== *)
(** The script as a process: [if __name__ == "__main__": main()]
    (lines 144-145) runs [main] from an empty output, and the last call of
    [main], [cv2.waitKey()] with no delay (line 141), blocks until the
    window system delivers a key press.  The interpreter then leaves with
    status 0; an exception that escapes [main] ends it at once with status
    1 (the spec's simple success/failure binary).  Before all that,
    [parser.parse_args()] (line 117, modelled in [Cli]) may reject the
    command line, which exits with status 2 ([launch_argv], [run_argv]).

    The process is a small state machine: [Start], [Waiting out] (blocked
    in [waitKey] with the output [out] produced so far) and
    [Exited status out].  [step] is its transition relation, labelled by
    the input consumed ([None] for the run of [main]); [reachable] its
    reachable states, on which invariants are proved by rule induction.
    [run] is the executable semantics on a finite sequence of inputs, and
    each of its outcomes is a reachable state.  Proved: the
    exit-status invariants (status 0 only after the complete output,
    status 1 only after an exception and before any window), liveness
    (the first key press ends a successful run, ticks alone never do),
    and, from the command line, what each exit status means and the
    runs of an empty command line and of an explicit ['--'] value. *)

From Stdlib Require Import String ZArith List Lia.
From stdpp Require Import base strings gmap.
From S2P Require Import Prelude PyEffects Localizer Pipeline Cli.
Import ListNotations.

Module Process.
Import Localizer Pipeline Cli.

(** ** Data *)

(** What the window system delivers while [cv2.waitKey()] blocks: a
    wake-up without a key, or a key press with its code. *)
Inductive input := Tick | KeyPress (code : Z).

Inductive proc :=
| Start
| Waiting (out : list Event)
| Exited (status : Z) (out : list Event).

Section WithLibraries.
Context `{OD : OrbDetector} `{HS : HomographySolver}.

(** ** The code *)

(** Lines 144-145: [main()] from an empty output.  A normal return of
    the modelled [main] ends in the [WaitKey] event: the process is then
    blocked in [cv2.waitKey()].  An uncaught exception exits with
    status 1. *)
Definition launch (fs : gmap string Image) (args : Args) : proc :=
  match main fs args [] with
  | (Ok _, out) => Waiting out
  | (Raise _, out) => Exited 1 out
  end.

(** Line 141: [cv2.waitKey()] returns at the first key press; [main]
    then returns [None] and the interpreter exits with status 0. *)
Fixpoint waitKey (out : list Event) (inputs : list input) : proc :=
  match inputs with
  | [] => Waiting out
  | Tick :: rest => waitKey out rest
  | KeyPress _ :: _ => Exited 0 out
  end.

(** The process on a finite sequence of inputs. *)
Definition run (fs : gmap string Image) (args : Args) (inputs : list input) : proc :=
  match launch fs args with
  | Waiting out => waitKey out inputs
  | p => p
  end.

(** Lines 112-117 before the rest of [main]: [parser.parse_args()] on
    [sys.argv[1:]].  A usage error prints the usage to stderr and exits
    with status 2 before any image is read; otherwise [main] goes on with
    the parsed namespace. *)
Definition launch_argv (fs : gmap string Image) (argv : list string) : proc :=
  match parse_args argv with
  | Usage _ => Exited 2 []
  | Parsed a => launch fs a
  end.

(** The process started with the command line [argv]. *)
Definition run_argv (fs : gmap string Image) (argv : list string) (inputs : list input) : proc :=
  match launch_argv fs argv with
  | Waiting out => waitKey out inputs
  | p => p
  end.

(** ** The transition relation *)

Inductive step (fs : gmap string Image) (args : Args) : proc -> option input -> proc -> Prop :=
| step_launch : step fs args Start None (launch fs args)
| step_tick out : step fs args (Waiting out) (Some Tick) (Waiting out)
| step_key out k : step fs args (Waiting out) (Some (KeyPress k)) (Exited 0 out).

Inductive reachable (fs : gmap string Image) (args : Args) : proc -> Prop :=
| reach_start : reachable fs args Start
| reach_step s l s' : reachable fs args s -> step fs args s l s' -> reachable fs args s'.

#[local] Hint Constructors step reachable : core.

(** ** Lemmas *)

(** [main] either returns, with all of [main_output], or raises. *)
Lemma launch_cases fs args :
  (fst (main fs args []) = Ok tt /\ launch fs args = Waiting (main_output fs args))
  \/ (exists e out, main fs args [] = (Raise e, out) /\ launch fs args = Exited 1 out).
Proof.
  destruct (main_trace fs args) as [_ Hok]. unfold launch.
  destruct (main fs args []) as [[[]|e] out]; cbn in Hok |- *.
  - left. now rewrite Hok.
  - right. eauto.
Qed.

Lemma waitKey_reachable fs args out inputs :
  reachable fs args (Waiting out) -> reachable fs args (waitKey out inputs).
Proof.
  intros H. induction inputs as [|[|k] rest IH]; cbn; auto.
  exact (reach_step fs args _ (Some (KeyPress k)) _ H (step_key fs args out k)).
Qed.

Lemma run_reachable_state fs args inputs : reachable fs args (run fs args inputs).
Proof.
  assert (H : reachable fs args (launch fs args)) by eauto.
  unfold run. destruct (launch fs args); auto. now apply waitKey_reachable.
Qed.

(** A waiting state holds the output of a normal return of [main]. *)
Lemma reachable_out fs args s :
  reachable fs args s ->
  match s with
  | Start => True
  | Waiting out => fst (main fs args []) = Ok tt /\ out = main_output fs args
  | Exited st out =>
      (st = 0%Z /\ fst (main fs args []) = Ok tt /\ out = main_output fs args)
      \/ (st = 1%Z /\ exists e, main fs args [] = (Raise e, out))
  end.
Proof.
  induction 1 as [|s l s' _ IH Hs]; [exact I|].
  destruct Hs as [| out | out k].
  - destruct (launch_cases fs args) as [(Hok & ->)|(e & out & Hm & ->)]; eauto.
  - exact IH.
  - destruct IH as [Hok ->]. auto.
Qed.

(** C15: the process exits with status 0 only after [main] has produced
    all of [main_output] (three status lines, both windows, the key wait)
    and all three images were loaded. *)
Theorem process_exit_zero fs args out :
  reachable fs args (Exited 0 out) ->
  out = main_output fs args
  /\ exists q1 q2 ref, imread fs (input1 args) = Ok (Some q1)
                       /\ imread fs (input2 args) = Ok (Some q2)
                       /\ imread fs (input3 args) = Ok (Some ref).
Proof.
  intros H. apply reachable_out in H as [(_ & Hok & ->)|(? & _)]; [|discriminate].
  split; [reflexivity|]. now apply main_Ok_loaded.
Qed.

(** C16: a process that exits with status 1 has shown no window and
    awaited no key: [main] raised, and its output is at most the three
    status lines, in argument order. *)
Theorem process_exit_one fs args out :
  reachable fs args (Exited 1 out) ->
  (exists e, main fs args [] = (Raise e, out)) /\ out `prefix_of` take 3 (main_output fs args).
Proof.
  intros H. apply reachable_out in H as [(? & _)|(_ & e & Hm)]; [discriminate|].
  split; [eauto | exact (main_Raise_trace _ _ _ _ Hm)].
Qed.

(** C14: liveness of the key wait.  After a normal return of [main] the
    process stays blocked with the complete output through any number of
    wake-ups without a key, and exits with status 0 at the first key
    press, whatever follows it. *)
Theorem process_exits_on_key fs args :
  fst (main fs args []) = Ok tt ->
  forall n k rest,
    run fs args (repeat Tick n) = Waiting (main_output fs args)
    /\ run fs args (repeat Tick n ++ KeyPress k :: rest) = Exited 0 (main_output fs args).
Proof.
  intros Hok n k rest.
  destruct (launch_cases fs args) as [(_ & Hl)|(e & out & Hm & _)];
    [|rewrite Hm in Hok; discriminate].
  unfold run. rewrite Hl. split; induction n; cbn; auto.
Qed.


Lemma run_argv_parsed fs argv a inputs :
  parse_args argv = Parsed a -> run_argv fs argv inputs = run fs a inputs.
Proof. intros H. unfold run_argv, launch_argv, run. now rewrite H. Qed.


(** C36: with no arguments at all argparse succeeds (every option is
    optional), and the process then exits with status 1 and no output:
    [read_image(None)] raises [TypeError] when the empty path does not
    load. *)
Theorem process_no_arguments fs inputs :
  fs !! EmptyString = None -> run_argv fs [] inputs = Exited 1 [].
Proof.
  intros H. rewrite (run_argv_parsed _ _ (mkArgs None None None)) by reflexivity.
  unfold run, launch, main, bind, read_image, lift, imread. cbn. now rewrite H.
Qed.

(** C17: an explicit ['--'] value ([--input1=--]) is stored by argparse
    as an empty list; [cv2.imread] refuses it with [cv2.error], so the
    process exits with status 1 before printing anything, whatever the
    other options. *)
Theorem process_marker_value fs o2 o3 inputs :
  run_argv fs ("--input1=--" :: render_eq None o2 o3) inputs = Exited 1 [].
Proof.
  destruct (parse_args_marker_first o2 o3) as (a2 & a3 & Hp).
  rewrite (run_argv_parsed _ _ _ _ Hp). reflexivity.
Qed.

End WithLibraries.

(** ** Concrete runs, with the detector and solver of [Pipeline] and
    [Localizer] *)

Definition ex_missing_args : Args :=
  mkArgs (Some (Str "q1.png")) (Some (Str "q2.png")) (Some (Str "missing.png")).

Lemma process_exit_zero_witness :
  reachable ex_fs ex_args (Exited 0 (main_output ex_fs ex_args))
  /\ main_output ex_fs ex_args = main_output ex_fs ex_args
  /\ exists q1 q2 ref, imread ex_fs (input1 ex_args) = Ok (Some q1)
                       /\ imread ex_fs (input2 ex_args) = Ok (Some q2)
                       /\ imread ex_fs (input3 ex_args) = Ok (Some ref).
Proof.
  assert (H : reachable ex_fs ex_args (Exited 0 (main_output ex_fs ex_args))).
  { replace (Exited 0 (main_output ex_fs ex_args)) with (run ex_fs ex_args [Tick; KeyPress 27])
      by (vm_compute; reflexivity).
    apply run_reachable_state. }
  split; [exact H|]. apply process_exit_zero. exact H.
Defined.

(** The three status lines of a run whose reference image is missing. *)
Definition ex_missing_out : list Event :=
  [status_line ex_fs "q1.png"; status_line ex_fs "q2.png"; status_line ex_fs "missing.png"].

Lemma process_exit_one_witness :
  reachable ex_fs ex_missing_args (Exited 1 ex_missing_out)
  /\ (exists e, main ex_fs ex_missing_args [] = (Raise e, ex_missing_out))
  /\ ex_missing_out `prefix_of` take 3 (main_output ex_fs ex_missing_args).
Proof.
  assert (H : reachable ex_fs ex_missing_args (Exited 1 ex_missing_out)).
  { replace (Exited 1 ex_missing_out) with (run ex_fs ex_missing_args [KeyPress 27])
      by (vm_compute; reflexivity).
    apply run_reachable_state. }
  split; [exact H|]. apply process_exit_one. exact H.
Defined.


Lemma process_exits_on_key_witness :
  fst (main ex_fs ex_args []) = Ok tt
  /\ run ex_fs ex_args (repeat Tick 3) = Waiting (main_output ex_fs ex_args)
  /\ run ex_fs ex_args (repeat Tick 3 ++ [KeyPress 27]) = Exited 0 (main_output ex_fs ex_args).
Proof.
  assert (H : fst (main ex_fs ex_args []) = Ok tt) by (vm_compute; reflexivity).
  split; [exact H|]. apply (process_exits_on_key _ _ H 3 27 []).
Defined.

Lemma process_no_arguments_witness :
  ex_fs !! EmptyString = None /\ run_argv ex_fs [] [KeyPress 27] = Exited 1 [].
Proof.
  assert (H : ex_fs !! EmptyString = None) by (vm_compute; reflexivity).
  split; [exact H|]. exact (process_no_arguments ex_fs [KeyPress 27] H).
Defined.

End Process.
